(** * RLIIM kiosk bridge: spreadsheet import and production merge

    A shallow embedding of [rliim_import/rliimcmimport.py] and
    [rliim_import/rliim2kioskimport.py].

    Cell text is modelled by [string], whose characters are the 256 code
    points of Latin-1; Python's [str] methods are written out on them.
    The relational tables are lists of rows. The database is PostgreSQL
    behind psycopg2: the primary key of the staging table is enforced by
    its insert operation, and what the database makes of a parameter for
    a column or for a comparison, the error of a type that does not fit
    included, is written out where a statement takes the parameter. *)

From Stdlib Require Import ZArith List Bool Lia Ascii String.
From Stdlib Require Import Numbers.DecimalString Floats.SpecFloat.
Import ListNotations.

Open Scope string_scope.
Open Scope Z_scope.

(** ** Python string primitives *)

Module PyStr.

Definition code (c : ascii) : N := N_of_ascii c.

(** [str.isspace] on one code point below 256. *)
Definition is_space (c : ascii) : bool :=
  let n := code c in
  (((9 <=? n) && (n <=? 13)) || ((28 <=? n) && (n <=? 32))
   || (n =? 133) || (n =? 160))%N.

(** The regex class [\d] on a code point below 256. *)
Definition is_digit (c : ascii) : bool :=
  let n := code c in ((48 <=? n) && (n <=? 57))%N.

Definition digit_val (c : ascii) : Z := Z.of_N (code c) - 48.

Fixpoint lstrip (s : string) : string :=
  match s with
  | String c s' => if is_space c then lstrip s' else s
  | EmptyString => EmptyString
  end.

Fixpoint rstrip (s : string) : string :=
  match s with
  | EmptyString => EmptyString
  | String c s' =>
      match rstrip s' with
      | EmptyString => if is_space c then EmptyString else String c EmptyString
      | r => String c r
      end
  end.

(** [s.strip()] *)
Definition strip (s : string) : string := rstrip (lstrip s).

Definition lower_char (c : ascii) : ascii :=
  let n := code c in
  if (((65 <=? n) && (n <=? 90))
      || ((192 <=? n) && (n <=? 222) && negb (n =? 215)))%N
  then ascii_of_N (n + 32) else c.

(** [s.lower()] *)
Fixpoint lower (s : string) : string :=
  match s with
  | EmptyString => EmptyString
  | String c s' => String (lower_char c) (lower s')
  end.

(** [sub in s] *)
Fixpoint contains (sub s : string) : bool :=
  if prefix sub s then true
  else match s with
       | EmptyString => false
       | String _ s' => contains sub s'
       end.

(** [s.split(sep)] for a one-character separator. *)
Fixpoint split (sep : ascii) (s : string) : list string :=
  match s with
  | EmptyString => [EmptyString]
  | String c s' =>
      if Ascii.eqb c sep then EmptyString :: split sep s'
      else match split sep s' with
           | p :: ps => String c p :: ps
           | [] => [String c EmptyString]
           end
  end.

(** [s.replace(a, b)] for one-character [a] and [b]. *)
Fixpoint replace (a b : ascii) (s : string) : string :=
  match s with
  | EmptyString => EmptyString
  | String c s' => String (if Ascii.eqb c a then b else c) (replace a b s')
  end.

(** [s[1:]] *)
Definition tail (s : string) : string :=
  match s with
  | EmptyString => EmptyString
  | String _ s' => s'
  end.

(** [str(n)] for an [int]. *)
Definition of_Z (n : Z) : string := NilEmpty.string_of_int (Z.to_int n).

(** The digits of [int(s)] after the sign: decimal digits, single
    underscores allowed between two digits only. *)
Fixpoint int_body (s : string) (acc : Z) (after_digit : bool) : option Z :=
  match s with
  | EmptyString => if after_digit then Some acc else None
  | String c s' =>
      if is_digit c then int_body s' (10 * acc + digit_val c) true
      else if Ascii.eqb c "_" then
             if after_digit then int_body s' acc false else None
           else None
  end.

(** [int(s)] for a [str]; [None] stands for [ValueError]. *)
Definition to_int (s : string) : option Z :=
  match strip s with
  | String "+" s' => int_body s' 0 false
  | String "-" s' => option_map Z.opp (int_body s' 0 false)
  | s' => int_body s' 0 false
  end.

End PyStr.

(** ** Cell values

    What openpyxl hands out as [cell.value] of a workbook opened with
    [data_only=True]. The text of a cell is read from XML, which has no
    NUL character; the driver would refuse a text with one. *)

Inductive cell : Type :=
| CNone                              (* None *)
| CStr (s : string)                  (* str *)
| CInt (z : Z)                       (* int *)
| CFloat (f : spec_float)            (* float *)
| CBool (b : bool)                   (* bool *)
| CDatetime (t : Z)                  (* datetime.datetime *)
| COther (truthy : bool).            (* date, time, timedelta *)

Definition row := list cell.

(** [row[i].value]; [None] stands for [IndexError]. *)
Definition cell_at (r : row) (i : nat) : option cell := nth_error r i.

Definition float_is_zero (f : spec_float) : bool :=
  match f with
  | S754_zero _ => true
  | _ => false
  end.

(** Python truthiness of a cell value. *)
Definition truthy (c : cell) : bool :=
  match c with
  | CNone => false
  | CStr s => negb (s =? "")%string
  | CInt z => negb (z =? 0)
  | CFloat f => negb (float_is_zero f)
  | CBool b => b
  | CDatetime _ => true
  | COther b => b
  end.

(** [int(x)] for a [float]: truncation toward zero; [None] stands for the
    [ValueError] of a nan and the [OverflowError] of an infinity. *)
Definition float_to_int (f : spec_float) : option Z :=
  match f with
  | S754_zero _ => Some 0
  | S754_finite s m e =>
      let a := if 0 <=? e then Z.pos m * 2 ^ e else Z.pos m / 2 ^ (- e) in
      Some (if s then - a else a)
  | _ => None
  end.

(** [int(value)]; [None] stands for the exception it raises. *)
Definition py_int (c : cell) : option Z :=
  match c with
  | CStr s => PyStr.to_int s
  | CInt z => Some z
  | CFloat f => float_to_int f
  | CBool b => Some (if b then 1 else 0)
  | CNone | CDatetime _ | COther _ => None
  end.

(** [not value or not str(value).strip()]: the text of a value that is not
    a string is never blank. *)
Definition first_cell_empty (c : cell) : bool :=
  negb (truthy c) ||
  match c with
  | CStr s => (PyStr.strip s =? "")%string
  | _ => false
  end.

(** [isinstance(v, datetime.datetime)] *)
Definition is_datetime (c : cell) : bool :=
  match c with
  | CDatetime _ => true
  | _ => false
  end.

(** [isinstance(v, int) or isinstance(v, float)]; [bool] is a subclass of
    [int]. *)
Definition is_number (c : cell) : bool :=
  match c with
  | CInt _ | CFloat _ | CBool _ => true
  | _ => false
  end.

(** ** The two patterns *)

(** Membership in the character class [[A|B|C|D]]: the bar is a member. *)
Definition in_trench_class (c : ascii) : bool :=
  (Ascii.eqb c "A" || Ascii.eqb c "|" || Ascii.eqb c "B"
   || Ascii.eqb c "C" || Ascii.eqb c "D")%bool.

(** [$] matches at the end and before a newline that ends the text. *)
Definition at_end (s : string) : bool :=
  match s with
  | EmptyString => true
  | String c EmptyString => Ascii.eqb c "010"
  | _ => false
  end.

(** [re.search(r"^[A|B|C|D]\d\d\d$", s)] *)
Definition re_context (s : string) : bool :=
  match s with
  | String x (String d1 (String d2 (String d3 rest))) =>
      in_trench_class x && PyStr.is_digit d1 && PyStr.is_digit d2
      && PyStr.is_digit d3 && at_end rest
  | _ => false
  end.

(** [re.search(r"^[A|B|C|D]$", s)] *)
Definition re_trench (s : string) : bool :=
  match s with
  | String x rest => in_trench_class x && at_end rest
  | _ => false
  end.

(** The pattern [^[A-D]\d{3}$] of the specification. *)
Definition in_A_to_D (c : ascii) : bool :=
  let n := PyStr.code c in ((65 <=? n) && (n <=? 68))%N.



(** ** The weight in grams

    [get_grams], which no pass calls. A [float] is a binary64 number of
    IEEE 754, written as a [spec_float] with 53 bits of precision:
    [float(text)] is the number nearest to the decimal fraction the text
    spells, a tie going to the even one, and the product of two floats is
    the nearest to their product. *)

Definition is_num_char (c : ascii) : bool :=
  PyStr.is_digit c || Ascii.eqb c "|" || Ascii.eqb c "." || Ascii.eqb c ",".

(** The class [[A-z]]. *)
Definition is_unit_char (c : ascii) : bool :=
  let n := PyStr.code c in ((65 <=? n) && (n <=? 122))%N.

(** The longest start of [s] in the class [p], and what follows it. *)
Fixpoint span (p : ascii -> bool) (s : string) : string * string :=
  match s with
  | String c s' =>
      if p c then let (a, b) := span p s' in (String c a, b)
      else (EmptyString, s)
  | EmptyString => (EmptyString, EmptyString)
  end.

(** The binary64 number nearest to [acc / 10 ^ scale], for [acc] that is
    not negative. *)
Definition float_of_decimal (acc : Z) (scale : nat) : spec_float :=
  match acc with
  | Zpos m =>
      SFdiv 53 1024 (S754_finite false m 0)
            (S754_finite false (Z.to_pos (10 ^ Z.of_nat scale)) 0)
  | _ => S754_zero false
  end.

(** The [float] of an [int], as [float * int] makes it. *)
Definition float_of_int (n : Z) : spec_float := binary_normalize 53 1024 n 0 false.

(** [a * b] on two floats. *)
Definition float_mul (a b : spec_float) : spec_float := SFmul 53 1024 a b.

(** [float(s)] for a text of digits, bars, points and commas: [None]
    stands for [ValueError]. The digits read so far spell
    [acc / 10 ^ scale]. *)
Fixpoint decimal (s : string) (acc : Z) (scale : option nat) (digit : bool)
  : option spec_float :=
  match s with
  | EmptyString =>
      if digit then
        Some (float_of_decimal acc (match scale with
                                    | Some k => k
                                    | None => 0%nat
                                    end))
      else None
  | String c s' =>
      if PyStr.is_digit c then
        decimal s' (10 * acc + PyStr.digit_val c) (option_map S scale) true
      else if Ascii.eqb c "." then
             match scale with
             | None => decimal s' acc (Some 0%nat) digit
             | Some _ => None
             end
           else None
  end.

(** [get_grams(gram_expr)]; [None] stands for the [ValueError] it
    raises. *)
Definition get_grams (gram_expr : string) : option spec_float :=
  if (gram_expr =? "")%string || (PyStr.strip gram_expr =? "")%string then None
  else
    let (_, s1) := span PyStr.is_space gram_expr in
    let (num, s2) := span is_num_char s1 in
    let (_, s3) := span PyStr.is_space s2 in
    let (unit, s4) := span is_unit_char s3 in
    let (_, s5) := span PyStr.is_space s4 in
    if negb (s5 =? "")%string then None
    else if (num =? "")%string then None
    else
      match decimal num 0 None false with
      | None => None
      | Some num =>
          let unit := if (unit =? "")%string then "g" else PyStr.lower unit in
          if (unit =? "g")%string || (unit =? "grams")%string || (unit =? "gr")%string
          then Some num
          else if (unit =? "kg")%string || (unit =? "k")%string
               then Some (float_mul num (float_of_int 1000))
               else None
      end.

(** ** The log *)

Inductive level : Type := SEPARATOR | INFO | SUCCESS | WARNING | ERROR.

(** One constructor for each message text of the import code; the values
    interpolated into the text are the arguments. *)
Inductive message : Type :=
| InvalidLotNumber (row_nr : Z) (value : cell)
| ContextNotRight (row_nr : Z) (lot : cell) (context : string)
| NoContext (row_nr : Z) (lot : cell)
| TrenchNotRight (row_nr : Z) (lot : cell) (trench : string)
| TrenchMismatch (row_nr : Z) (lot : cell) (trench : string)
| TypeEmpty (row_nr : Z) (lot : cell)
| DateExcavatedNotADate (row_nr : Z) (lot : cell) (value : cell)
| DateExcavatedEmpty (row_nr : Z) (lot : cell)
| DateRecordedNotADate (row_nr : Z) (lot : cell) (value : cell)
| SherdCountNotANumber (row_nr : Z) (lot : cell) (value : cell)
| SherdCountNotCeramic (row_nr : Z) (lot : cell)
| DuplicateLotNumber (row_nr : Z) (lot : cell)
| SqlError (row_nr : Z) (lot : cell)
| DeletedLotNumbers (n : nat)
| SuccessfullyImported (successful_rows : Z) (row_nr : Z) (sheet : string)
| PartNotInterpreted (row_nr : Z) (lot : cell) (token : string) (why : string)
| PartTwice (row_nr : Z) (lot : cell) (key : string)
| PartUnknown (row_nr : Z) (lot : cell) (key : string)
| WeightFishy (row_nr : Z) (lot : cell) (weight_raw : string) (why : string)
| NoRecordInLots (row_nr : Z) (lot : cell)
| MoreThanOneRecordInLots (row_nr : Z) (lot : cell)
| ContextNotAsInLots (row_nr : Z) (lot : cell)
| HeaderMismatch (col : nat) (expected : string) (got : string)
| HeaderException (col : nat)
| NoSuchSheet (sheet : string)
| StructuralErrors (sheet : string)
| StructureOkay (sheet : string)
| Banner
| Rule
| ImportingWorksheet (sheet : string)
| ErasedFormerImport.

Definition log_record : Type := level * message.

(** ** Control flow of one pass through a loop body

    A loop body falls through with a value, leaves the loop ([break]),
    goes to the next row ([continue]), leaves the function with
    [return False], or lets an exception escape. The log records written
    on the way are kept in order. *)

Inductive flow (A : Type) : Type :=
| Go (a : A)
| Break
| Continue
| ReturnFalse
| Raise.

Arguments Go {A} a.
Arguments Break {A}.
Arguments Continue {A}.
Arguments ReturnFalse {A}.
Arguments Raise {A}.

Definition M (A : Type) : Type := list log_record * flow A.

Definition ret {A : Type} (a : A) : M A := ([], Go a).

Definition bind {A B : Type} (m : M A) (k : A -> M B) : M B :=
  match m with
  | (l, Go a) => let (l', f) := k a in ((l ++ l')%list, f)
  | (l, Break) => (l, Break)
  | (l, Continue) => (l, Continue)
  | (l, ReturnFalse) => (l, ReturnFalse)
  | (l, Raise) => (l, Raise)
  end.

Definition log (m : message) (error_state : level) : M unit :=
  ([(error_state, m)], Go tt).

Definition break {A : Type} : M A := ([], Break).
Definition continue {A : Type} : M A := ([], Continue).
Definition return_false {A : Type} : M A := ([], ReturnFalse).
Definition raise {A : Type} : M A := ([], Raise).

Declare Scope flow_scope.
Delimit Scope flow_scope with flow.
Notation "x <- m ;; k" := (bind m (fun x => k))
  (at level 61, m at next level, right associativity) : flow_scope.
Notation "m ;;; k" := (bind m (fun _ => k))
  (at level 61, right associativity) : flow_scope.
Open Scope flow_scope.

(** ** The staging relation [rliim_cm_import]

    Columns as [create_import_table] declares them; a column without
    [NOT NULL] is an [option]. *)

Inductive number : Type :=
| NInt (z : Z)
| NFloat (f : spec_float).

Record staging_row : Type := mk_staging_row {
  line_ref : string;
  cm_type : string;
  lot : string;
  locus : string;
  unit_ : string;
  arch_domain : option string;
  arch_context : string;
  local_nr : Z;
  type_ : option string;
  date_excavated : option Z;
  date_entered : option Z;
  photographed : option bool;
  description : option string;
  count : option number;
  location : option string;
  sf_type : option string;
  sf_measures : option string;
  sf_length_mm : option string;
  sf_height_mm : option string;
  sf_width_mm : option string;
  sf_thickness_mm : option string;
  sf_diameter_mm : option string;
  sf_diameter_perf_mm : option string;
  sf_weight : option Z;
  sf_description : option string;
  sf_date_excavated : option Z;
  sf_date_entered : option Z;
  sf_photographed : option bool
}.

Definition staging : Type := list staging_row.

(** Rows a [where lot = key] selects. *)
Definition has_lot (key : string) (r : staging_row) : bool :=
  (lot r =? key)%string.

Definition get_record_count (t : staging) (key : string) : nat :=
  List.length (filter (has_lot key) t).

Definition get_first_record (t : staging) (key : string) : option staging_row :=
  find (has_lot key) t.

(** [INSERT] of a row of values the database has taken: [None] stands for
    the violation of the primary key, which leaves the table as it was.
    A parameter the database cannot take for its column makes the
    statement fail before that, where the parameters are read
    ([sql_param]). *)
Definition insert_row (t : staging) (r : staging_row) : option staging :=
  if existsb (has_lot (lot r)) t then None else Some (t ++ [r])%list.

(** [delete from rliim_cm_import where lot = %s], with its row count. The
    parameter is the Python value the pass hands over. A [str] is
    compared with the column as text, and [None] is equal to no row. For
    a parameter of another type the database has no [=] with a [VARCHAR]
    column: the statement raises, which [None] stands for. *)
Definition delete_lot (t : staging) (key : cell) : option (staging * Z) :=
  match key with
  | CStr s =>
      Some (filter (fun r => negb (has_lot s r)) t, Z.of_nat (get_record_count t s))
  | CNone => Some (t, 0)
  | _ => None
  end.

(** ** The import passes *)

Section Passes.

(** The text a [VARCHAR] column receives from the database driver for a
    parameter that is neither [None] nor a [str]. *)
Variable sql_text : cell -> string.

(** Python's [str()] of a value that is neither a [str] nor an [int], as
    an f-string interpolates it. *)
Variable str_other : cell -> string.

(** [kioskstdlib.force_positive_int_from_string], of the Kiosk library:
    [-1] tells that the text holds no number. *)
Variable force_positive_int_from_string : string -> Z.

Definition sql_varchar (v : cell) : option string :=
  match v with
  | CNone => None
  | CStr s => Some s
  | _ => Some (sql_text v)
  end.

(** What the database makes of a parameter for a [TIMESTAMP] column: the
    outer [None] stands for the error it raises. A [datetime] is taken
    and [None] is null; a number or a boolean cannot be cast to a
    timestamp. A text or a date, which the database would try to read as
    a timestamp, never comes here (lemma [date_checked]) and is counted
    as refused. *)
Definition sql_timestamp (v : cell) : option (option Z) :=
  match v with
  | CNone => Some None
  | CDatetime t => Some (Some t)
  | _ => None
  end.

(** The same for a [NUMERIC] column: an [int] and a [float] are taken, a
    [bool] is refused, for there is no cast from boolean to numeric, and
    so is a datetime. A text, which the database would try to read as a
    number, never comes here (lemma [sherd_count_checked]) and is counted
    as refused. *)
Definition sql_numeric (v : cell) : option (option number) :=
  match v with
  | CNone => Some None
  | CInt z => Some (Some (NInt z))
  | CFloat f => Some (Some (NFloat f))
  | _ => None
  end.

(** A parameter the database refuses makes the statement raise inside
    its [try]: the pass logs the SQL error and returns [False]. *)
Definition sql_param {A : Type} (row_nr : Z) (lot_nr : cell) (v : option A) : M A :=
  match v with
  | Some a => ret a
  | None => log (SqlError row_nr lot_nr) ERROR ;;; return_false
  end.

(** [f"{v}"] *)
Definition format (v : cell) : string :=
  match v with
  | CStr s => s
  | CInt z => PyStr.of_Z z
  | _ => str_other v
  end.

(** The closure [get_or] of the three passes: [max_col] is [len(row)]. *)
Definition get_or (r : row) (index : nat) (alternative : cell) : cell :=
  if (index <? List.length r)%nat then
    match cell_at r index with
    | Some v => if truthy v then v else alternative
    | None => alternative
    end
  else alternative.

(** [row[i].value] outside a [try]. *)
Definition value_at (r : row) (i : nat) : M cell :=
  match cell_at r i with
  | Some v => ret v
  | None => raise
  end.

(** [v.strip()] outside a [try]: a value that is not a [str] has no such
    method. *)
Definition strip_of (v : cell) : M string :=
  match v with
  | CStr s => ret (PyStr.strip s)
  | _ => raise
  end.

(** The test of the first cell, shared by the three passes. *)
Definition first_cell (r : row) : M cell :=
  c0 <- value_at r 0 ;;
  if first_cell_empty c0 then break else ret c0.

(** [lot_nr = int(row[0].value)] and its test, of the Lots and the
    Artifacts pass. *)
Definition lot_number (row_nr : Z) (c0 : cell) : M Z :=
  match py_int c0 with
  | None => log (InvalidLotNumber row_nr c0) WARNING ;;; continue
  | Some lot_nr =>
      if lot_nr <=? 0 then log (InvalidLotNumber row_nr c0) WARNING ;;; continue
      else ret lot_nr
  end.

(** The [try] block on the context cell: every exception in it is caught. *)
Definition context_of (row_nr : Z) (lot_nr : cell) (r : row) : M string :=
  match cell_at r 1 with
  | Some (CStr s) =>
      let context := PyStr.strip s in
      if re_context context then ret context
      else log (ContextNotRight row_nr lot_nr context) WARNING ;;; continue
  | _ => log (NoContext row_nr lot_nr) WARNING ;;; continue
  end.

(** [context[0]] as a string of one character. *)
Definition first_char (s : string) : string :=
  match s with
  | String c _ => String c EmptyString
  | EmptyString => EmptyString
  end.

(** The trench cell and its two tests. *)
Definition trench_of (row_nr : Z) (lot_nr : cell) (context : string) (r : row)
  : M string :=
  v <- value_at r 2 ;;
  trench <- strip_of v ;;
  if negb (re_trench trench) then
    log (TrenchNotRight row_nr lot_nr trench) WARNING ;;; continue
  else if negb (context =? "")%string && negb (trench =? first_char context)%string
       then log (TrenchMismatch row_nr lot_nr trench) WARNING ;;; ret trench
       else ret trench.

(** The type cell: lower-cased when truthy, else kept as it is. *)
Definition type_of (row_nr : Z) (lot_nr : cell) (r : row) : M cell :=
  v <- value_at r 3 ;;
  if truthy v then
    match v with
    | CStr s => ret (CStr (PyStr.lower s))
    | _ => raise
    end
  else log (TypeEmpty row_nr lot_nr) WARNING ;;; ret v.

(** A date cell that must be there. *)
Definition date_excavated_of (row_nr : Z) (lot_nr : cell) (v : cell) : M cell :=
  if truthy v then
    if negb (is_datetime v)
    then log (DateExcavatedNotADate row_nr lot_nr v) INFO ;;; ret CNone
    else ret v
  else log (DateExcavatedEmpty row_nr lot_nr) WARNING ;;; ret v.

(** A date cell that may be missing. *)
Definition date_recorded_of (row_nr : Z) (lot_nr : cell) (v : cell) : M cell :=
  if truthy v then
    if negb (is_datetime v)
    then log (DateRecordedNotADate row_nr lot_nr v) INFO ;;; ret CNone
    else ret v
  else ret v.

(** [f"{context[0]}-{context[1:]}"] *)
Definition dashed (context : string) : M string :=
  match context with
  | String c rest => ret (String c ("-" ++ rest))
  | EmptyString => raise
  end.

(** The sherd count of the Lots pass. *)
Definition sherd_count_of (row_nr : Z) (lot_nr : cell) (lot_type : cell) (v : cell)
  : M cell :=
  if truthy v then
    if negb (is_number v)
    then log (SherdCountNotANumber row_nr lot_nr v) INFO ;;; ret CNone
    else
      match lot_type with
      | CStr s =>
          if negb (PyStr.lower s =? "ceramic")%string
          then log (SherdCountNotCeramic row_nr lot_nr) INFO ;;; ret v
          else ret v
      | _ => raise
      end
  else ret v.

(** One row of the Lots sheet, up to the values the database takes from
    the parameters of its [INSERT]. *)
Definition lot_row (row_nr : Z) (r : row) : M staging_row :=
  c0 <- first_cell r ;;
  lot_nr <- lot_number row_nr c0 ;;
  let id := CInt lot_nr in
  context <- context_of row_nr id r ;;
  trench <- trench_of row_nr id context r ;;
  lot_type <- type_of row_nr id r ;;
  date_excavated <- date_excavated_of row_nr id (get_or r 4 CNone) ;;
  let description := get_or r 5 CNone in
  date_recorded <- date_recorded_of row_nr id (get_or r 6 CNone) ;;
  sherd_count <- sherd_count_of row_nr id lot_type (get_or r 7 CNone) ;;
  let photographed := if truthy (get_or r 7 CNone) then true else false in
  let cm_type := "bulk" in
  context <- dashed context ;;
  let arch_context := context ++ "-" ++ PyStr.of_Z lot_nr in
  let arch_domain := None in
  let local_nr := lot_nr in
  date_excavated <- sql_param row_nr id (sql_timestamp date_excavated) ;;
  date_recorded <- sql_param row_nr id (sql_timestamp date_recorded) ;;
  sherd_count <- sql_param row_nr id (sql_numeric sherd_count) ;;
  ret {| line_ref := PyStr.of_Z row_nr;
         cm_type := cm_type;
         lot := PyStr.of_Z lot_nr;
         locus := context;
         unit_ := trench;
         arch_domain := arch_domain;
         arch_context := arch_context;
         local_nr := local_nr;
         type_ := sql_varchar lot_type;
         date_excavated := date_excavated;
         date_entered := date_recorded;
         photographed := Some photographed;
         description := sql_varchar description;
         count := sherd_count;
         location := None;
         sf_type := None; sf_measures := None; sf_length_mm := None;
         sf_height_mm := None; sf_width_mm := None; sf_thickness_mm := None;
         sf_diameter_mm := None; sf_diameter_perf_mm := None;
         sf_weight := None; sf_description := None;
         sf_date_excavated := None; sf_date_entered := None;
         sf_photographed := None |}.

(** The identifier of a sample: the cell as it is, and the integer after
    its first character. *)
Definition sample_number (row_nr : Z) (c0 : cell) : M (string * Z) :=
  match c0 with
  | CStr lot_nr =>
      match PyStr.to_int (PyStr.tail lot_nr) with
      | None => log (InvalidLotNumber row_nr c0) WARNING ;;; continue
      | Some local_nr =>
          if local_nr <=? 0
          then log (InvalidLotNumber row_nr c0) WARNING ;;; continue
          else ret (lot_nr, local_nr)
      end
  | _ => log (InvalidLotNumber row_nr c0) WARNING ;;; continue
  end.

(** [f"{(description + ' ') if description is not None else ''}{notes}"] *)
Definition with_notes (description notes : cell) : M cell :=
  if truthy notes then
    match description with
    | CNone => ret (CStr (format notes))
    | CStr d => ret (CStr (d ++ " " ++ format notes))
    | _ => raise
    end
  else ret description.

(** One row of the Samples sheet, up to the values the database takes
    from the parameters of its [INSERT]. *)
Definition sample_row (row_nr : Z) (r : row) : M staging_row :=
  c0 <- first_cell r ;;
  nr <- sample_number row_nr c0 ;;
  let lot_nr := fst nr in
  let local_nr := snd nr in
  let id := CStr lot_nr in
  context <- context_of row_nr id r ;;
  trench <- trench_of row_nr id context r ;;
  lot_type <- type_of row_nr id r ;;
  let description := get_or r 4 CNone in
  date_excavated <- date_excavated_of row_nr id (get_or r 5 CNone) ;;
  let date_recorded := date_excavated in
  description <- with_notes description (get_or r 6 CNone) ;;
  let location := get_or r 7 CNone in
  let cm_type := "sample" in
  context <- dashed context ;;
  let arch_context := context ++ "-" ++ lot_nr in
  let arch_domain := Some "S" in
  date_excavated <- sql_param row_nr id (sql_timestamp date_excavated) ;;
  date_recorded <- sql_param row_nr id (sql_timestamp date_recorded) ;;
  ret {| line_ref := PyStr.of_Z row_nr;
         cm_type := cm_type;
         lot := lot_nr;
         locus := context;
         unit_ := trench;
         arch_domain := arch_domain;
         arch_context := arch_context;
         local_nr := local_nr;
         type_ := sql_varchar lot_type;
         date_excavated := date_excavated;
         date_entered := date_recorded;
         photographed := Some false;
         description := sql_varchar description;
         count := None;
         location := sql_varchar location;
         sf_type := None; sf_measures := None; sf_length_mm := None;
         sf_height_mm := None; sf_width_mm := None; sf_thickness_mm := None;
         sf_diameter_mm := None; sf_diameter_perf_mm := None;
         sf_weight := None; sf_description := None;
         sf_date_excavated := None; sf_date_entered := None;
         sf_photographed := None |}.

(** *** The Artifacts pass *)

(** The closure [interpret_measure_token]: a pair of a key and a value,
    the key ["error"] with the reason as its value when the token is not
    understood. *)
Definition interpret_measure_token (t : string) : string * string :=
  match PyStr.split ":" t with
  | [p0; p1] =>
      let key := PyStr.lower (PyStr.strip p0) in
      let value := PyStr.lower (PyStr.strip p1) in
      let canonical :=
        if (key =? "w")%string || (key =? "l")%string || (key =? "h")%string
        then Some key
        else if PyStr.contains "perf" key then Some "perf"
        else if PyStr.contains "weight" key then Some "weight"
        else if PyStr.contains "dia" key then Some "dia"
        else if PyStr.contains "len" key then Some "l"
        else if PyStr.contains "width" key then Some "w"
        else if PyStr.contains "height" key then Some "h"
        else if PyStr.contains "thick" key then Some "thickness"
        else None in
      match canonical with
      | None => ("error", "unclear dimension " ++ key)
      | Some key =>
          if PyStr.contains "mm" value || PyStr.contains "cm" value
             || PyStr.contains " m" value
             || ((key =? "weight")%string && PyStr.contains "g" value)
          then
            if force_positive_int_from_string t =? -1
            then ("error", "no number in " ++ t)
            else (key, value)
          else ("error", "no known measurement unit in " ++ key ++ ".")
      end
  | _ => ("error", ": missing in " ++ t)
  end.

(** The six dimensions read from the cell "other dimensions". *)
Record dimensions : Type := mk_dimensions {
  d_length : option string;
  d_height : option string;
  d_width : option string;
  d_thickness : option string;
  d_diameter : option string;
  d_diameter_perf : option string
}.

Definition no_dimensions : dimensions :=
  mk_dimensions None None None None None None.

(** Truthiness of a dimension variable: [None] and the empty text are
    false. *)
Definition is_set (d : option string) : bool :=
  match d with
  | Some s => negb (s =? "")%string
  | None => false
  end.

(** The body of the loop over the tokens; its [continue] goes to the next
    token. *)
Definition measure_token (row_nr : Z) (lot_nr : cell) (d : dimensions) (t : string)
  : list log_record * dimensions :=
  let (key, value) := interpret_measure_token t in
  let twice := ([(INFO, PartTwice row_nr lot_nr key)], d) in
  if (key =? "error")%string then
    ([(INFO, PartNotInterpreted row_nr lot_nr t value)], d)
  else if (key =? "w")%string then
    if is_set (d_width d) then twice
    else ([], mk_dimensions (d_length d) (d_height d) (Some value) (d_thickness d)
                            (d_diameter d) (d_diameter_perf d))
  else if (key =? "l")%string then
    if is_set (d_length d) then twice
    else ([], mk_dimensions (Some value) (d_height d) (d_width d) (d_thickness d)
                            (d_diameter d) (d_diameter_perf d))
  else if (key =? "h")%string then
    if is_set (d_height d) then twice
    else ([], mk_dimensions (d_length d) (Some value) (d_width d) (d_thickness d)
                            (d_diameter d) (d_diameter_perf d))
  else if (key =? "thickness")%string then
    if is_set (d_thickness d) then twice
    else ([], mk_dimensions (d_length d) (d_height d) (d_width d) (Some value)
                            (d_diameter d) (d_diameter_perf d))
  else if (key =? "dia")%string then
    if is_set (d_diameter d) then twice
    else ([], mk_dimensions (d_length d) (d_height d) (d_width d) (d_thickness d)
                            (Some value) (d_diameter_perf d))
  else if (key =? "perf")%string then
    if is_set (d_diameter_perf d) then twice
    else ([], mk_dimensions (d_length d) (d_height d) (d_width d) (d_thickness d)
                            (d_diameter d) (Some value))
  else ([(ERROR, PartUnknown row_nr lot_nr key)], d).

Fixpoint measure_tokens (row_nr : Z) (lot_nr : cell) (d : dimensions)
  (token : list string) : list log_record * dimensions :=
  match token with
  | [] => ([], d)
  | t :: rest =>
      let (l, d') := measure_token row_nr lot_nr d t in
      let (l', d'') := measure_tokens row_nr lot_nr d' rest in
      ((l ++ l')%list, d'')
  end.

(** [if measures: ...]: the text with its commas replaced, and the
    dimensions found in it. *)
Definition measures_of (row_nr : Z) (lot_nr : cell) (measures : cell)
  : M (cell * dimensions) :=
  if truthy measures then
    match measures with
    | CStr s =>
        let measures := PyStr.replace "," ";" s in
        let token := PyStr.split ";" measures in
        let (l, d) := measure_tokens row_nr lot_nr no_dimensions token in
        (l, Go (CStr measures, d))
    | _ => raise
    end
  else ret (measures, no_dimensions).

(** [if weight_raw: ...]: the [continue] of its error branch belongs to
    the loop over the rows. *)
Definition weight_of (row_nr : Z) (lot_nr : cell) (weight_raw : cell)
  : M (option Z) :=
  if truthy weight_raw then
    match weight_raw with
    | CStr w =>
        let (key, value) := interpret_measure_token ("weight: " ++ w) in
        if (key =? "error")%string then
          log (WeightFishy row_nr lot_nr w value) INFO ;;; continue
        else ret (Some (force_positive_int_from_string w))
    | _ => raise
    end
  else ret None.

(** The staging record of the lot, which must be there once and carry the
    same context. *)
Definition lot_record_of (row_nr : Z) (lot_nr : Z) (context : string) (t : staging)
  : M unit :=
  let c := get_record_count t (PyStr.of_Z lot_nr) in
  if (c =? 0)%nat then log (NoRecordInLots row_nr (CInt lot_nr)) ERROR ;;; continue
  else if (1 <? c)%nat
  then log (MoreThanOneRecordInLots row_nr (CInt lot_nr)) ERROR ;;; continue
  else
    match get_first_record t (PyStr.of_Z lot_nr) with
    | Some r =>
        if negb (context =? locus r)%string
        then log (ContextNotAsInLots row_nr (CInt lot_nr)) ERROR ;;; continue
        else ret tt
    | None => raise
    end.

(** The columns the [UPDATE] of the Artifacts pass sets. *)
Record artifact : Type := mk_artifact {
  a_line_ref : string;
  a_cm_type : string;
  a_sf_type : option string;
  a_sf_measures : option string;
  a_dimensions : dimensions;
  a_sf_weight : option Z;
  a_sf_description : option string;
  a_sf_date_excavated : option Z;
  a_sf_date_entered : option Z;
  a_sf_photographed : option bool;
  a_lot : string
}.

Definition set_artifact (a : artifact) (r : staging_row) : staging_row :=
  {| line_ref := a_line_ref a;
     cm_type := a_cm_type a;
     lot := lot r;
     locus := locus r;
     unit_ := unit_ r;
     arch_domain := arch_domain r;
     arch_context := arch_context r;
     local_nr := local_nr r;
     type_ := type_ r;
     date_excavated := date_excavated r;
     date_entered := date_entered r;
     photographed := photographed r;
     description := description r;
     count := count r;
     location := location r;
     sf_type := a_sf_type a;
     sf_measures := a_sf_measures a;
     sf_length_mm := d_length (a_dimensions a);
     sf_height_mm := d_height (a_dimensions a);
     sf_width_mm := d_width (a_dimensions a);
     sf_thickness_mm := d_thickness (a_dimensions a);
     sf_diameter_mm := d_diameter (a_dimensions a);
     sf_diameter_perf_mm := d_diameter_perf (a_dimensions a);
     sf_weight := a_sf_weight a;
     sf_description := a_sf_description a;
     sf_date_excavated := a_sf_date_excavated a;
     sf_date_entered := a_sf_date_entered a;
     sf_photographed := a_sf_photographed a |}.

(** [UPDATE rliim_cm_import SET ... WHERE lot = a_lot] *)
Definition update_artifact (t : staging) (a : artifact) : staging :=
  map (fun r => if has_lot (a_lot a) r then set_artifact a r else r) t.

(** One row of the Artifacts sheet, up to the values the database takes
    from the parameters of its [UPDATE]; the staging relation is read,
    not written. *)
Definition artifact_row (t : staging) (row_nr : Z) (r : row) : M artifact :=
  c0 <- first_cell r ;;
  lot_nr <- lot_number row_nr c0 ;;
  let id := CInt lot_nr in
  context <- context_of row_nr id r ;;
  trench <- trench_of row_nr id context r ;;
  sf_type <- type_of row_nr id r ;;
  date_excavated <- date_excavated_of row_nr id (get_or r 4 CNone) ;;
  let measures := get_or r 5 CNone in
  let weight_raw := get_or r 6 CNone in
  let description := get_or r 7 CNone in
  date_recorded <- date_recorded_of row_nr id (get_or r 8 CNone) ;;
  let photographed := if truthy (get_or r 9 CNone) then true else false in
  md <- measures_of row_nr id measures ;;
  weight <- weight_of row_nr id weight_raw ;;
  let cm_type := "small_find" in
  context <- dashed context ;;
  lot_record_of row_nr lot_nr context t ;;;
  date_excavated <- sql_param row_nr id (sql_timestamp date_excavated) ;;
  date_recorded <- sql_param row_nr id (sql_timestamp date_recorded) ;;
  ret {| a_line_ref := PyStr.of_Z row_nr;
         a_cm_type := cm_type;
         a_sf_type := sql_varchar sf_type;
         a_sf_measures := sql_varchar (fst md);
         a_dimensions := snd md;
         a_sf_weight := weight;
         a_sf_description := sql_varchar description;
         a_sf_date_excavated := date_excavated;
         a_sf_date_entered := date_recorded;
         a_sf_photographed := Some photographed;
         a_lot := PyStr.of_Z lot_nr |}.

(** *** The loops over the rows *)

(** The variables a loop over the rows carries, the staging relation
    among them: every statement is committed as it is executed. *)
Record loop_vars : Type := mk_loop_vars {
  table : staging;
  successful_rows : Z;
  to_delete : list cell
}.

(** How a loop over the rows ends: its rows are used up or it meets a
    [break] ([Done]), it meets [return False], or an exception escapes
    it. *)
Inductive ending : Type := Done | Returned | Raised.

Record scan : Type := mk_scan {
  scan_vars : loop_vars;
  scan_row_nr : Z;
  scan_log : list log_record;
  scan_end : ending
}.

Definition logged (l : list log_record) (s : scan) : scan :=
  mk_scan (scan_vars s) (scan_row_nr s) (l ++ scan_log s)%list (scan_end s).

(** [for row in rows: row_nr += 1; ...] with the test on [max_rows] that
    opens each of the three bodies. *)
Fixpoint for_rows (body : loop_vars -> Z -> row -> M loop_vars) (max_rows : Z)
  (rows : list row) (row_nr : Z) (v : loop_vars) : scan :=
  match rows with
  | [] => mk_scan v row_nr [] Done
  | r :: rest =>
      let row_nr := row_nr + 1 in
      if (-1 <? max_rows) && (row_nr =? max_rows + 2) then mk_scan v row_nr [] Done
      else
        match body v row_nr r with
        | (l, Go v') => logged l (for_rows body max_rows rest row_nr v')
        | (l, Continue) => logged l (for_rows body max_rows rest row_nr v)
        | (l, Break) => mk_scan v row_nr l Done
        | (l, ReturnFalse) => mk_scan v row_nr l Returned
        | (l, Raise) => mk_scan v row_nr l Raised
        end
  end.

(** The [INSERT] of a row and what follows it. When the key is already
    there, [lot_nr] is put on [to_delete] as the pass holds it: [id] is
    the [int] of the Lots pass and the [str] of the Samples pass. The
    [continue] after it ends the body. *)
Definition store (row_nr : Z) (id : cell) (v : loop_vars) (rec : staging_row)
  : M loop_vars :=
  match insert_row (table v) rec with
  | Some t' => ret (mk_loop_vars t' (successful_rows v + 1) (to_delete v))
  | None =>
      log (DuplicateLotNumber row_nr id) ERROR ;;;
      ret (mk_loop_vars (table v) (successful_rows v) (to_delete v ++ [id])%list)
  end.

Definition lot_body (v : loop_vars) (row_nr : Z) (r : row) : M loop_vars :=
  rec <- lot_row row_nr r ;;
  store row_nr (CInt (local_nr rec)) v rec.

Definition sample_body (v : loop_vars) (row_nr : Z) (r : row) : M loop_vars :=
  rec <- sample_row row_nr r ;;
  store row_nr (CStr (lot rec)) v rec.

Definition artifact_body (v : loop_vars) (row_nr : Z) (r : row) : M loop_vars :=
  a <- artifact_row (table v) row_nr r ;;
  ret (mk_loop_vars (update_artifact (table v) a) (successful_rows v + 1)
                    (to_delete v)).

(** [for lot in to_delete: c = execute(delete ...); successful_rows -= c].
    The loop is outside any [try]: a [delete] that raises ends it and the
    pass, which the last component tells. *)
Fixpoint purge (to_delete : list cell) (t : staging) (successful_rows : Z)
  : staging * Z * bool :=
  match to_delete with
  | [] => (t, successful_rows, false)
  | lot :: rest =>
      match delete_lot t lot with
      | Some (t', c) => purge rest t' (successful_rows - c)
      | None => (t, successful_rows, true)
      end
  end.

(** What a pass leaves: the staging relation, the log, and the value it
    returns, [None] when an exception escapes it. *)
Record pass : Type := mk_pass {
  pass_table : staging;
  pass_log : list log_record;
  pass_return : option bool
}.

(** The end of the Lots and of the Samples pass. *)
Definition finish (sheet : string) (s : scan) : pass :=
  match scan_end s with
  | Raised => mk_pass (table (scan_vars s)) (scan_log s) None
  | Returned => mk_pass (table (scan_vars s)) (scan_log s) (Some false)
  | Done =>
      let v := scan_vars s in
      match purge (to_delete v) (table v) (successful_rows v) with
      | (t, _, true) => mk_pass t (scan_log s) None
      | (t, n, false) =>
          mk_pass t
            (scan_log s
             ++ (match to_delete v with
                 | [] => []
                 | _ => [(INFO, DeletedLotNumbers (List.length (to_delete v)))]
                 end)
             ++ [(INFO, SuccessfullyImported n (scan_row_nr s) sheet)])%list
            (Some true)
      end
  end.

Definition import_lot_rows (rows : list row) (max_rows : Z) (t : staging) : pass :=
  finish "Lots" (for_rows lot_body max_rows rows 1 (mk_loop_vars t 0 [])).

Definition import_sample_rows (rows : list row) (max_rows : Z) (t : staging) : pass :=
  finish "Samples" (for_rows sample_body max_rows rows 1 (mk_loop_vars t 0 [])).

Definition import_artifacts_rows (rows : list row) (max_rows : Z) (t : staging)
  : pass :=
  let s := for_rows artifact_body max_rows rows 1 (mk_loop_vars t 0 []) in
  match scan_end s with
  | Raised => mk_pass (table (scan_vars s)) (scan_log s) None
  | Returned => mk_pass (table (scan_vars s)) (scan_log s) (Some false)
  | Done =>
      mk_pass (table (scan_vars s))
        (scan_log s
         ++ [(INFO, SuccessfullyImported (successful_rows (scan_vars s))
                                         (scan_row_nr s) "Artifacts")])%list
        (Some true)
  end.

(** *** The workbook *)

Definition expected_cols_lots : list string :=
  ["lot number"; "context"; "trench"; "type"; "date excavated"; "extra info";
   "date uploaded"; "total number of sherds"; "recorded"; "photographed"].

Definition expected_cols_samples : list string :=
  ["Sample Number"; "context"; "trench"; "type"; "description"; "date"; "notes";
   "location"].

Definition expected_cols_artifacts : list string :=
  ["lot number"; "context"; "trench"; "type"; "date excavated";
   "other dimensions"; "weight"; "description"; "date entered"; "photographed?"].

(** A worksheet: its first row, and the rows [iter_rows(min_row=2)]
    yields. *)
Record worksheet : Type := mk_worksheet {
  header : row;
  data : list row
}.

(** A workbook: its sheets by name, in the order of [sheetnames]. *)
Definition workbook : Type := list (string * worksheet).

Definition sheet_of (wb : workbook) (name : string) : option worksheet :=
  option_map snd (find (fun p => (fst p =? name)%string) wb).

(** The body of the loop of [check_structure] at one column: the records
    it logs and whether it sets [err]. Every exception is caught there. *)
Definition check_column (ws : worksheet) (col_idx : nat) (col_name : string)
  : list log_record * bool :=
  match cell_at (header ws) col_idx with
  | Some (CStr s) =>
      let v := PyStr.lower s in
      if negb (v =? PyStr.lower col_name)%string
      then ([(ERROR, HeaderMismatch (col_idx + 1) col_name v)], true)
      else ([], false)
  | _ => ([(INFO, HeaderException (col_idx + 1))], true)
  end.

Fixpoint check_columns (ws : worksheet) (col_idx : nat) (cols : list string)
  (err : bool) : list log_record * bool :=
  match cols with
  | [] => ([], err)
  | col_name :: rest =>
      let (l, e) := check_column ws col_idx col_name in
      let (l', err') := check_columns ws (S col_idx) rest (err || e) in
      ((l ++ l')%list, err')
  end.

(** [check_structure(ws, expected_cols)]: the log and [not err]. *)
Definition check_structure (ws : worksheet) (expected_cols : list string)
  : list log_record * bool :=
  let (l, err) := check_columns ws 0 expected_cols false in
  (l, negb err).

Definition sheet_structures : list (string * list string) :=
  [("Lots", expected_cols_lots); ("Samples", expected_cols_samples);
   ("Artifacts", expected_cols_artifacts)].

(** The loop of [import_workbook] over the three sheet names: the log,
    and [false] when [wb[sheet]] raises for a sheet that is not there. *)
Fixpoint check_sheets (wb : workbook) (sheets : list (string * list string))
  : list log_record * bool :=
  match sheets with
  | [] => ([], true)
  | (sheet, expected_cols) :: rest =>
      match sheet_of wb sheet with
      | None => ([(ERROR, NoSuchSheet sheet)], false)
      | Some ws =>
          let (l, ok) := check_structure ws expected_cols in
          let l1 := if ok then [(INFO, StructureOkay sheet)]
                    else [(ERROR, StructuralErrors sheet)] in
          let (l', fine) := check_sheets wb rest in
          ((l ++ l1 ++ l')%list, fine)
      end
  end.

(** What [import_workbook] leaves: the staging relation, the log, and
    whether an exception escaped. *)
Record run : Type := mk_run {
  run_table : staging;
  run_log : list log_record;
  run_raised : bool
}.

(** [wb[sheet]] followed by the pass over its rows; the value the pass
    returns is not looked at. A pass that returns [False] after an SQL
    error does not roll back; the passes after it are followed on a
    database that takes their statements again, which is for the library
    [KioskSQLDb] to see to. *)
Definition import_sheet (wb : workbook) (sheet : string)
  (import_rows : list row -> Z -> staging -> pass) (r : run) : run :=
  if run_raised r then r
  else
    match sheet_of wb sheet with
    | None => mk_run (run_table r) (run_log r ++ [(INFO, ImportingWorksheet sheet)])%list true
    | Some ws =>
        let p := import_rows (data ws) (-1) (run_table r) in
        mk_run (pass_table p)
               (run_log r ++ [(INFO, ImportingWorksheet sheet)] ++ pass_log p)%list
               (match pass_return p with
                | None => true
                | Some _ => false
                end)
    end.

Definition import_workbook (wb : workbook) (t : staging) : run :=
  let banner := [(SEPARATOR, Banner); (SEPARATOR, Banner); (SEPARATOR, Banner)] in
  let (l, fine) := check_sheets wb sheet_structures in
  if negb fine then mk_run t (banner ++ l)%list true
  else
    let r := mk_run t (banner ++ l ++ [(INFO, Rule)])%list false in
    let r := import_sheet wb "Lots" import_lot_rows r in
    let r := import_sheet wb "Samples" import_sample_rows r in
    import_sheet wb "Artifacts" import_artifacts_rows r.

End Passes.

(** ** The production relations

    Of the production tables, which the bridge does not create, the
    columns its statements name. A timestamp is a number; [uid] is the
    key the database gives a row on insert. *)

Module Locus.
Record t : Type := mk {
  uid : string;
  arch_context : option string
}.
End Locus.

Module CM.
Record columns : Type := mk_columns {
  uid_locus : option string;
  type_ : option string;
  description : option string;
  quantity : option number;
  isobject : option Z;
  date : option Z;
  storage : option string;
  status_todo : option string;
  status_done : option string;
  dearregistrar : option string;
  created : option Z;
  modified : option Z;
  modified_tz : option Z;
  modified_ww : option Z;
  modified_by : option string;
  arch_domain : option string;
  arch_context : option string;
  cm_type : option string
}.
Record t : Type := mk {
  uid : string;
  cols : columns
}.
End CM.

Module SF.
Record columns : Type := mk_columns {
  uid_cm : option string;
  material : option string;
  length : option string;
  width : option string;
  thickness : option string;
  weight : option Z;
  height : option string;
  diameter : option string;
  id_registrar : option string;
  created : option Z;
  modified : option Z;
  modified_tz : option Z;
  modified_ww : option Z;
  modified_by : option string
}.
Record t : Type := mk {
  uid : string;
  cols : columns
}.
End SF.

Module Photo.
Record t : Type := mk {
  uid : string;
  uid_cm : option string
}.
End Photo.

Record database : Type := mk_database {
  rliim_cm_import : staging;
  locus_table : list Locus.t;
  collected_material : list CM.t;
  small_find : list SF.t;
  collected_material_photo : list Photo.t
}.

(** *** SQL on lists of rows *)

Module Sql.

(** [a = b] where [b] may be null: true only for an equal value. *)
Definition eq_null (a : string) (b : option string) : bool :=
  match b with
  | Some b' => (a =? b')%string
  | None => false
  end.

Definition is_null {A : Type} (a : option A) : bool :=
  match a with
  | None => true
  | Some _ => false
  end.

Definition coalesce {A : Type} (a b : option A) : option A :=
  match a with
  | Some _ => a
  | None => b
  end.

(** [x inner join y on ...] *)
Definition inner_join {A B : Type} (on : A -> B -> bool) (xs : list A)
  (ys : list B) : list (A * B) :=
  flat_map (fun x => map (fun y => (x, y)) (filter (on x) ys)) xs.

(** [x left outer join y on ...]: a row of [x] without a partner is kept
    once, with nulls for the columns of [y]. *)
Definition left_outer_join {A B : Type} (on : A -> B -> bool) (xs : list A)
  (ys : list B) : list (A * option B) :=
  flat_map (fun x => match filter (on x) ys with
                     | [] => [(x, None)]
                     | ms => map (fun y => (x, Some y)) ms
                     end) xs.

(** [a in (select ...)] is true when an equal value is selected. *)
Definition is_in (a : string) (sel : list (option string)) : bool :=
  existsb (eq_null a) sel.

(** [a not in (select ...)] is true when no equal value is selected and no
    null is. *)
Definition not_in (a : string) (sel : list (option string)) : bool :=
  negb (is_in a sel) && negb (existsb is_null sel).

(** [concat_ws(' ', ...)]: the values that are not null, a blank between
    them. *)
Fixpoint concat_ws (parts : list (option string)) : string :=
  match parts with
  | [] => ""
  | None :: rest => concat_ws rest
  | Some s :: rest =>
      if forallb is_null rest then s else s ++ " " ++ concat_ws rest
  end.

End Sql.

Definition import_marker : string := "imported by rliim kiosk bridge".

(** ** The merge into production *)

Section Merge.

(** [now()] and [now() at time zone 'US/Eastern'] of the transaction. *)
Variable now : Z.
Variable now_eastern : Z.

(** The key the database gives a new row, from the keys of the table. *)
Variable new_uid : list string -> string.

Definition entered (rliim : staging_row) : option Z :=
  Sql.coalesce (sf_date_entered rliim) (date_entered rliim).

Definition is_true (b : option bool) : bool :=
  match b with
  | Some true => true
  | _ => false
  end.

(** The select list of [sql_insert]. *)
Definition cm_select (l : Locus.t) (rliim : staging_row) : CM.columns :=
  {| CM.uid_locus := Some (Locus.uid l);
     CM.type_ := type_ rliim;
     CM.description :=
       Some (Sql.concat_ws
               [description rliim; sf_description rliim;
                match sf_diameter_perf_mm rliim with
                | None => None
                | Some d => Some ("diameter perf.: " ++ d)
                end]);
     CM.quantity := count rliim;
     CM.isobject := Some (if (cm_type rliim =? "small_find")%string then 1 else 0);
     CM.date := Sql.coalesce (sf_date_excavated rliim) (date_excavated rliim);
     CM.storage := location rliim;
     CM.status_todo := Some (if is_true (photographed rliim) then "P" else "");
     CM.status_done := Some (if is_true (photographed rliim) then "P" else "");
     CM.dearregistrar := Some import_marker;
     CM.created := Sql.coalesce (entered rliim) (Some now_eastern);
     CM.modified := if Sql.is_null (entered rliim) then Some now else entered rliim;
     CM.modified_tz :=
       Some (if Sql.is_null (entered rliim) then 99401495 else 98284531);
     CM.modified_ww :=
       if Sql.is_null (entered rliim) then Some now_eastern else entered rliim;
     CM.modified_by := Some "admin";
     CM.arch_domain := arch_domain rliim;
     CM.arch_context := Some (arch_context rliim);
     CM.cm_type := Some (cm_type rliim) |}.

(** The [from] and [where] of [sql_insert]; [rliim.locus], declared
    [NOT NULL], is never null. *)
Definition cm_from (db : database)
  : list ((staging_row * Locus.t) * option CM.t) :=
  filter
    (fun j => match snd j with
              | None => true
              | Some cm => Sql.is_null (CM.arch_context (CM.cols cm))
              end)
    (Sql.left_outer_join
       (fun (p : staging_row * Locus.t) cm =>
          Sql.eq_null (arch_context (fst p)) (CM.arch_context (CM.cols cm)))
       (Sql.inner_join (fun rliim l => Sql.eq_null (locus rliim) (Locus.arch_context l))
                       (rliim_cm_import db) (locus_table db))
       (collected_material db)).

Definition sql_insert (db : database) : list CM.columns :=
  map (fun j => cm_select (snd (fst j)) (fst (fst j))) (cm_from db).

(** [insert into collected_material]: every row gets its key. *)
Fixpoint insert_cm (rows : list CM.columns) (t : list CM.t) : list CM.t :=
  match rows with
  | [] => t
  | c :: rest => insert_cm rest (t ++ [CM.mk (new_uid (map CM.uid t)) c])
  end.

(** The select list of [sql_add_small_finds]. *)
Definition sf_select (cm : CM.t) (rliim : staging_row) : SF.columns :=
  {| SF.uid_cm := Some (CM.uid cm);
     SF.material := sf_type rliim;
     SF.length := sf_length_mm rliim;
     SF.width := sf_width_mm rliim;
     SF.thickness := sf_thickness_mm rliim;
     SF.weight := sf_weight rliim;
     SF.height := sf_height_mm rliim;
     SF.diameter := sf_diameter_mm rliim;
     SF.id_registrar := Some "admin";
     SF.created := Sql.coalesce (sf_date_entered rliim) (Some now_eastern);
     SF.modified :=
       if Sql.is_null (sf_date_entered rliim) then Some now
       else sf_date_entered rliim;
     SF.modified_tz :=
       Some (if Sql.is_null (sf_date_entered rliim) then 99401495 else 98284531);
     SF.modified_ww := Sql.coalesce (sf_date_entered rliim) (Some now_eastern);
     SF.modified_by := Some "admin" |}.

Definition is_small_find (cm : CM.t) : bool :=
  Sql.eq_null "small_find" (CM.cm_type (CM.cols cm)).

(** The [from] and [where] of [sql_add_small_finds]. *)
Definition sf_from (db : database) : list (staging_row * CM.t) :=
  filter
    (fun j => is_small_find (snd j)
              && Sql.not_in (CM.uid (snd j))
                            (map (fun f => SF.uid_cm (SF.cols f)) (small_find db)))
    (Sql.inner_join
       (fun rliim cm => Sql.eq_null (arch_context rliim) (CM.arch_context (CM.cols cm)))
       (rliim_cm_import db) (collected_material db)).

Definition sql_add_small_finds (db : database) : list SF.columns :=
  map (fun j => sf_select (snd j) (fst j)) (sf_from db).

Fixpoint insert_sf (rows : list SF.columns) (t : list SF.t) : list SF.t :=
  match rows with
  | [] => t
  | c :: rest => insert_sf rest (t ++ [SF.mk (new_uid (map SF.uid t)) c])
  end.

(** What a run of the merge that raises nothing leaves: the database and
    the two row counts it logs. *)
Record merged : Type := mk_merged {
  merged_db : database;
  cm_row_count : nat;
  sf_row_count : nat
}.

(** [import_rliim_cm_for_new_loci], both statements executed: the second
    reads what the first has written. The query [sql_analyze] before them
    writes nothing. *)
Definition import_rliim_cm_for_new_loci (db : database) : merged :=
  let cms := sql_insert db in
  let db1 := mk_database (rliim_cm_import db) (locus_table db)
               (insert_cm cms (collected_material db)) (small_find db)
               (collected_material_photo db) in
  let sfs := sql_add_small_finds db1 in
  let db2 := mk_database (rliim_cm_import db1) (locus_table db1)
               (collected_material db1) (insert_sf sfs (small_find db1))
               (collected_material_photo db1) in
  mk_merged db2 (List.length cms) (List.length sfs).

End Merge.

(** ** Erasing a former import *)

Definition tagged (cm : CM.t) : bool :=
  Sql.eq_null import_marker (CM.dearregistrar (CM.cols cm)).

(** [select uid from collected_material where dearregistrar = '...'] *)
Definition tagged_uids (db : database) : list (option string) :=
  map (fun cm => Some (CM.uid cm)) (filter tagged (collected_material db)).

(** [uid_cm in (select uid ...)]: not true of a null. *)
Definition refers_to_tagged (db : database) (uid_cm : option string) : bool :=
  match uid_cm with
  | Some u => Sql.is_in u (tagged_uids db)
  | None => false
  end.

(** [erase_former_import], its three statements executed and committed. *)
Definition erase_former_import (db : database) : database :=
  let db1 := mk_database (rliim_cm_import db) (locus_table db)
               (collected_material db)
               (filter (fun f => negb (refers_to_tagged db (SF.uid_cm (SF.cols f))))
                       (small_find db))
               (collected_material_photo db) in
  let db2 := mk_database (rliim_cm_import db1) (locus_table db1)
               (collected_material db1) (small_find db1)
               (filter (fun p => negb (refers_to_tagged db1 (Photo.uid_cm p)))
                       (collected_material_photo db1)) in
  mk_database (rliim_cm_import db2) (locus_table db2)
    (filter (fun cm => negb (tagged cm)) (collected_material db2))
    (small_find db2) (collected_material_photo db2).

(** ** Notions of the statements *)



Definition not_skipped {A : Type} (m : M A) : Prop := snd m <> Continue.

(** The body ends with a value: the row goes on to be stored. *)
Definition accepted {A : Type} (m : M A) : Prop := exists a, snd m = Go a.

(** The text of the cell at index [i] with the blanks around it stripped,
    when the cell holds text. *)
Definition text_at (r : row) (i : nat) : option string :=
  match cell_at r i with
  | Some (CStr s) => Some (PyStr.strip s)
  | _ => None
  end.







(** The row with the cell at index [i] replaced; a row that has no such
    cell is left as it is. *)
Fixpoint replace_at (i : nat) (v : cell) (r : row) : row :=
  match r, i with
  | [], _ => []
  | _ :: rest, O => v :: rest
  | c :: rest, S i' => c :: replace_at i' v rest
  end.




(** The records the rows of a sheet give, in the order of the scan and
    up to the row at which the loop ends. *)
Fixpoint scanned_records (normalise : Z -> row -> M staging_row) (max_rows : Z)
  (rows : list row) (row_nr : Z) : list staging_row :=
  match rows with
  | [] => []
  | r :: rest =>
      let row_nr := row_nr + 1 in
      if (-1 <? max_rows) && (row_nr =? max_rows + 2) then []
      else
        match normalise row_nr r with
        | (_, Go rec) => rec :: scanned_records normalise max_rows rest row_nr
        | (_, Continue) => scanned_records normalise max_rows rest row_nr
        | _ => []
        end
  end.

(** The variables of the loop after the [INSERT] of one record, [id]
    giving the identifier the pass holds for it. *)
Definition stored (id : staging_row -> cell) (v : loop_vars) (rec : staging_row)
  : loop_vars :=
  match insert_row (table v) rec with
  | Some t' => mk_loop_vars t' (successful_rows v + 1) (to_delete v)
  | None => mk_loop_vars (table v) (successful_rows v) (to_delete v ++ [id rec])
  end.

(** The identifier of a record in the Lots pass, an [int], and in the
    Samples pass, a [str]. *)
Definition lot_id (rec : staging_row) : cell := CInt (local_nr rec).
Definition sample_id (rec : staging_row) : cell := CStr (lot rec).

(** How often a key comes in a list of records. *)
Definition occurrences (key : string) (recs : list staging_row) : nat :=
  List.length (filter (has_lot key) recs).

(** The scan of the Lots pass. *)
Definition lot_scan (sql_text : cell -> string) (rows : list row) (max_rows : Z)
  (t : staging) : scan :=
  for_rows (lot_body sql_text) max_rows rows 1 (mk_loop_vars t 0 []).

(** The rows a workbook with its three sheets leaves in the staging
    relation: no header enters. *)
Definition rows_imported (sql_text str_other : cell -> string) (f : string -> Z)
  (wl ws wa : worksheet) (t : staging) : staging :=
  let p1 := import_lot_rows sql_text (data wl) (-1) t in
  match pass_return p1 with
  | None => pass_table p1
  | Some _ =>
      let p2 := import_sample_rows sql_text str_other (data ws) (-1) (pass_table p1) in
      match pass_return p2 with
      | None => pass_table p2
      | Some _ => pass_table (import_artifacts_rows sql_text f (data wa) (-1)
                                                    (pass_table p2))
      end
  end.

(** C8 as the specification words it: the tagged rows of
    [collected_material] and the rows of [small_find] that refer to them
    are deleted, and every other table is as it was. *)
Definition erases_only_marked (db : database) : Prop :=
  collected_material (erase_former_import db)
  = filter (fun cm => negb (tagged cm)) (collected_material db)
  /\ small_find (erase_former_import db)
     = filter (fun f => negb (refers_to_tagged db (SF.uid_cm (SF.cols f))))
              (small_find db)
  /\ collected_material_photo (erase_former_import db)
     = collected_material_photo db
  /\ locus_table (erase_former_import db) = locus_table db
  /\ rliim_cm_import (erase_former_import db) = rliim_cm_import db.

(** Every row of the staging relation that has its locus in production
    has its collected material there. *)
Definition cm_done (db : database) : Prop :=
  forall rliim l,
    In rliim (rliim_cm_import db) -> In l (locus_table db) ->
    Sql.eq_null (locus rliim) (Locus.arch_context l) = true ->
    exists cm, In cm (collected_material db)
               /\ Sql.eq_null (arch_context rliim) (CM.arch_context (CM.cols cm))
                  = true.

(** No collected material of a staging row is a small find whose key is
    in no row of [small_find]. *)
Definition sf_done (db : database) : Prop :=
  forall rliim cm,
    In rliim (rliim_cm_import db) -> In cm (collected_material db) ->
    Sql.eq_null (arch_context rliim) (CM.arch_context (CM.cols cm)) = true ->
    is_small_find cm = true ->
    Sql.not_in (CM.uid cm) (map (fun f => SF.uid_cm (SF.cols f)) (small_find db))
    = false.

(** ** Inputs worked through *)

(** A stand-in for the driver's text of a value, for the examples. *)
Definition no_text : cell -> string := fun _ => "".

Definition example_lot_row : row :=
  [CInt 5; CStr "A123"; CStr "A"; CStr "Ceramic"; CDatetime 1000; CNone; CNone;
   CInt 3; CNone; CBool true].

Definition example_lot_record : staging_row :=
  {| line_ref := "2"; cm_type := "bulk"; lot := "5"; locus := "A-123";
     unit_ := "A"; arch_domain := None; arch_context := "A-123-5";
     local_nr := 5; type_ := Some "ceramic"; date_excavated := Some 1000;
     date_entered := None; photographed := Some true; description := None;
     count := Some (NInt 3); location := None;
     sf_type := None; sf_measures := None; sf_length_mm := None;
     sf_height_mm := None; sf_width_mm := None; sf_thickness_mm := None;
     sf_diameter_mm := None; sf_diameter_perf_mm := None; sf_weight := None;
     sf_description := None; sf_date_excavated := None;
     sf_date_entered := None; sf_photographed := None |}.

Definition example_sample_row : row :=
  [CStr "S7"; CStr "B045"; CStr "B"; CStr "Soil"; CStr "dark"; CDatetime 2000;
   CStr "wet"; CStr "shelf 1"].

Definition example_sample_record : staging_row :=
  {| line_ref := "2"; cm_type := "sample"; lot := "S7"; locus := "B-045";
     unit_ := "B"; arch_domain := Some "S"; arch_context := "B-045-S7";
     local_nr := 7; type_ := Some "soil"; date_excavated := Some 2000;
     date_entered := Some 2000; photographed := Some false;
     description := Some "dark wet"; count := None; location := Some "shelf 1";
     sf_type := None; sf_measures := None; sf_length_mm := None;
     sf_height_mm := None; sf_width_mm := None; sf_thickness_mm := None;
     sf_diameter_mm := None; sf_diameter_perf_mm := None; sf_weight := None;
     sf_description := None; sf_date_excavated := None;
     sf_date_entered := None; sf_photographed := None |}.

(** A context with a blank before it: the blank is stripped and the row
    is accepted. *)
Definition padded_context_row : row :=
  [CInt 5; CStr " A123"; CStr "A"; CStr "ceramic"; CDatetime 1000].

(** A trench that is no letter of A to D: the row is skipped. *)
Definition foreign_trench_row : row :=
  [CInt 5; CStr "A123"; CStr "E"; CStr "ceramic"; CDatetime 1000].

(** A context and a trench that are the bar of the character class
    [[A|B|C|D]]: the row is accepted. *)
Definition bar_row : row :=
  [CInt 5; CStr "|123"; CStr "|"; CStr "ceramic"; CDatetime 1000].

Definition other_trench_row : row :=
  [CInt 5; CStr "A123"; CStr "B"; CStr "ceramic"; CDatetime 1000].

Definition twice_lot_5 : list row := [example_lot_row; example_lot_row].

(** A stand-in for [force_positive_int_from_string] in the examples: the
    number the first run of digits spells, [-1] when there is no digit. *)
Fixpoint digits_run (s : string) (acc : Z) : Z :=
  match s with
  | String c s' =>
      if PyStr.is_digit c then digits_run s' (10 * acc + PyStr.digit_val c) else acc
  | EmptyString => acc
  end.

Fixpoint first_number (s : string) : Z :=
  match s with
  | String c s' => if PyStr.is_digit c then digits_run s 0 else first_number s'
  | EmptyString => -1
  end.

Definition bead_row : row :=
  [CInt 5; CStr "A123"; CStr "A"; CStr "Bead"; CDatetime 1000;
   CStr "L:15mm,W:10mm"; CStr "2.5kg"; CStr "blue"; CNone; CBool true].

Definition fishy_weight_row : row :=
  [CInt 5; CStr "A123"; CStr "A"; CStr "Bead"; CDatetime 1000; CNone;
   CStr "5 lbs"; CStr "blue"; CNone; CBool true].

Definition header_of (cols : list string) : row := map CStr cols.

(** A workbook whose sheet Lots has a wrong first header and one good
    row; the other two sheets have their headers and no rows. *)
Definition wrong_header_workbook : workbook :=
  [("Lots",
    mk_worksheet (CStr "lot no" :: List.tl (header_of expected_cols_lots))
                 [example_lot_row]);
   ("Samples", mk_worksheet (header_of expected_cols_samples) []);
   ("Artifacts", mk_worksheet (header_of expected_cols_artifacts) [])].

Definition tagged_columns : CM.columns :=
  CM.mk_columns None None None None None None None None None (Some import_marker)
                None None None None None None (Some "A-123-5") (Some "bulk").

(** A database with one imported collected material and a photo of it. *)
Definition photo_database : database :=
  mk_database [] [] [CM.mk "cm-1" tagged_columns] []
              [Photo.mk "photo-1" (Some "cm-1"); Photo.mk "photo-2" (Some "cm-9")].

(** The keys of the examples: a counter. *)
Definition counter_uid (prefix : string) (uids : list string) : string :=
  prefix ++ PyStr.of_Z (Z.of_nat (List.length uids)).

(** The staging relation with lot 5, whose locus A-123 is in production. *)
Definition lot_5_database : database :=
  mk_database [example_lot_record] [Locus.mk "locus-1" (Some "A-123")] [] [] [].

(** The staging record of lot 5 after the Artifacts pass took [bead_row],
    and the database with it. *)
Definition bead_record : staging_row :=
  set_artifact
    (mk_artifact "2" "small_find" (Some "bead") (Some "L:15mm;W:10mm")
       (mk_dimensions (Some "15mm") None (Some "10mm") None None None)
       (Some 2) (Some "blue") (Some 1000) None (Some true) "5")
    example_lot_record.

Definition bead_database : database :=
  mk_database [bead_record] [Locus.mk "locus-1" (Some "A-123")] [] [] [].

(** ** Notions of the further statements *)

(** The first cell of the row ends the scan of a sheet. *)
Definition ends_scan (r : row) : Prop :=
  exists c0, cell_at r 0 = Some c0 /\ first_cell_empty c0 = true.

(** The scan of the Samples pass. *)
Definition sample_scan (sql_text str_other : cell -> string) (rows : list row)
  (max_rows : Z) (t : staging) : scan :=
  for_rows (sample_body sql_text str_other) max_rows rows 1 (mk_loop_vars t 0 []).

(** The columns the Lots and the Samples pass write and the Artifacts pass
    leaves alone are the same in two staging records. *)
Definition same_lot_columns (r r' : staging_row) : Prop :=
  lot r = lot r' /\ locus r = locus r' /\ unit_ r = unit_ r'
  /\ arch_domain r = arch_domain r' /\ arch_context r = arch_context r'
  /\ local_nr r = local_nr r' /\ type_ r = type_ r'
  /\ date_excavated r = date_excavated r' /\ date_entered r = date_entered r'
  /\ photographed r = photographed r' /\ description r = description r'
  /\ count r = count r' /\ location r = location r'.

(** What a pass over a sheet keeps: the rows that were in the staging
    relation [t] and whose key no record of the sheet has, and the
    records [recs] of the sheet whose key comes once in the sheet and was
    not in [t]. *)
Definition pass_keeps (p : pass) (t : staging) (recs : list staging_row) : Prop :=
  (forall r0, In r0 t -> occurrences (lot r0) recs = 0%nat -> In r0 (pass_table p))
  /\ (forall rec, In rec recs -> occurrences (lot rec) recs = 1%nat ->
                  existsb (has_lot (lot rec)) t = false -> In rec (pass_table p)).

(** The text of a measure names a unit of length. *)
Definition has_length_unit (value : string) : bool :=
  PyStr.contains "mm" value || PyStr.contains "cm" value
  || PyStr.contains " m" value.

(** Every dimension that is there names a unit of length. *)
Definition dimensions_have_units (d : dimensions) : Prop :=
  forall v,
    d_length d = Some v \/ d_height d = Some v \/ d_width d = Some v
    \/ d_thickness d = Some v \/ d_diameter d = Some v
    \/ d_diameter_perf d = Some v ->
    has_length_unit v = true.

(** The dimensions that are set in [d] are the same in [d']. *)
Definition keeps_set (d d' : dimensions) : Prop :=
  (is_set (d_length d) = true -> d_length d' = d_length d)
  /\ (is_set (d_height d) = true -> d_height d' = d_height d)
  /\ (is_set (d_width d) = true -> d_width d' = d_width d)
  /\ (is_set (d_thickness d) = true -> d_thickness d' = d_thickness d)
  /\ (is_set (d_diameter d) = true -> d_diameter d' = d_diameter d)
  /\ (is_set (d_diameter_perf d) = true -> d_diameter_perf d' = d_diameter_perf d).

(** The arch_contexts of the collected materials, nulls left out. *)
Definition cm_keys (cms : list CM.t) : list string :=
  flat_map (fun cm => match CM.arch_context (CM.cols cm) with
                      | Some a => [a]
                      | None => []
                      end) cms.

(** The arch_contexts of the loci, nulls left out. *)
Definition locus_keys (loci : list Locus.t) : list string :=
  flat_map (fun l => match Locus.arch_context l with
                     | Some a => [a]
                     | None => []
                     end) loci.

(** A row of [small_find] that refers to no collected material. *)
Definition stray_small_find : SF.t :=
  SF.mk "sf-0"
    (SF.mk_columns None None None None None None None None None None None None None
                   None).

Definition stray_database : database :=
  mk_database [bead_record] [Locus.mk "locus-1" (Some "A-123")] [] [stray_small_find]
              [].

(** The locus of production of the examples. *)
Definition locus_1 : Locus.t := Locus.mk "locus-1" (Some "A-123").

(** A database with an imported and a foreign collected material, a small
    find of the foreign one and a photo of each. *)
Definition mixed_database : database :=
  mk_database [] []
    [CM.mk "cm-1" tagged_columns;
     CM.mk "cm-2"
       (CM.mk_columns None None None None None None None None None (Some "registrar")
                      None None None None None None (Some "B-001-9") (Some "bulk"))]
    [SF.mk "sf-2"
       (SF.mk_columns (Some "cm-2") None None None None None None None None None None
                      None None None)]
    [Photo.mk "photo-1" (Some "cm-1"); Photo.mk "photo-2" (Some "cm-2")].

(** A database that holds lot 5 from a former import and has it in the
    staging relation again. *)
Definition stale_database : database :=
  mk_database [example_lot_record] [locus_1] [CM.mk "cm-1" tagged_columns] [] [].

(** A database with lot 5 and sample S7 in the staging relation, their
    two loci in production, and the collected material of lot 5 there
    already. *)
Definition two_row_database : database :=
  mk_database [example_lot_record; example_sample_record]
    [locus_1; Locus.mk "locus-2" (Some "B-045")]
    [CM.mk "cm-1" tagged_columns] [] [].

Definition lot_6_row : row :=
  [CInt 6; CStr "A123"; CStr "A"; CStr "Ceramic"; CDatetime 1000].

Definition sample_8_row : row := [CStr "S8"; CStr "B045"; CStr "B"; CStr "Soil"].

(** A workbook with a new lot, with the sample S7 twice and a sample S8
    between, and with an artifact of lot 5. *)
Definition crowded_workbook : workbook :=
  [("Lots", mk_worksheet (header_of expected_cols_lots) [lot_6_row]);
   ("Samples",
    mk_worksheet (header_of expected_cols_samples)
                 [example_sample_row; sample_8_row; example_sample_row]);
   ("Artifacts", mk_worksheet (header_of expected_cols_artifacts) [bead_row])].

(** ** The command line and the materials

    Further functions of [rliimcmimport.py]. *)

(** [d[key]] of a dict written as a list of pairs; [None] stands for
    [KeyError]. *)
Fixpoint lookup (key : string) (d : list (string * string)) : option string :=
  match d with
  | [] => None
  | (k, v) :: rest => if (k =? key)%string then Some v else lookup key rest
  end.

(** The dict [params], in the order it is written. *)
Definition params : list (string * string) :=
  [("-db", "db"); ("--db", "db"); ("-d", "dev"); ("--dev", "dev");
   ("--no_context_check", "no_context_check"); ("-nc", "no_context_check");
   ("--import", "import"); ("-i", "import"); ("--user", "user");
   ("--log_file", "logfile"); ("-lf", "logfile"); ("--no_commit", "nc");
   ("--erase_former_import", "efi"); ("--apply_imports", "apply")].

(** What [startup] makes of one parameter of the command line. *)
Inductive parameter : Type :=
| Option_ (name : string) (value : option string)   (* options.update(...) *)
| Usage                                             (* usage(), which exits *)
| IndexError                                        (* param.split("=")[1] *)
| KeyError.                                         (* params[known_param] *)

(** [interpret_param(known_param, param)] *)
Definition interpret_param (known_param : string) (param : string) : parameter :=
  match lookup known_param params with
  | None => KeyError
  | Some new_option =>
      if (new_option =? "db")%string || (new_option =? "logfile")%string
         || (new_option =? "user")%string
      then match PyStr.split "=" param with
           | _ :: v :: _ => Option_ new_option (Some v)
           | _ => IndexError
           end
      else Option_ new_option None
  end.

(** The body of the loop of [startup] over the parameters: the first key
    of [params] the lower-case parameter starts with is the known one. *)
Definition startup_param (param : string) : parameter :=
  match find (fun p => prefix (fst p) (PyStr.lower param)) params with
  | Some (known_param, _) => interpret_param known_param param
  | None => Usage
  end.

(** The dict [mapping] of [map_material]. *)
Definition mapping : list (string * string) :=
  [("ch stone", "chipped stone"); ("clay", "clay/mud");
   ("gr stone", "ground stone"); ("egyptian blue", "Egyptian blue")].

(** [map_material(material)] for [None] and for a [str]. *)
Definition map_material (material : option string) : option string :=
  match material with
  | None => None
  | Some m =>
      if (m =? "")%string then material
      else
        let map_material := PyStr.lower (PyStr.strip m) in
        match lookup map_material mapping with
        | Some v => Some v
        | None => Some (PyStr.strip m)
        end
  end.

(** Every character of [s] is in the class [p]. *)
Fixpoint all_chars (p : ascii -> bool) (s : string) : bool :=
  match s with
  | EmptyString => true
  | String c s' => p c && all_chars p s'
  end.

(** The character [c] occurs in [s]. *)
Fixpoint has_char (c : ascii) (s : string) : bool :=
  match s with
  | EmptyString => false
  | String d s' => Ascii.eqb d c || has_char c s'
  end.

(** [s] is empty or starts with a character outside the class [p]. *)
Definition starts_outside (p : ascii -> bool) (s : string) : Prop :=
  match s with
  | EmptyString => True
  | String c _ => p c = false
  end.

(** * Properties *)

(** ** The string primitives at work *)

Example of_Z_5 : PyStr.of_Z 5 = "5".
Proof. reflexivity. Qed.

Example of_Z_0 : PyStr.of_Z 0 = "0".
Proof. reflexivity. Qed.

Example of_Z_120 : PyStr.of_Z 120 = "120".
Proof. reflexivity. Qed.

Example to_int_padded : PyStr.to_int " 1_000 " = Some 1000.
Proof. reflexivity. Qed.

Example to_int_bad : PyStr.to_int "12a" = None.
Proof. reflexivity. Qed.

Example strip_both : PyStr.strip "  A123 " = "A123".
Proof. reflexivity. Qed.

Example split_two : PyStr.split ";" "L:15mm;W:10mm" = ["L:15mm"; "W:10mm"].
Proof. reflexivity. Qed.

Example re_context_bar : re_context "|123" = true.
Proof. reflexivity. Qed.

(** ** Control flow *)

Lemma bind_Go {A B : Type} (m : M A) (k : A -> M B) (l : list log_record) (b : B) :
  bind m k = (l, Go b) ->
  exists l1 a l2, m = (l1, Go a) /\ k a = (l2, Go b) /\ l = (l1 ++ l2)%list.
Proof.
  unfold bind. destruct m as [l1 [a | | | | ]]; try discriminate.
  destruct (k a) as [l2 f] eqn:E. intros H. inversion H; subst.
  exists l1, a, l2. auto.
Qed.

Lemma ret_Go {A : Type} (a b : A) (l : list log_record) :
  ret a = (l, Go b) -> l = [] /\ a = b.
Proof. unfold ret. intros H. inversion H. auto. Qed.

Ltac bind_step H Hm :=
  apply bind_Go in H;
  let l1 := fresh "l" in
  let a := fresh "a" in
  let l2 := fresh "l" in
  let Hl := fresh "Hl" in
  destruct H as (l1 & a & l2 & Hm & H & Hl); cbv beta in H.

Lemma bind_Go_eq {A B : Type} (l : list log_record) (a : A) (k : A -> M B) :
  bind (l, Go a) k = ((l ++ fst (k a))%list, snd (k a)).
Proof. unfold bind. destruct (k a). reflexivity. Qed.

Ltac run_step E := rewrite E, bind_Go_eq; cbv beta.

Lemma sql_param_Go {A : Type} (row_nr : Z) (id : cell) (v : option A)
  (l : list log_record) (a : A) :
  sql_param row_nr id v = (l, Go a) -> v = Some a /\ l = [].
Proof.
  unfold sql_param. destruct v as [a' | ]; simpl; [ | discriminate].
  intros H. apply ret_Go in H. destruct H as [-> ->]. auto.
Qed.

(** ** Characters *)

Lemma digit_not_space (c : ascii) : PyStr.is_digit c = true -> PyStr.is_space c = false.
Proof.
  destruct c as [[] [] [] [] [] [] [] []]; vm_compute; congruence.
Qed.

Lemma trench_class_not_space (c : ascii) :
  in_trench_class c = true -> PyStr.is_space c = false.
Proof.
  destruct c as [[] [] [] [] [] [] [] []]; vm_compute; congruence.
Qed.

Lemma A_to_D_trench_class (c : ascii) : in_A_to_D c = true -> in_trench_class c = true.
Proof.
  destruct c as [[] [] [] [] [] [] [] []]; vm_compute; congruence.
Qed.

(** A context of the right shape has no blank to strip. *)
Lemma strip_context (x d1 d2 d3 : ascii) :
  PyStr.is_space x = false -> PyStr.is_space d3 = false ->
  PyStr.strip (String x (String d1 (String d2 (String d3 ""))))
  = String x (String d1 (String d2 (String d3 ""))).
Proof.
  intros Hx H3. unfold PyStr.strip. simpl. rewrite Hx. simpl. rewrite H3.
  reflexivity.
Qed.

(** ** The steps of a row that is accepted *)

Lemma first_cell_Go (r : row) (l : list log_record) (c : cell) :
  first_cell r = (l, Go c) ->
  cell_at r 0 = Some c /\ first_cell_empty c = false /\ l = [].
Proof.
  unfold first_cell, value_at. destruct (cell_at r 0) as [c0 | ]; simpl.
  - destruct (first_cell_empty c0) eqn:E; simpl; intros H; inversion H; subst; auto.
  - discriminate.
Qed.

Lemma lot_number_Go (row_nr : Z) (c : cell) (l : list log_record) (n : Z) :
  lot_number row_nr c = (l, Go n) -> py_int c = Some n /\ 0 < n /\ l = [].
Proof.
  unfold lot_number. destruct (py_int c) as [z | ]; simpl; try discriminate.
  destruct (z <=? 0) eqn:E; simpl; try discriminate.
  intros H. inversion H; subst. apply Z.leb_gt in E. auto.
Qed.

Lemma context_of_Go (row_nr : Z) (id : cell) (r : row) (l : list log_record)
  (context : string) :
  context_of row_nr id r = (l, Go context) ->
  exists s, cell_at r 1 = Some (CStr s) /\ context = PyStr.strip s
            /\ re_context context = true /\ l = [].
Proof.
  unfold context_of. destruct (cell_at r 1) as [[ | s | | | | | ] | ]; simpl;
    try discriminate.
  destruct (re_context (PyStr.strip s)) eqn:E; simpl; try discriminate.
  intros H. inversion H; subst. exists s. auto.
Qed.

Lemma trench_of_Go (row_nr : Z) (id : cell) (context : string) (r : row)
  (l : list log_record) (trench : string) :
  trench_of row_nr id context r = (l, Go trench) ->
  exists s, cell_at r 2 = Some (CStr s) /\ trench = PyStr.strip s
            /\ re_trench trench = true
            /\ l = if negb (context =? "")%string
                      && negb (trench =? first_char context)%string
                   then [(WARNING, TrenchMismatch row_nr id trench)] else [].
Proof.
  unfold trench_of, value_at. destruct (cell_at r 2) as [[ | s | | | | | ] | ]; simpl;
    try discriminate.
  destruct (re_trench (PyStr.strip s)) eqn:E; simpl; try discriminate.
  destruct (negb (context =? "")%string
            && negb (PyStr.strip s =? first_char context)%string) eqn:E';
    simpl; intros H; inversion H; subst; exists s; rewrite E'; auto.
Qed.

Lemma dashed_Go (context : string) (l : list log_record) (d : string) :
  dashed context = (l, Go d) ->
  exists c rest, context = String c rest /\ d = String c ("-" ++ rest) /\ l = [].
Proof.
  unfold dashed. destruct context as [ | c rest]; simpl; try discriminate.
  intros H. inversion H; subst. exists c, rest. auto.
Qed.

(** ** A row of the Lots sheet, worked through *)

Example example_lot_row_accepted :
  lot_row no_text 2 example_lot_row = ([], Go example_lot_record).
Proof. reflexivity. Qed.

(** ** C3: locus and arch_context of a lot *)

(** C3. An accepted row of the Lots sheet whose context cell is a trench
    letter [x] of A to D followed by three digits, and whose lot number is
    the integer [N], has a positive [N], the locus [x-###] and the
    arch_context [x-###-N]. *)
Theorem lot_arch_context (sql_text : cell -> string) (row_nr : Z) (r : row)
  (c0 : cell) (x d1 d2 d3 : ascii) (N : Z) (rec : staging_row)
  (l : list log_record) :
  in_A_to_D x = true -> PyStr.is_digit d1 = true -> PyStr.is_digit d2 = true ->
  PyStr.is_digit d3 = true ->
  cell_at r 0 = Some c0 -> py_int c0 = Some N ->
  cell_at r 1 = Some (CStr (String x (String d1 (String d2 (String d3 ""))))) ->
  lot_row sql_text row_nr r = (l, Go rec) ->
  0 < N
  /\ locus rec = String x (String "-" (String d1 (String d2 (String d3 ""))))
  /\ arch_context rec
     = String x (String "-" (String d1 (String d2 (String d3 "")))) ++ "-" ++ PyStr.of_Z N.
Proof.
  intros Hx H1 H2 H3 Hc0 HN Hc1 H. unfold lot_row in H.
  bind_step H Hfirst. bind_step H Hlot. bind_step H Hctx. bind_step H Htr.
  bind_step H Hty. bind_step H Hde. bind_step H Hdr. bind_step H Hsc.
  bind_step H Hdash. bind_step H Hq1. bind_step H Hq2. bind_step H Hq3.
  apply ret_Go in H. destruct H as [_ <-]. simpl.
  apply first_cell_Go in Hfirst. destruct Hfirst as (Hfirst & _ & _).
  rewrite Hc0 in Hfirst. inversion Hfirst; subst a.
  apply lot_number_Go in Hlot. destruct Hlot as (Hlot & Hpos & _).
  rewrite HN in Hlot. inversion Hlot; subst a0.
  apply context_of_Go in Hctx. destruct Hctx as (s & Hs & Hctx & _ & _).
  rewrite Hc1 in Hs. inversion Hs; subst s.
  rewrite strip_context in Hctx
    by (apply trench_class_not_space, A_to_D_trench_class, Hx
        || apply digit_not_space, H3).
  subst a1. simpl in Hdash. apply ret_Go in Hdash. destruct Hdash as [_ <-].
  auto.
Qed.

Lemma lot_arch_context_witness :
  0 < 5
  /\ locus example_lot_record = "A-123"
  /\ arch_context example_lot_record = "A-123-5".
Proof.
  exact (lot_arch_context no_text 2 example_lot_row (CInt 5) "A" "1" "2" "3" 5
           example_lot_record [] eq_refl eq_refl eq_refl eq_refl eq_refl eq_refl
           eq_refl example_lot_row_accepted).
Defined.

(** ** C9: the photographed flag of a lot *)

Lemma replace_at_length (i : nat) (v : cell) (r : row) :
  List.length (replace_at i v r) = List.length r.
Proof.
  revert i. induction r as [ | c rest IH]; intros [ | i]; simpl; auto.
Qed.

Lemma replace_at_other (i j : nat) (v : cell) (r : row) :
  i <> j -> cell_at (replace_at i v r) j = cell_at r j.
Proof.
  unfold cell_at. revert i j.
  induction r as [ | c rest IH]; intros [ | i] [ | j] H; simpl; auto;
    congruence.
Qed.

Lemma get_or_replace_at (i j : nat) (v alt : cell) (r : row) :
  i <> j -> get_or (replace_at i v r) j alt = get_or r j alt.
Proof.
  intros H. unfold get_or. rewrite replace_at_length, replace_at_other by exact H.
  reflexivity.
Qed.

(** A step that reads one cell does not see a change of another. *)
Lemma first_cell_replace_at (i : nat) (v : cell) (r : row) :
  i <> 0%nat -> first_cell (replace_at i v r) = first_cell r.
Proof.
  intros H. unfold first_cell, value_at. rewrite replace_at_other by exact H.
  reflexivity.
Qed.

Lemma context_of_replace_at (i : nat) (v : cell) (row_nr : Z) (id : cell) (r : row) :
  i <> 1%nat -> context_of row_nr id (replace_at i v r) = context_of row_nr id r.
Proof.
  intros H. unfold context_of. rewrite replace_at_other by exact H. reflexivity.
Qed.

Lemma trench_of_replace_at (i : nat) (v : cell) (row_nr : Z) (id : cell)
  (context : string) (r : row) :
  i <> 2%nat ->
  trench_of row_nr id context (replace_at i v r) = trench_of row_nr id context r.
Proof.
  intros H. unfold trench_of, value_at. rewrite replace_at_other by exact H.
  reflexivity.
Qed.

Lemma type_of_replace_at (i : nat) (v : cell) (row_nr : Z) (id : cell) (r : row) :
  i <> 3%nat -> type_of row_nr id (replace_at i v r) = type_of row_nr id r.
Proof.
  intros H. unfold type_of, value_at. rewrite replace_at_other by exact H.
  reflexivity.
Qed.

Lemma get_or_truthy (r : row) (i : nat) :
  truthy (get_or r i CNone)
  = match cell_at r i with
    | Some v => truthy v
    | None => false
    end.
Proof.
  unfold get_or, cell_at. destruct (i <? List.length r)%nat eqn:E.
  - destruct (nth_error r i) as [v | ]; auto. destruct (truthy v) eqn:T; auto.
  - apply Nat.ltb_ge in E. apply nth_error_None in E. rewrite E. reflexivity.
Qed.

(** C9. The photographed flag of an accepted row of the Lots sheet is true
    exactly when the row has a cell at index 7 (total number of sherds)
    and that cell is truthy; whatever is put in the cell at index 9 (the
    column photographed), the row gives the same log and the same staging
    record. *)
Theorem lot_photographed (sql_text : cell -> string) (row_nr : Z) (r : row)
  (rec : staging_row) (l : list log_record) :
  lot_row sql_text row_nr r = (l, Go rec) ->
  photographed rec
  = Some (match cell_at r 7 with
          | Some v => truthy v
          | None => false
          end)
  /\ forall v : cell,
       lot_row sql_text row_nr (replace_at 9 v r) = lot_row sql_text row_nr r.
Proof.
  intros H. split.
  - unfold lot_row in H.
    bind_step H Hfirst. bind_step H Hlot. bind_step H Hctx. bind_step H Htr.
    bind_step H Hty. bind_step H Hde. bind_step H Hdr. bind_step H Hsc.
    bind_step H Hdash. bind_step H Hq1. bind_step H Hq2. bind_step H Hq3.
    apply ret_Go in H. destruct H as [_ <-]. cbn [photographed].
    rewrite <- get_or_truthy. destruct (truthy (get_or r 7 CNone)); reflexivity.
  - intros v. unfold lot_row, first_cell, context_of, trench_of, type_of, value_at.
    rewrite !replace_at_other by discriminate.
    rewrite !get_or_replace_at by discriminate.
    reflexivity.
Qed.

Lemma lot_photographed_witness :
  photographed example_lot_record = Some true
  /\ forall v : cell,
       lot_row no_text 2 (replace_at 9 v example_lot_row)
       = lot_row no_text 2 example_lot_row.
Proof.
  exact (lot_photographed no_text 2 example_lot_row example_lot_record []
           example_lot_row_accepted).
Defined.

(** A lot that the sheet marks as photographed and that has no sherd
    count is stored as not photographed. *)
Example photographed_column_ignored :
  exists rec l,
    lot_row no_text 2
      [CInt 5; CStr "A123"; CStr "A"; CStr "lithic"; CDatetime 1000; CNone;
       CNone; CNone; CNone; CBool true] = (l, Go rec)
    /\ photographed rec = Some false.
Proof. eexists. eexists. split; reflexivity. Qed.

(** ** C10: the constant columns of a sample *)

Lemma get_or_value (r : row) (i : nat) (v : cell) :
  get_or r i CNone = v -> v = CNone \/ truthy v = true.
Proof.
  unfold get_or. destruct (i <? List.length r)%nat; [ | auto].
  destruct (cell_at r i) as [c | ]; [ | auto].
  destruct (truthy c) eqn:E; intros <-; auto.
Qed.

(** The two tests of a date let through [None] and a datetime, nothing
    else: what comes from [get_or] is [None] or truthy. *)
Lemma date_checked (row_nr : Z) (id v : cell) :
  v = CNone \/ truthy v = true ->
  (exists l d, date_excavated_of row_nr id v = (l, Go d)
               /\ (d = CNone \/ exists t, d = CDatetime t))
  /\ (exists l d, date_recorded_of row_nr id v = (l, Go d)
                  /\ (d = CNone \/ exists t, d = CDatetime t)).
Proof.
  intros [-> | Hv].
  - split; eexists; eexists; split; try reflexivity; auto.
  - unfold date_excavated_of, date_recorded_of. rewrite Hv.
    destruct v; simpl; split; eexists; eexists; split; try reflexivity; eauto.
Qed.

(** The test of the count of sherds lets through [None] and a number,
    the booleans among the numbers, and nothing else. *)
Lemma sherd_count_checked (row_nr : Z) (id ty v d : cell) (l : list log_record) :
  v = CNone \/ truthy v = true ->
  sherd_count_of row_nr id ty v = (l, Go d) ->
  d = CNone \/ is_number d = true.
Proof.
  unfold sherd_count_of. intros [-> | Hv].
  - simpl. intros H. inversion H. auto.
  - rewrite Hv. destruct (is_number v) eqn:En; simpl.
    + destruct ty; simpl; try discriminate.
      destruct (negb (PyStr.lower s =? "ceramic")%string); simpl; intros H;
        inversion H; subst; auto.
    + intros H. inversion H. auto.
Qed.

(** The timestamp the database takes after the test of the date. *)
Lemma date_excavated_of_Go (row_nr : Z) (id v : cell) (l : list log_record)
  (d : cell) (q : option Z) :
  date_excavated_of row_nr id v = (l, Go d) -> sql_timestamp d = Some q ->
  q = match v with
      | CDatetime t => Some t
      | _ => None
      end.
Proof.
  unfold date_excavated_of. destruct (truthy v) eqn:T; simpl.
  - destruct v; simpl; intros H; inversion H; subst; simpl; congruence.
  - intros H. inversion H; subst. destruct d; simpl; try discriminate; congruence.
Qed.

Lemma get_or_datetime (r : row) (i : nat) :
  match get_or r i CNone with
  | CDatetime t => Some t
  | _ => None
  end
  = match cell_at r i with
    | Some (CDatetime t) => Some t
    | _ => None
    end.
Proof.
  unfold get_or, cell_at. destruct (i <? List.length r)%nat eqn:E.
  - destruct (nth_error r i) as [v | ]; auto.
    destruct (truthy v) eqn:T; destruct v; simpl in *; auto; discriminate.
  - apply Nat.ltb_ge in E. apply nth_error_None in E. rewrite E. reflexivity.
Qed.

Example example_sample_row_accepted :
  sample_row no_text no_text 2 example_sample_row = ([], Go example_sample_record).
Proof. reflexivity. Qed.

(** A sample whose date cell holds a text: the test of the date logs it
    and puts [None] in its place, and the row is stored without a date. *)
Example text_date_sample_accepted :
  exists rec,
    sample_row no_text no_text 2 (replace_at 5 (CStr "yesterday") example_sample_row)
    = ([(INFO, DateExcavatedNotADate 2 (CStr "S7") (CStr "yesterday"))], Go rec)
    /\ date_excavated rec = None /\ date_entered rec = None.
Proof. eexists. split; [reflexivity | split; reflexivity]. Qed.

(** C10. Every staging record the Samples pass creates has photographed
    false, no count, and a date_entered equal to its date_excavated, which
    is the value of the cell at index 5 (the column date) when that is a
    datetime and null otherwise; and whatever is put in that cell, the
    row is still accepted: a value that is no datetime never reaches the
    database. *)
Theorem sample_constant_columns (sql_text str_other : cell -> string) (row_nr : Z)
  (r : row) (rec : staging_row) (l : list log_record) :
  sample_row sql_text str_other row_nr r = (l, Go rec) ->
  photographed rec = Some false
  /\ count rec = None
  /\ date_entered rec = date_excavated rec
  /\ date_excavated rec
     = match cell_at r 5 with
       | Some (CDatetime t) => Some t
       | _ => None
       end
  /\ forall v : cell,
       accepted (sample_row sql_text str_other row_nr (replace_at 5 v r)).
Proof.
  intros H. unfold sample_row in H.
  bind_step H Hfirst. bind_step H Hnr. bind_step H Hctx. bind_step H Htr.
  bind_step H Hty. bind_step H Hde. bind_step H Hnotes. bind_step H Hdash.
  bind_step H Hq1. bind_step H Hq2.
  apply ret_Go in H. destruct H as [_ <-].
  cbn [photographed count date_entered date_excavated].
  apply sql_param_Go in Hq1, Hq2. destruct Hq1 as [Hq1 _], Hq2 as [Hq2 _].
  split; [reflexivity | ]. split; [reflexivity | ]. split; [congruence | ]. split.
  - rewrite (date_excavated_of_Go _ _ _ _ _ _ Hde Hq1). apply get_or_datetime.
  - intros v. unfold sample_row.
    rewrite first_cell_replace_at by discriminate. run_step Hfirst. run_step Hnr.
    rewrite context_of_replace_at by discriminate. run_step Hctx.
    rewrite trench_of_replace_at by discriminate. run_step Htr.
    rewrite type_of_replace_at by discriminate. run_step Hty.
    rewrite (get_or_replace_at 5 4), (get_or_replace_at 5 6), (get_or_replace_at 5 7)
      by discriminate.
    destruct (date_checked row_nr (CStr (fst a0))
                (get_or (replace_at 5 v r) 5 CNone)
                (get_or_value _ _ _ eq_refl)) as [(l' & d & Hd & Hdt) _].
    run_step Hd. run_step Hnotes. run_step Hdash.
    assert (Hs : exists q, sql_timestamp d = Some q)
      by (destruct Hdt as [-> | [t ->]]; eexists; reflexivity).
    destruct Hs as [q Hs]. rewrite Hs. unfold accepted. simpl. eauto.
Qed.

Lemma sample_constant_columns_witness :
  photographed example_sample_record = Some false
  /\ count example_sample_record = None
  /\ date_entered example_sample_record = date_excavated example_sample_record
  /\ date_excavated example_sample_record = Some 2000
  /\ forall v : cell,
       accepted (sample_row no_text no_text 2 (replace_at 5 v example_sample_row)).
Proof.
  exact (sample_constant_columns no_text no_text 2 example_sample_row
           example_sample_record [] example_sample_row_accepted).
Defined.

(** ** C4: the checks of the context and of the trench *)


Lemma type_of_not_skipped (row_nr : Z) (id : cell) (r : row) :
  not_skipped (type_of row_nr id r).
Proof.
  unfold not_skipped, type_of, value_at.
  destruct (cell_at r 3) as [v | ]; simpl; try congruence.
  destruct (truthy v); simpl; try congruence.
  destruct v; simpl; congruence.
Qed.

Lemma date_excavated_of_not_skipped (row_nr : Z) (id v : cell) :
  not_skipped (date_excavated_of row_nr id v).
Proof.
  unfold not_skipped, date_excavated_of.
  destruct (truthy v); simpl; try congruence.
  destruct (negb (is_datetime v)); simpl; congruence.
Qed.

Lemma date_recorded_of_not_skipped (row_nr : Z) (id v : cell) :
  not_skipped (date_recorded_of row_nr id v).
Proof.
  unfold not_skipped, date_recorded_of.
  destruct (truthy v); simpl; try congruence.
  destruct (negb (is_datetime v)); simpl; congruence.
Qed.

Lemma sherd_count_of_not_skipped (row_nr : Z) (id ty v : cell) :
  not_skipped (sherd_count_of row_nr id ty v).
Proof.
  unfold not_skipped, sherd_count_of.
  destruct (truthy v); simpl; try congruence.
  destruct (negb (is_number v)); simpl; try congruence.
  destruct ty; simpl; try congruence.
  destruct (negb (PyStr.lower s =? "ceramic")%string); simpl; congruence.
Qed.

Lemma dashed_not_skipped (context : string) : not_skipped (dashed context).
Proof. unfold not_skipped, dashed. destruct context; simpl; congruence. Qed.

Lemma with_notes_not_skipped (str_other : cell -> string) (d n : cell) :
  not_skipped (with_notes str_other d n).
Proof.
  unfold not_skipped, with_notes. destruct (truthy n); simpl; try congruence.
  destruct d; simpl; congruence.
Qed.

Lemma ret_not_skipped {A : Type} (a : A) : not_skipped (ret a).
Proof. unfold not_skipped, ret. simpl. congruence. Qed.

Lemma sql_param_not_skipped {A : Type} (row_nr : Z) (id : cell) (v : option A) :
  not_skipped (sql_param row_nr id v).
Proof. unfold not_skipped, sql_param. destruct v; simpl; congruence. Qed.

Create HintDb flow.

#[local] Hint Resolve type_of_not_skipped date_excavated_of_not_skipped
  date_recorded_of_not_skipped sherd_count_of_not_skipped dashed_not_skipped
  with_notes_not_skipped ret_not_skipped sql_param_not_skipped : flow.

















Example padded_context_accepted :
  exists rec, lot_row no_text 2 padded_context_row = ([], Go rec)
              /\ locus rec = "A-123".
Proof. eexists. split; reflexivity. Qed.

Example foreign_trench_skipped :
  lot_row no_text 2 foreign_trench_row
  = ([(WARNING, TrenchNotRight 2 (CInt 5) "E")], Continue).
Proof. reflexivity. Qed.

Example bar_context_accepted :
  exists rec, lot_row no_text 2 bar_row = ([], Go rec) /\ locus rec = "|-123".
Proof. eexists. split; reflexivity. Qed.



(** *** A trench that is not the letter of the context *)














(** The row with the trench B under the context A123, worked through:
    the record has the unit B, and the warning is all that is logged. *)
Example other_trench_row_stored :
  exists rec,
    lot_row no_text 2 other_trench_row
    = ([(WARNING, TrenchMismatch 2 (CInt 5) "B")], Go rec)
    /\ unit_ rec = "B" /\ locus rec = "A-123".
Proof. eexists. split; [reflexivity | split; reflexivity]. Qed.

(** ** C2: a lot number that comes twice *)

Lemma store_stored (row_nr : Z) (id : staging_row -> cell) (v : loop_vars)
  (rec : staging_row) :
  exists l, store row_nr (id rec) v rec = (l, Go (stored id v rec)).
Proof.
  unfold store, stored. destruct (insert_row (table v) rec); eexists; reflexivity.
Qed.

(** A loop whose body stores what [normalise] gives ends with the
    variables that storing the scanned records one by one gives. *)
Lemma for_rows_stored (normalise : Z -> row -> M staging_row)
  (id : staging_row -> cell) (max_rows : Z) (rows : list row) :
  forall (row_nr : Z) (v : loop_vars),
    scan_vars (for_rows (fun v row_nr r => rec <- normalise row_nr r ;;
                                           store row_nr (id rec) v rec)
                        max_rows rows row_nr v)
    = fold_left (stored id) (scanned_records normalise max_rows rows row_nr) v.
Proof.
  induction rows as [ | r rest IH]; intros row_nr v; simpl; auto.
  destruct ((-1 <? max_rows) && (row_nr + 1 =? max_rows + 2)); simpl; auto.
  destruct (normalise (row_nr + 1) r) as [l [rec | | | | ]]; simpl;
    try reflexivity.
  - destruct (store_stored (row_nr + 1) id v rec) as [l' ->]. simpl.
    apply IH.
  - apply IH.
Qed.

Lemma lot_scan_stored (sql_text : cell -> string) (max_rows : Z) (rows : list row)
  (row_nr : Z) (v : loop_vars) :
  scan_vars (for_rows (lot_body sql_text) max_rows rows row_nr v)
  = fold_left (stored lot_id) (scanned_records (lot_row sql_text) max_rows rows row_nr)
              v.
Proof.
  exact (for_rows_stored (lot_row sql_text) lot_id max_rows rows row_nr v).
Qed.

Lemma has_lot_self (rec : staging_row) : has_lot (lot rec) rec = true.
Proof. unfold has_lot. apply String.eqb_refl. Qed.

Lemma present_app (key : string) (t : staging) (rec : staging_row) :
  existsb (has_lot key) (t ++ [rec])
  = existsb (has_lot key) t || has_lot key rec.
Proof. rewrite existsb_app. simpl. rewrite orb_false_r. reflexivity. Qed.

Lemma stored_keeps_present (id : staging_row -> cell) (key : string) (v : loop_vars)
  (rec : staging_row) :
  existsb (has_lot key) (table v) = true ->
  existsb (has_lot key) (table (stored id v rec)) = true.
Proof.
  intros H. unfold stored, insert_row.
  destruct (existsb (has_lot (lot rec)) (table v)); simpl; auto.
  rewrite present_app, H. reflexivity.
Qed.

Lemma fold_keeps_present (id : staging_row -> cell) (key : string)
  (recs : list staging_row) :
  forall v, existsb (has_lot key) (table v) = true ->
            existsb (has_lot key) (table (fold_left (stored id) recs v)) = true.
Proof.
  induction recs as [ | rec rest IH]; intros v H; simpl; auto.
  apply IH, stored_keeps_present, H.
Qed.

Lemma stored_keeps_to_delete (id : staging_row -> cell) (k : cell) (v : loop_vars)
  (rec : staging_row) :
  In k (to_delete v) -> In k (to_delete (stored id v rec)).
Proof.
  intros H. unfold stored. destruct (insert_row (table v) rec); simpl; auto.
  apply in_or_app. auto.
Qed.

Lemma fold_keeps_to_delete (id : staging_row -> cell) (k : cell)
  (recs : list staging_row) :
  forall v, In k (to_delete v) -> In k (to_delete (fold_left (stored id) recs v)).
Proof.
  induction recs as [ | rec rest IH]; intros v H; simpl; auto.
  apply IH, stored_keeps_to_delete, H.
Qed.

(** After a record with the key is stored, the key is in the table. *)
Lemma stored_own_key (id : staging_row -> cell) (v : loop_vars) (rec : staging_row) :
  existsb (has_lot (lot rec)) (table (stored id v rec)) = true.
Proof.
  unfold stored, insert_row.
  destruct (existsb (has_lot (lot rec)) (table v)) eqn:E; simpl; auto.
  rewrite present_app. unfold has_lot at 2. rewrite String.eqb_refl.
  apply orb_true_r.
Qed.

Lemma stored_present_to_delete (id : staging_row -> cell) (v : loop_vars)
  (rec : staging_row) :
  existsb (has_lot (lot rec)) (table v) = true ->
  In (id rec) (to_delete (stored id v rec)).
Proof.
  intros H. unfold stored, insert_row. rewrite H. simpl.
  apply in_or_app. right. left. reflexivity.
Qed.

(** A record whose key is in the table when it comes puts its identifier
    on [to_delete]. *)
Lemma present_then_to_delete (id : staging_row -> cell) (key : string)
  (recs : list staging_row) :
  forall v,
    existsb (has_lot key) (table v) = true ->
    (1 <= occurrences key recs)%nat ->
    exists rec, lot rec = key /\ In (id rec) (to_delete (fold_left (stored id) recs v)).
Proof.
  unfold occurrences.
  induction recs as [ | rec rest IH]; intros v Hp Hc; simpl in *; [lia | ].
  destruct (has_lot key rec) eqn:E.
  - unfold has_lot in E. apply String.eqb_eq in E. subst key. exists rec.
    split; [reflexivity | ].
    apply fold_keeps_to_delete, stored_present_to_delete, Hp.
  - apply IH; [apply stored_keeps_present, Hp | exact Hc].
Qed.

Lemma twice_then_to_delete (id : staging_row -> cell) (key : string)
  (recs : list staging_row) :
  forall v,
    (2 <= occurrences key recs)%nat ->
    exists rec, lot rec = key /\ In (id rec) (to_delete (fold_left (stored id) recs v)).
Proof.
  unfold occurrences.
  induction recs as [ | rec rest IH]; intros v Hc; simpl in *; [lia | ].
  destruct (has_lot key rec) eqn:E.
  - unfold has_lot in E. apply String.eqb_eq in E. subst key.
    apply present_then_to_delete; [apply stored_own_key | ].
    unfold occurrences. simpl in Hc. lia.
  - apply IH. exact Hc.
Qed.

Lemma occurs_then_present (id : staging_row -> cell) (key : string)
  (recs : list staging_row) :
  forall v,
    (1 <= occurrences key recs)%nat ->
    existsb (has_lot key) (table (fold_left (stored id) recs v)) = true.
Proof.
  unfold occurrences.
  induction recs as [ | rec rest IH]; intros v Hc; simpl in *; [lia | ].
  destruct (has_lot key rec) eqn:E.
  - unfold has_lot in E. apply String.eqb_eq in E. subst key.
    apply fold_keeps_present, stored_own_key.
  - apply IH. exact Hc.
Qed.

Lemma present_count (key : string) (t : staging) :
  existsb (has_lot key) t = true -> (1 <= get_record_count t key)%nat.
Proof.
  unfold get_record_count. induction t as [ | r t IH]; simpl; [discriminate | ].
  destruct (has_lot key r); simpl; [lia | exact IH].
Qed.

(** *** The identifiers the Lots pass puts on [to_delete] *)

Lemma stored_lot_ids (v : loop_vars) (rec : staging_row) :
  (forall k, In k (to_delete v) -> exists z, k = CInt z) ->
  forall k, In k (to_delete (stored lot_id v rec)) -> exists z, k = CInt z.
Proof.
  intros H k. unfold stored. destruct (insert_row (table v) rec); simpl; auto.
  intros Hk. apply in_app_or in Hk. destruct Hk as [Hk | [<- | []]]; auto.
  unfold lot_id. eauto.
Qed.

Lemma fold_lot_ids (recs : list staging_row) :
  forall v,
    (forall k, In k (to_delete v) -> exists z, k = CInt z) ->
    forall k, In k (to_delete (fold_left (stored lot_id) recs v)) ->
              exists z, k = CInt z.
Proof.
  induction recs as [ | rec rest IH]; intros v H; simpl; auto.
  apply IH, stored_lot_ids, H.
Qed.

(** The [delete] of the purge raises for the first [int] it is given:
    nothing is deleted and nothing is counted. *)
Lemma purge_ints (ks : list cell) (t : staging) (n : Z) :
  (forall k, In k ks -> exists z, k = CInt z) ->
  purge ks t n = (t, n, match ks with
                        | [] => false
                        | _ => true
                        end).
Proof.
  destruct ks as [ | k ks]; [reflexivity | ]. intros H.
  destruct (H k (or_introl eq_refl)) as [z ->]. reflexivity.
Qed.

Lemma lot_scan_ids (sql_text : cell -> string) (rows : list row) (max_rows : Z)
  (t : staging) :
  forall k, In k (to_delete (scan_vars (lot_scan sql_text rows max_rows t))) ->
            exists z, k = CInt z.
Proof.
  unfold lot_scan. rewrite lot_scan_stored. apply fold_lot_ids.
  intros k [].
Qed.

(** The Lots pass deletes no row. *)
Lemma lot_pass_table (sql_text : cell -> string) (rows : list row) (max_rows : Z)
  (t : staging) :
  pass_table (import_lot_rows sql_text rows max_rows t)
  = table (scan_vars (lot_scan sql_text rows max_rows t)).
Proof.
  unfold import_lot_rows, finish. fold (lot_scan sql_text rows max_rows t).
  destruct (scan_end (lot_scan sql_text rows max_rows t)); try reflexivity.
  rewrite (purge_ints _ _ _ (lot_scan_ids sql_text rows max_rows t)).
  destruct (to_delete (scan_vars (lot_scan sql_text rows max_rows t)));
    reflexivity.
Qed.

(** C2, on the code. When a lot number is the key of two or more of the
    records the rows of the Lots sheet give, the purge of
    [import_lot_rows] deletes nothing: the pass leaves the staging
    relation as the loop left it, with a row of that key in it, and it
    does not return [True]. When the loop itself ends well, the first
    [delete] of the purge raises, for its parameter is the [int] and the
    column is text: the exception escapes the pass, and the log ends with
    what the loop logged, without a count. *)
Theorem duplicate_lot_not_purged (sql_text : cell -> string) (rows : list row)
  (max_rows : Z) (t : staging) (key : string) :
  (2 <= occurrences key (scanned_records (lot_row sql_text) max_rows rows 1))%nat ->
  pass_table (import_lot_rows sql_text rows max_rows t)
  = table (scan_vars (lot_scan sql_text rows max_rows t))
  /\ (1 <= get_record_count (pass_table (import_lot_rows sql_text rows max_rows t))
                            key)%nat
  /\ pass_return (import_lot_rows sql_text rows max_rows t) <> Some true
  /\ (scan_end (lot_scan sql_text rows max_rows t) = Done ->
      pass_return (import_lot_rows sql_text rows max_rows t) = None
      /\ pass_log (import_lot_rows sql_text rows max_rows t)
         = scan_log (lot_scan sql_text rows max_rows t)).
Proof.
  intros Hk. split; [apply lot_pass_table | ]. split.
  - rewrite lot_pass_table. apply present_count. unfold lot_scan.
    rewrite lot_scan_stored. apply occurs_then_present. lia.
  - assert (Hd : to_delete (scan_vars (lot_scan sql_text rows max_rows t)) <> []).
    { unfold lot_scan. rewrite lot_scan_stored.
      destruct (twice_then_to_delete lot_id key _ (mk_loop_vars t 0 []) Hk)
        as (rec & _ & Hin).
      intros E. rewrite E in Hin. destruct Hin. }
    unfold import_lot_rows, finish. fold (lot_scan sql_text rows max_rows t).
    rewrite (purge_ints _ _ _ (lot_scan_ids sql_text rows max_rows t)).
    destruct (to_delete (scan_vars (lot_scan sql_text rows max_rows t)));
      [congruence | ].
    destruct (scan_end (lot_scan sql_text rows max_rows t)); split;
      try discriminate; intros; try discriminate; split; reflexivity.
Qed.

Lemma duplicate_lot_not_purged_witness :
  pass_table (import_lot_rows no_text twice_lot_5 (-1) [])
  = table (scan_vars (lot_scan no_text twice_lot_5 (-1) []))
  /\ (1 <= get_record_count (pass_table (import_lot_rows no_text twice_lot_5 (-1) []))
                            "5")%nat
  /\ pass_return (import_lot_rows no_text twice_lot_5 (-1) []) <> Some true
  /\ (scan_end (lot_scan no_text twice_lot_5 (-1) []) = Done ->
      pass_return (import_lot_rows no_text twice_lot_5 (-1) []) = None
      /\ pass_log (import_lot_rows no_text twice_lot_5 (-1) [])
         = scan_log (lot_scan no_text twice_lot_5 (-1) [])).
Proof.
  exact (duplicate_lot_not_purged no_text twice_lot_5 (-1) [] "5" (le_n 2)).
Defined.

(** The sheet with lot 5 twice, worked through: the second row is
    refused, the [delete] of the purge raises, and the first row of lot 5
    stays in the staging relation. *)
Example twice_lot_5_imported :
  import_lot_rows no_text twice_lot_5 (-1) []
  = mk_pass [example_lot_record] [(ERROR, DuplicateLotNumber 3 (CInt 5))] None.
Proof. reflexivity. Qed.

(** The same sheet in the Samples pass, whose identifier is the text of
    the cell: there the purge deletes the first row. *)
Example twice_sample_imported :
  import_sample_rows no_text no_text [example_sample_row; example_sample_row] (-1) []
  = mk_pass []
      [(ERROR, DuplicateLotNumber 3 (CStr "S7")); (INFO, DeletedLotNumbers 1);
       (INFO, SuccessfullyImported 0 3 "Samples")]
      (Some true).
Proof. reflexivity. Qed.

(** A lot whose count of sherds is a boolean: the database has no cast
    from boolean to numeric, the [INSERT] raises, and the pass logs the
    error and returns [False] at that row. *)
Example boolean_sherd_count :
  import_lot_rows no_text
    [[CInt 5; CStr "A123"; CStr "A"; CStr "Ceramic"; CDatetime 1000; CNone; CNone;
      CBool true];
     example_lot_row] (-1) []
  = mk_pass [] [(ERROR, SqlError 2 (CInt 5))] (Some false).
Proof. reflexivity. Qed.

(** *** The purge of the Samples pass *)

Lemma count_filter_le (key key' : string) (t : staging) :
  get_record_count t key = 0%nat ->
  get_record_count (filter (fun r => negb (has_lot key' r)) t) key = 0%nat.
Proof.
  unfold get_record_count. induction t as [ | r t IH]; simpl; auto.
  destruct (has_lot key r) eqn:E; simpl; [discriminate | ].
  intros H. destruct (negb (has_lot key' r)); simpl; auto.
  rewrite E. auto.
Qed.

Lemma purge_keeps_absent (key : string) (ks : list cell) :
  forall t n,
    get_record_count t key = 0%nat ->
    get_record_count (fst (fst (purge ks t n))) key = 0%nat.
Proof.
  induction ks as [ | k rest IH]; intros t n H; simpl; auto.
  destruct k; simpl; auto. apply IH, count_filter_le, H.
Qed.

Lemma filter_absent (key : string) (t : staging) :
  get_record_count (filter (fun r => negb (has_lot key r)) t) key = 0%nat.
Proof.
  unfold get_record_count. induction t as [ | r t IH]; simpl; auto.
  destruct (has_lot key r) eqn:E; simpl; auto. rewrite E. exact IH.
Qed.

(** A purge whose identifiers are all text raises nothing. *)
Lemma purge_texts (ks : list cell) :
  (forall k, In k ks -> exists s, k = CStr s) ->
  forall t n, snd (purge ks t n) = false.
Proof.
  induction ks as [ | k rest IH]; intros H t n; simpl; auto.
  destruct (H k (or_introl eq_refl)) as [s ->]. simpl.
  apply IH. intros k Hk. apply H. right. exact Hk.
Qed.

Lemma purge_deletes (key : string) (ks : list cell) :
  (forall k, In k ks -> exists s, k = CStr s) ->
  forall t n,
    In (CStr key) ks -> get_record_count (fst (fst (purge ks t n))) key = 0%nat.
Proof.
  induction ks as [ | k rest IH]; intros Hs t n H; simpl in *; [tauto | ].
  destruct H as [-> | H].
  - simpl. apply purge_keeps_absent, filter_absent.
  - destruct (Hs k (or_introl eq_refl)) as [s ->]. simpl.
    apply IH; auto.
Qed.

(** The count is taken down by the number of the rows deleted. *)
Lemma purge_count (ks : list cell) :
  forall t n,
    snd (fst (purge ks t n))
    = n - (Z.of_nat (List.length t)
           - Z.of_nat (List.length (fst (fst (purge ks t n))))).
Proof.
  induction ks as [ | k rest IH]; intros t n; simpl; [lia | ].
  destruct k; simpl; try lia.
  - rewrite IH. lia.
  - rewrite IH.
    assert (H : Z.of_nat (get_record_count t s)
                = Z.of_nat (List.length t)
                  - Z.of_nat (List.length (filter (fun r => negb (has_lot s r)) t))).
    { unfold get_record_count. clear. induction t as [ | r t IH]; [reflexivity | ].
      cbn [filter]. destruct (has_lot s r); cbn [negb List.length];
        rewrite ?Nat2Z.inj_succ; lia. }
    lia.
Qed.

(** *** The key stays a key *)

Lemma absent_not_in (key : string) (t : staging) :
  existsb (has_lot key) t = false -> ~ In key (map lot t).
Proof.
  induction t as [ | r t IH]; simpl; auto.
  intros H. apply orb_false_iff in H. destruct H as [H1 H2].
  intros [E | E].
  - unfold has_lot in H1. rewrite E, String.eqb_refl in H1. discriminate.
  - exact (IH H2 E).
Qed.

Lemma stored_unique (id : staging_row -> cell) (v : loop_vars) (rec : staging_row) :
  NoDup (map lot (table v)) -> NoDup (map lot (table (stored id v rec))).
Proof.
  intros H. unfold stored, insert_row.
  destruct (existsb (has_lot (lot rec)) (table v)) eqn:E; simpl; auto.
  rewrite map_app. simpl. apply NoDup_rev in H.
  rewrite <- (rev_involutive (map lot (table v) ++ [lot rec])).
  apply NoDup_rev. rewrite rev_app_distr. simpl. constructor; auto.
  rewrite <- in_rev. apply absent_not_in, E.
Qed.

Lemma fold_unique (id : staging_row -> cell) (recs : list staging_row) :
  forall v, NoDup (map lot (table v)) ->
            NoDup (map lot (table (fold_left (stored id) recs v))).
Proof.
  induction recs as [ | rec rest IH]; intros v H; simpl; auto.
  apply IH, stored_unique, H.
Qed.

Lemma filter_unique (p : staging_row -> bool) (t : staging) :
  NoDup (map lot t) -> NoDup (map lot (filter p t)).
Proof.
  induction t as [ | r t IH]; simpl; auto.
  intros H. inversion H as [ | k ks Hn Hd]; subst.
  destruct (p r); simpl; auto. constructor; auto.
  intros Hin. apply Hn. apply in_map_iff in Hin. destruct Hin as (x & Hx & Hf).
  apply filter_In in Hf. apply in_map_iff. exists x. tauto.
Qed.

Lemma purge_unique (ks : list cell) :
  forall t n, NoDup (map lot t) -> NoDup (map lot (fst (fst (purge ks t n)))).
Proof.
  induction ks as [ | k rest IH]; intros t n H; simpl; auto.
  destruct k; simpl; auto. apply IH, filter_unique, H.
Qed.

(** ** C5: the measurements and the weight of an artifact *)

Example first_number_of_weight : first_number "weight: 2.5kg" = 2.
Proof. reflexivity. Qed.

Example first_number_none : first_number "foo:bar" = -1.
Proof. reflexivity. Qed.

(** Two tokens with two keys: both values are kept. *)
Example length_and_width :
  measures_of first_number 2 (CInt 5) (CStr "L:15mm;W:10mm")
  = ([], Go (CStr "L:15mm;W:10mm",
             mk_dimensions (Some "15mm") None (Some "10mm") None None None)).
Proof. reflexivity. Qed.

(** The key of the length twice: the first value is kept, the second
    token is logged and dropped. *)
Example length_twice :
  measures_of first_number 2 (CInt 5) (CStr "L:15mm;L:20mm")
  = ([(INFO, PartTwice 2 (CInt 5) "l")],
     Go (CStr "L:15mm;L:20mm",
         mk_dimensions (Some "15mm") None None None None None)).
Proof. reflexivity. Qed.

(** A key that is no dimension gives the error token, whatever the
    library function does. *)
Lemma foo_bar_error (f : string -> Z) :
  interpret_measure_token f "foo:bar" = ("error", "unclear dimension foo").
Proof. reflexivity. Qed.

Example foo_bar_dropped :
  measures_of first_number 2 (CInt 5) (CStr "foo:bar")
  = ([(INFO, PartNotInterpreted 2 (CInt 5) "foo:bar" "unclear dimension foo")],
     Go (CStr "foo:bar", no_dimensions)).
Proof. reflexivity. Qed.

(** *** [get_grams] at work *)

Example get_grams_kg : get_grams "2.5kg" = Some (float_of_int 2500).
Proof. reflexivity. Qed.

Example get_grams_g : get_grams " 12 g " = Some (float_of_int 12).
Proof. reflexivity. Qed.

(** The product is the product of two floats: for 1.001 kg it is the
    float below 1001, 1000.9999999999999. *)
Example get_grams_rounded :
  get_grams "1.001kg" = Some (S754_finite false 8804889115230207 (-43))
  /\ get_grams "1001g" = Some (S754_finite false 8804889115230208 (-43)).
Proof. split; reflexivity. Qed.

Example get_grams_lbs : get_grams "5 lbs" = None.
Proof. reflexivity. Qed.

(** C5, on the code. The weight cell ["2.5kg"] passes the test of its
    token when the library function finds a number in it, and the weight
    that is stored is what the library function makes of the cell's text:
    the unit does not enter, [get_grams] is not called. *)
Theorem weight_kg_not_converted (f : string -> Z) (row_nr : Z) (id : cell) :
  weight_of f row_nr id (CStr "2.5kg")
  = if f "weight: 2.5kg" =? -1
    then ([(INFO, WeightFishy row_nr id "2.5kg" "no number in weight: 2.5kg")],
          Continue)
    else ([], Go (Some (f "2.5kg"))).
Proof.
  unfold weight_of, interpret_measure_token. simpl.
  destruct (f "weight: 2.5kg" =? -1); reflexivity.
Qed.

(** The row of an artifact worked through, with the stand-in: the weight
    stored for ["2.5kg"] is 2. *)
Example bead_row_imported :
  exists rec l,
    import_artifacts_rows no_text first_number [bead_row] (-1) [example_lot_record]
    = mk_pass [rec] l (Some true)
    /\ sf_weight rec = Some 2 /\ sf_length_mm rec = Some "15mm"
    /\ sf_width_mm rec = Some "10mm" /\ cm_type rec = "small_find"
    /\ sf_measures rec = Some "L:15mm;W:10mm".
Proof. eexists. eexists. split; [reflexivity | repeat split]. Qed.

(** ** C6: a weight that is not understood *)

(** C6, on the code. An artifact whose weight has an unknown unit is not
    stored at all: the staging record of its lot is left as the Lots pass
    wrote it, without the type and the description of the artifact, and
    no row counts as imported. *)
Theorem fishy_weight_row_skipped (sql_text : cell -> string) (f : string -> Z) :
  import_artifacts_rows sql_text f [fishy_weight_row] (-1) [example_lot_record]
  = mk_pass [example_lot_record]
      [(INFO, WeightFishy 2 (CInt 5) "5 lbs" "no known measurement unit in weight.");
       (INFO, SuccessfullyImported 0 2 "Artifacts")]
      (Some true).
Proof.
  reflexivity.
Qed.

(** The same artifact with a weight in grams is stored. *)
Example good_weight_row_stored :
  exists rec l,
    import_artifacts_rows no_text first_number
      [[CInt 5; CStr "A123"; CStr "A"; CStr "Bead"; CDatetime 1000; CNone;
        CStr "5 g"; CStr "blue"; CNone; CBool true]] (-1) [example_lot_record]
    = mk_pass [rec] l (Some true)
    /\ sf_weight rec = Some 5 /\ sf_type rec = Some "bead"
    /\ sf_description rec = Some "blue".
Proof. eexists. eexists. split; [reflexivity | repeat split]. Qed.

Lemma accepted_bind {A B : Type} (m : M A) (k : A -> M B) :
  accepted (bind m k) -> exists l a, m = (l, Go a) /\ accepted (k a).
Proof.
  intros [b H]. destruct (bind m k) as [l f] eqn:E. simpl in H. subst f.
  apply bind_Go in E. destruct E as (l1 & a & l2 & Hm & Hk & _).
  exists l1, a. split; auto. exists b. rewrite Hk. reflexivity.
Qed.

(** An artifact whose weight does not pass the test of its token is
    never stored, whatever else its row holds. *)
Lemma fishy_weight_never_stored (sql_text : cell -> string) (f : string -> Z)
  (t : staging) (row_nr : Z) (r : row) (w : string) :
  get_or r 6 CNone = CStr w ->
  fst (interpret_measure_token f ("weight: " ++ w)) = "error" ->
  ~ accepted (artifact_row sql_text f t row_nr r).
Proof.
  intros Hw He H. unfold artifact_row in H.
  do 8 (apply accepted_bind in H; destruct H as (? & ? & _ & H); cbv beta in H).
  apply accepted_bind in H. destruct H as (l & a & H & _).
  rewrite Hw in H. unfold weight_of in H.
  destruct (get_or_value _ _ _ Hw) as [Hn | Ht]; [discriminate Hn | ].
  rewrite Ht in H.
  destruct (interpret_measure_token f ("weight: " ++ w)) as [key value].
  simpl in He. subst key. simpl in H. discriminate H.
Qed.

(** ** C7: a sheet whose header is wrong *)

Example check_structure_wrong_header :
  check_structure
    (mk_worksheet (CStr "lot no" :: List.tl (header_of expected_cols_lots)) [])
    expected_cols_lots
  = ([(ERROR, HeaderMismatch 1 "lot number" "lot no")], false).
Proof. reflexivity. Qed.

Example check_structure_case_blind :
  check_structure (mk_worksheet (header_of expected_cols_samples) [])
                  expected_cols_samples = ([], true).
Proof. reflexivity. Qed.

(** C7, on the code. The structural error of the sheet Lots is logged,
    and the rows of the sheet are imported all the same: its one row is
    in the staging relation at the end. *)
Theorem wrong_header_still_imported (sql_text str_other : cell -> string)
  (f : string -> Z) :
  import_workbook sql_text str_other f wrong_header_workbook []
  = mk_run [example_lot_record]
      [(SEPARATOR, Banner); (SEPARATOR, Banner); (SEPARATOR, Banner);
       (ERROR, HeaderMismatch 1 "lot number" "lot no");
       (ERROR, StructuralErrors "Lots");
       (INFO, StructureOkay "Samples");
       (INFO, StructureOkay "Artifacts");
       (INFO, Rule);
       (INFO, ImportingWorksheet "Lots");
       (INFO, SuccessfullyImported 1 2 "Lots");
       (INFO, ImportingWorksheet "Samples");
       (INFO, SuccessfullyImported 0 1 "Samples");
       (INFO, ImportingWorksheet "Artifacts");
       (INFO, SuccessfullyImported 0 1 "Artifacts")]
      false.
Proof. reflexivity. Qed.

(** A workbook without the sheet Samples: the error is logged, the
    lookup of the sheet raises, and no row of any sheet is imported. *)
Example missing_sheet_nothing_imported :
  import_workbook no_text no_text first_number
    [("Lots", mk_worksheet (header_of expected_cols_lots) [example_lot_row]);
     ("Artifacts", mk_worksheet (header_of expected_cols_artifacts) [])] []
  = mk_run []
      [(SEPARATOR, Banner); (SEPARATOR, Banner); (SEPARATOR, Banner);
       (INFO, StructureOkay "Lots"); (ERROR, NoSuchSheet "Samples")]
      true.
Proof. reflexivity. Qed.

(** *** The structure check does not gate the import *)

Lemma check_sheets_found (wb : workbook) (wl ws wa : worksheet) :
  sheet_of wb "Lots" = Some wl -> sheet_of wb "Samples" = Some ws ->
  sheet_of wb "Artifacts" = Some wa ->
  snd (check_sheets wb sheet_structures) = true.
Proof.
  intros Hl Hs Ha. unfold sheet_structures. simpl. rewrite Hl, Hs, Ha.
  destruct (check_structure wl expected_cols_lots) as [l1 ok1].
  destruct (check_structure ws expected_cols_samples) as [l2 ok2].
  destruct (check_structure wa expected_cols_artifacts) as [l3 ok3].
  reflexivity.
Qed.

(** Whatever [check_structure] finds in the headers, the three passes run
    over the rows of the sheets. *)
Lemma headers_do_not_gate (sql_text str_other : cell -> string) (f : string -> Z)
  (wb : workbook) (wl ws wa : worksheet) (t : staging) :
  sheet_of wb "Lots" = Some wl -> sheet_of wb "Samples" = Some ws ->
  sheet_of wb "Artifacts" = Some wa ->
  run_table (import_workbook sql_text str_other f wb t)
  = rows_imported sql_text str_other f wl ws wa t.
Proof.
  intros Hl Hs Ha. unfold import_workbook, rows_imported.
  pose proof (check_sheets_found wb wl ws wa Hl Hs Ha) as Hc.
  destruct (check_sheets wb sheet_structures) as [l fine]. simpl in Hc. subst fine.
  cbn [negb]. unfold import_sheet. cbn [run_raised run_table run_log].
  rewrite Hl. cbn [run_raised run_table run_log].
  destruct (pass_return (import_lot_rows sql_text (data wl) (-1) t)); [ | reflexivity].
  rewrite Hs. cbn [run_raised run_table run_log].
  destruct (pass_return (import_sample_rows sql_text str_other (data ws) (-1) _));
    [ | reflexivity].
  rewrite Ha. reflexivity.
Qed.

(** ** C8: what erasing a former import deletes *)

Example photo_database_erased :
  erase_former_import photo_database
  = mk_database [] [] [] [] [Photo.mk "photo-2" (Some "cm-9")].
Proof. reflexivity. Qed.

(** C8, as worded, fails at [photo_database]: the photo of the imported
    collected material is deleted with it. *)
Lemma erase_claim_fails : ~ erases_only_marked photo_database.
Proof.
  intros (_ & _ & H & _). vm_compute in H. discriminate H.
Qed.

(** C8, amended. [erase_former_import] leaves of [collected_material] the
    rows without the import marker, of [small_find] and of
    [collected_material_photo] the rows whose [uid_cm] is not the key of a
    row with the marker, all of them as they were and in their order, and
    it leaves the other tables as they were. *)
Theorem erase_former_import_frame (db : database) :
  collected_material (erase_former_import db)
  = filter (fun cm => negb (tagged cm)) (collected_material db)
  /\ small_find (erase_former_import db)
     = filter (fun f => negb (refers_to_tagged db (SF.uid_cm (SF.cols f))))
              (small_find db)
  /\ collected_material_photo (erase_former_import db)
     = filter (fun p => negb (refers_to_tagged db (Photo.uid_cm p)))
              (collected_material_photo db)
  /\ locus_table (erase_former_import db) = locus_table db
  /\ rliim_cm_import (erase_former_import db) = rliim_cm_import db
  /\ (forall u : option string,
        refers_to_tagged db u = true
        <-> exists cm, In cm (collected_material db)
                       /\ CM.dearregistrar (CM.cols cm) = Some import_marker
                       /\ u = Some (CM.uid cm)).
Proof.
  repeat split; try reflexivity.
  - unfold refers_to_tagged, tagged_uids, Sql.is_in. destruct u as [u | ];
      [ | discriminate].
    intros H. apply existsb_exists in H. destruct H as (o & Ho & He).
    apply in_map_iff in Ho. destruct Ho as (cm & <- & Hcm).
    apply filter_In in Hcm. destruct Hcm as [Hin Ht]. exists cm.
    simpl in He. apply String.eqb_eq in He. subst u.
    unfold tagged, Sql.eq_null in Ht.
    destruct (CM.dearregistrar (CM.cols cm)) as [d | ]; [ | discriminate].
    apply String.eqb_eq in Ht. subst d. auto.
  - intros (cm & Hin & Hd & ->). unfold refers_to_tagged, tagged_uids, Sql.is_in.
    apply existsb_exists. exists (Some (CM.uid cm)). split.
    + apply in_map_iff. exists cm. split; auto. apply filter_In. split; auto.
      unfold tagged. rewrite Hd. unfold Sql.eq_null. apply String.eqb_refl.
    + unfold Sql.eq_null. apply String.eqb_refl.
Qed.

(** ** C1: the merge run again *)

(** *** Joins and filters *)

Lemma filter_nil {A : Type} (p : A -> bool) (l : list A) :
  (forall a, In a l -> p a = false) -> filter p l = [].
Proof.
  induction l as [ | a l IH]; simpl; intros H; auto.
  rewrite (H a) by auto. apply IH. intros b Hb. apply H. auto.
Qed.

Lemma in_inner_join {A B : Type} (on : A -> B -> bool) (xs : list A)
  (ys : list B) (x : A) (y : B) :
  In (x, y) (Sql.inner_join on xs ys) <-> In x xs /\ In y ys /\ on x y = true.
Proof.
  unfold Sql.inner_join. rewrite in_flat_map. split.
  - intros (x' & Hx & H). apply in_map_iff in H. destruct H as (y' & E & Hy).
    inversion E; subst. apply filter_In in Hy. tauto.
  - intros (Hx & Hy & Ho). exists x. split; auto.
    apply in_map_iff. exists y. split; auto. apply filter_In. auto.
Qed.

Lemma in_left_outer_join {A B : Type} (on : A -> B -> bool) (xs : list A)
  (ys : list B) (x : A) (o : option B) :
  In (x, o) (Sql.left_outer_join on xs ys) <->
  In x xs /\ match o with
             | Some y => In y ys /\ on x y = true
             | None => filter (on x) ys = []
             end.
Proof.
  unfold Sql.left_outer_join. rewrite in_flat_map. split.
  - intros (x' & Hx & H). destruct (filter (on x') ys) as [ | m ms] eqn:E.
    + destruct H as [H | []]. inversion H; subst. auto.
    + apply in_map_iff in H. destruct H as (y & Ey & Hy). inversion Ey; subst.
      split; auto. rewrite <- E in Hy. apply filter_In in Hy. exact Hy.
  - intros (Hx & H). exists x. split; auto. destruct o as [y | ].
    + destruct H as [Hy Ho].
      assert (Hf : In y (filter (on x) ys)) by (apply filter_In; auto).
      destruct (filter (on x) ys) as [ | m ms]; [destruct Hf | ].
      apply in_map_iff. exists y. auto.
    + rewrite H. left. reflexivity.
Qed.

(** *** The keys the database gives *)

Section Inserts.

Variable new_uid : list string -> string.

Lemma insert_cm_cols (rows : list CM.columns) :
  forall t, map CM.cols (insert_cm new_uid rows t) = (map CM.cols t ++ rows)%list.
Proof.
  induction rows as [ | c rest IH]; intros t; simpl.
  - rewrite app_nil_r. reflexivity.
  - rewrite IH, map_app, <- app_assoc. reflexivity.
Qed.

Lemma insert_cm_keeps (rows : list CM.columns) :
  forall t cm, In cm t -> In cm (insert_cm new_uid rows t).
Proof.
  induction rows as [ | c rest IH]; intros t cm H; simpl; auto.
  apply IH, in_or_app. auto.
Qed.

Lemma insert_cm_has (rows : list CM.columns) (c : CM.columns) :
  forall t, In c rows -> exists cm, In cm (insert_cm new_uid rows t) /\ CM.cols cm = c.
Proof.
  intros t H.
  assert (Hc : In c (map CM.cols (insert_cm new_uid rows t))).
  { rewrite insert_cm_cols. apply in_or_app. auto. }
  apply in_map_iff in Hc. destruct Hc as (cm & E & Hin). exists cm. auto.
Qed.

Lemma insert_sf_cols (rows : list SF.columns) :
  forall t, map SF.cols (insert_sf new_uid rows t) = (map SF.cols t ++ rows)%list.
Proof.
  induction rows as [ | c rest IH]; intros t; simpl.
  - rewrite app_nil_r. reflexivity.
  - rewrite IH, map_app, <- app_assoc. reflexivity.
Qed.

Lemma insert_sf_uid_cm (rows : list SF.columns) (t : list SF.t) :
  map (fun f => SF.uid_cm (SF.cols f)) (insert_sf new_uid rows t)
  = (map (fun f => SF.uid_cm (SF.cols f)) t ++ map SF.uid_cm rows)%list.
Proof.
  rewrite <- (map_map SF.cols SF.uid_cm), insert_sf_cols, map_app, map_map.
  reflexivity.
Qed.

End Inserts.

(** *** A database the merge has nothing to add to *)

Lemma eq_null_not_null (a : string) (b : option string) :
  Sql.eq_null a b = true -> Sql.is_null b = false.
Proof. destruct b; simpl; auto; discriminate. Qed.

Lemma cm_done_nothing (db : database) : cm_done db -> cm_from db = [].
Proof.
  intros Hd. unfold cm_from. apply filter_nil. intros [[rliim l] o] H.
  apply in_left_outer_join in H. destruct H as [Hp Ho]. cbn [snd].
  apply in_inner_join in Hp. destruct Hp as (Hr & Hl & Hon).
  destruct o as [cm | ].
  - destruct Ho as [_ Ho]. cbn [fst] in Ho. apply (eq_null_not_null _ _ Ho).
  - destruct (Hd rliim l Hr Hl Hon) as (cm & Hcm & Hc).
    assert (Hf : In cm (filter
                          (fun cm => Sql.eq_null (arch_context (fst (rliim, l)))
                                                 (CM.arch_context (CM.cols cm)))
                          (collected_material db)))
      by (apply filter_In; auto).
    rewrite Ho in Hf. destruct Hf.
Qed.

Lemma sf_done_nothing (db : database) : sf_done db -> sf_from db = [].
Proof.
  intros Hd. unfold sf_from. apply filter_nil. intros [rliim cm] H.
  apply in_inner_join in H. destruct H as (Hr & Hc & Hon). cbn [snd].
  destruct (is_small_find cm) eqn:E; auto.
  rewrite (Hd rliim cm Hr Hc Hon E). reflexivity.
Qed.

Section Again.

Variables now now_eastern : Z.
Variable new_uid : list string -> string.

(** After the first statement every staging row with a locus has its
    collected material. *)
Lemma cm_done_after_insert (db : database) (sf : list SF.t) (ph : list Photo.t) :
  cm_done (mk_database (rliim_cm_import db) (locus_table db)
             (insert_cm new_uid (sql_insert now now_eastern db)
                        (collected_material db)) sf ph).
Proof.
  intros rliim l Hr Hl Hon. cbn [rliim_cm_import locus_table collected_material] in *.
  set (on := fun (p : staging_row * Locus.t) (cm : CM.t) =>
               Sql.eq_null (arch_context (fst p)) (CM.arch_context (CM.cols cm))).
  destruct (filter (on (rliim, l)) (collected_material db)) as [ | m ms] eqn:E.
  - assert (Hj : In ((rliim, l), None) (cm_from db)).
    { unfold cm_from. apply filter_In. split; [ | reflexivity].
      apply in_left_outer_join. split; [ | exact E].
      apply in_inner_join. auto. }
    assert (Hs : In (cm_select now now_eastern l rliim) (sql_insert now now_eastern db)).
    { unfold sql_insert. apply in_map_iff. exists ((rliim, l), None). auto. }
    destruct (insert_cm_has new_uid _ _ (collected_material db) Hs) as (cm & Hin & Hc).
    exists cm. split; auto. rewrite Hc. cbn [cm_select CM.arch_context].
    unfold Sql.eq_null. apply String.eqb_refl.
  - assert (Hm : In m (filter (on (rliim, l)) (collected_material db)))
      by (rewrite E; left; reflexivity).
    apply filter_In in Hm. destruct Hm as [Hin Hon'].
    exists m. split; [apply insert_cm_keeps, Hin | exact Hon'].
Qed.

(** After the second statement every small find among them has its row
    in [small_find], or a null there keeps [not in] from ever holding. *)
Lemma sf_done_after_insert (db : database) :
  sf_done (mk_database (rliim_cm_import db) (locus_table db)
             (collected_material db)
             (insert_sf new_uid (sql_add_small_finds now now_eastern db)
                        (small_find db))
             (collected_material_photo db)).
Proof.
  intros rliim cm Hr Hc Hon Hsf.
  cbn [rliim_cm_import collected_material small_find] in *.
  rewrite insert_sf_uid_cm. unfold Sql.not_in, Sql.is_in. rewrite !existsb_app.
  destruct (Sql.not_in (CM.uid cm)
              (map (fun f => SF.uid_cm (SF.cols f)) (small_find db))) eqn:E.
  - assert (Hj : In (rliim, cm) (sf_from db)).
    { unfold sf_from. apply filter_In. split.
      - apply in_inner_join. auto.
      - cbn [snd]. rewrite Hsf, E. reflexivity. }
    assert (Hu : existsb (Sql.eq_null (CM.uid cm))
                   (map SF.uid_cm (sql_add_small_finds now now_eastern db)) = true).
    { apply existsb_exists. exists (Some (CM.uid cm)). split.
      - unfold sql_add_small_finds. rewrite map_map. apply in_map_iff.
        exists (rliim, cm). auto.
      - unfold Sql.eq_null. apply String.eqb_refl. }
    rewrite Hu, orb_true_r. reflexivity.
  - unfold Sql.not_in, Sql.is_in in E. apply andb_false_iff in E.
    destruct E as [E | E]; apply negb_false_iff in E; rewrite E; simpl; auto.
    apply andb_false_r.
Qed.

End Again.

(** A database with nothing to add is left as it is, and both counts are
    zero. *)
Lemma merge_nothing (now now_eastern : Z) (new_uid : list string -> string)
  (s : staging) (lt : list Locus.t) (cms : list CM.t) (sfs : list SF.t)
  (ph : list Photo.t) :
  cm_done (mk_database s lt cms sfs ph) -> sf_done (mk_database s lt cms sfs ph) ->
  import_rliim_cm_for_new_loci now now_eastern new_uid (mk_database s lt cms sfs ph)
  = mk_merged (mk_database s lt cms sfs ph) 0 0.
Proof.
  intros Hc Hs. unfold import_rliim_cm_for_new_loci, sql_insert.
  rewrite (cm_done_nothing _ Hc).
  cbn [map insert_cm List.length rliim_cm_import locus_table collected_material
       small_find collected_material_photo].
  unfold sql_add_small_finds. rewrite (sf_done_nothing _ Hs). reflexivity.
Qed.

(** C1. After a run of the merge in which both statements are executed,
    a second run on the database the first has left, at any later time
    and with the staging relation as it was, inserts no row into
    [collected_material] and no row into [small_find], and leaves the
    database as it found it. *)
Theorem merge_again_inserts_nothing (now now_eastern now' now_eastern' : Z)
  (new_uid new_uid' : list string -> string) (db : database) :
  import_rliim_cm_for_new_loci now' now_eastern' new_uid'
    (merged_db (import_rliim_cm_for_new_loci now now_eastern new_uid db))
  = mk_merged (merged_db (import_rliim_cm_for_new_loci now now_eastern new_uid db))
              0 0.
Proof.
  unfold import_rliim_cm_for_new_loci at 2 3. cbn [merged_db].
  cbn [rliim_cm_import locus_table collected_material small_find
       collected_material_photo].
  apply merge_nothing.
  - apply (cm_done_after_insert now now_eastern new_uid db).
  - apply (sf_done_after_insert now now_eastern new_uid
             (mk_database (rliim_cm_import db) (locus_table db)
                (insert_cm new_uid (sql_insert now now_eastern db)
                           (collected_material db))
                (small_find db) (collected_material_photo db))).
Qed.

(** The first run adds the collected material of lot 5: no object, and
    photographed. *)
Example lot_5_merged :
  exists cm db,
    import_rliim_cm_for_new_loci 7000 6000 (counter_uid "uid-") lot_5_database
    = mk_merged db 1 0
    /\ collected_material db = [cm]
    /\ CM.arch_context (CM.cols cm) = Some "A-123-5"
    /\ CM.isobject (CM.cols cm) = Some 0
    /\ CM.status_todo (CM.cols cm) = Some "P"
    /\ CM.status_done (CM.cols cm) = Some "P"
    /\ CM.dearregistrar (CM.cols cm) = Some import_marker.
Proof. eexists. eexists. split; [reflexivity | repeat split]. Qed.

(** The first run adds the collected material and its small find. *)
Example bead_merged :
  exists cm sf db,
    import_rliim_cm_for_new_loci 7000 6000 (counter_uid "uid-") bead_database
    = mk_merged db 1 1
    /\ collected_material db = [cm] /\ small_find db = [sf]
    /\ CM.isobject (CM.cols cm) = Some 1
    /\ SF.uid_cm (SF.cols sf) = Some (CM.uid cm)
    /\ SF.length (SF.cols sf) = Some "15mm".
Proof. eexists. eexists. eexists. split; [reflexivity | repeat split]. Qed.

(** * Further properties *)

(** ** The loop over the rows *)

(** A property of the loop variables that every pass of the body keeps
    holds when the loop ends, however it ends. *)
Lemma for_rows_invariant (P : loop_vars -> Prop)
  (body : loop_vars -> Z -> row -> M loop_vars) (max_rows : Z) :
  (forall v n r l v', body v n r = (l, Go v') -> P v -> P v') ->
  forall rows row_nr v,
    P v -> P (scan_vars (for_rows body max_rows rows row_nr v)).
Proof.
  intros Hb. induction rows as [ | r rest IH]; intros row_nr v Hv; simpl; auto.
  destruct ((-1 <? max_rows) && (row_nr + 1 =? max_rows + 2)); simpl; auto.
  destruct (body v (row_nr + 1) r) as [l [v' | | | | ]] eqn:E; simpl; auto.
  apply IH. exact (Hb _ _ _ _ _ E Hv).
Qed.

Lemma for_rows_break (body : loop_vars -> Z -> row -> M loop_vars) (max_rows : Z)
  (r : row) (post : list row) (row_nr : Z) (v : loop_vars) :
  body v (row_nr + 1) r = ([], Break) ->
  for_rows body max_rows (r :: post) row_nr v
  = for_rows body max_rows [r] row_nr v.
Proof.
  intros H. simpl. rewrite H. reflexivity.
Qed.

Lemma for_rows_after_break (body : loop_vars -> Z -> row -> M loop_vars)
  (max_rows : Z) (r : row) (post : list row) :
  (forall v n, body v n r = ([], Break)) ->
  forall pre row_nr v,
    for_rows body max_rows (pre ++ r :: post) row_nr v
    = for_rows body max_rows (pre ++ [r]) row_nr v.
Proof.
  intros Hb. induction pre as [ | p pre IH]; intros row_nr v.
  - apply for_rows_break, Hb.
  - simpl.
    destruct ((-1 <? max_rows) && (row_nr + 1 =? max_rows + 2)); auto.
    destruct (body v (row_nr + 1) p) as [l [v' | | | | ]]; auto; rewrite IH;
      reflexivity.
Qed.

Lemma ends_scan_first_cell (r : row) : ends_scan r -> first_cell r = ([], Break).
Proof.
  intros (c0 & H0 & He). unfold first_cell, value_at. rewrite H0. simpl.
  rewrite He. reflexivity.
Qed.

(** X1: the rows after the first row with an empty first cell are never
    read: each of the three passes gives the same staging relation, the
    same log and the same return value as on the sheet cut after that
    row. *)
Theorem rows_after_empty_first_cell_ignored (sql_text str_other : cell -> string)
  (f : string -> Z) (pre post : list row) (r : row) (max_rows : Z) (t : staging) :
  ends_scan r ->
  import_lot_rows sql_text (pre ++ r :: post) max_rows t
  = import_lot_rows sql_text (pre ++ [r]) max_rows t
  /\ import_sample_rows sql_text str_other (pre ++ r :: post) max_rows t
     = import_sample_rows sql_text str_other (pre ++ [r]) max_rows t
  /\ import_artifacts_rows sql_text f (pre ++ r :: post) max_rows t
     = import_artifacts_rows sql_text f (pre ++ [r]) max_rows t.
Proof.
  intros He. pose proof (ends_scan_first_cell r He) as Hf.
  unfold import_lot_rows, import_sample_rows, import_artifacts_rows.
  rewrite !(for_rows_after_break _ max_rows r post); auto.
  - intros v n. unfold artifact_body, artifact_row. rewrite Hf. reflexivity.
  - intros v n. unfold sample_body, sample_row. rewrite Hf. reflexivity.
  - intros v n. unfold lot_body, lot_row. rewrite Hf. reflexivity.
Qed.

Lemma rows_after_empty_first_cell_ignored_witness :
  import_lot_rows no_text ([example_lot_row] ++ [CNone] :: [example_lot_row]) (-1) []
  = import_lot_rows no_text ([example_lot_row] ++ [[CNone]]) (-1) []
  /\ import_sample_rows no_text no_text
       ([example_lot_row] ++ [CNone] :: [example_lot_row]) (-1) []
     = import_sample_rows no_text no_text ([example_lot_row] ++ [[CNone]]) (-1) []
  /\ import_artifacts_rows no_text first_number
       ([example_lot_row] ++ [CNone] :: [example_lot_row]) (-1) []
     = import_artifacts_rows no_text first_number
         ([example_lot_row] ++ [[CNone]]) (-1) [].
Proof.
  apply (rows_after_empty_first_cell_ignored no_text no_text first_number
           [example_lot_row] [example_lot_row] [CNone] (-1) []).
  exists CNone. split; reflexivity.
Defined.

(** With a limit of [max_rows] rows the loop is the loop without a limit
    over the first [max_rows] rows, but for the number of the row at
    which it ends. *)
Lemma for_rows_limit (body : loop_vars -> Z -> row -> M loop_vars) (max_rows : Z) :
  forall rows row_nr v,
    1 <= row_nr <= max_rows + 1 ->
    let s := for_rows body max_rows rows row_nr v in
    let s' := for_rows body (-1) (firstn (Z.to_nat (max_rows + 1 - row_nr)) rows)
                       row_nr v in
    scan_vars s = scan_vars s' /\ scan_log s = scan_log s'
    /\ scan_end s = scan_end s'.
Proof.
  induction rows as [ | r rest IH]; intros row_nr v Hn; cbn zeta.
  - rewrite firstn_nil. simpl. auto.
  - destruct (Z.eq_dec row_nr (max_rows + 1)) as [E | E].
    + subst row_nr. replace (max_rows + 1 - (max_rows + 1)) with 0 by lia.
      simpl. replace (-1 <? max_rows) with true by (symmetry; apply Z.ltb_lt; lia).
      replace (max_rows + 1 + 1 =? max_rows + 2) with true
        by (symmetry; apply Z.eqb_eq; lia).
      simpl. auto.
    + replace (max_rows + 1 - row_nr) with (Z.succ (max_rows + 1 - (row_nr + 1)))
        by lia.
      rewrite Z2Nat.inj_succ by lia.
      cbn [firstn for_rows].
      replace (row_nr + 1 =? max_rows + 2) with false
        by (symmetry; apply Z.eqb_neq; lia).
      rewrite andb_false_r. cbn [andb Z.ltb Z.compare].
      replace ((-1 <? -1) && (row_nr + 1 =? -1 + 2)) with false by reflexivity.
      destruct (body v (row_nr + 1) r) as [l [v' | | | | ]]; simpl; auto.
      * destruct (IH (row_nr + 1) v') as (H1 & H2 & H3); [lia | ].
        cbn zeta in *. rewrite H1, H2, H3. auto.
      * destruct (IH (row_nr + 1) v) as (H1 & H2 & H3); [lia | ].
        cbn zeta in *. rewrite H1, H2, H3. auto.
Qed.

Lemma finish_same (sheet : string) (s s' : scan) :
  scan_vars s = scan_vars s' -> scan_end s = scan_end s' ->
  pass_table (finish sheet s) = pass_table (finish sheet s')
  /\ pass_return (finish sheet s) = pass_return (finish sheet s').
Proof.
  intros Hv Hr. unfold finish. rewrite Hv, Hr. destruct (scan_end s'); auto.
  destruct (purge (to_delete (scan_vars s')) (table (scan_vars s'))
                  (successful_rows (scan_vars s'))) as [[t n] [ | ]]; auto.
Qed.

(** X2: a limit of [max_rows] rows makes each pass leave the staging
    relation, and return the value, of the pass without a limit over the
    first [max_rows] rows of the sheet. *)
Theorem max_rows_cuts_the_sheet (sql_text str_other : cell -> string)
  (f : string -> Z) (rows : list row) (max_rows : Z) (t : staging) :
  0 <= max_rows ->
  (pass_table (import_lot_rows sql_text rows max_rows t)
   = pass_table (import_lot_rows sql_text (firstn (Z.to_nat max_rows) rows) (-1) t)
   /\ pass_return (import_lot_rows sql_text rows max_rows t)
      = pass_return (import_lot_rows sql_text (firstn (Z.to_nat max_rows) rows)
                                     (-1) t))
  /\ (pass_table (import_sample_rows sql_text str_other rows max_rows t)
      = pass_table (import_sample_rows sql_text str_other
                      (firstn (Z.to_nat max_rows) rows) (-1) t)
      /\ pass_return (import_sample_rows sql_text str_other rows max_rows t)
         = pass_return (import_sample_rows sql_text str_other
                          (firstn (Z.to_nat max_rows) rows) (-1) t))
  /\ (pass_table (import_artifacts_rows sql_text f rows max_rows t)
      = pass_table (import_artifacts_rows sql_text f
                      (firstn (Z.to_nat max_rows) rows) (-1) t)
      /\ pass_return (import_artifacts_rows sql_text f rows max_rows t)
         = pass_return (import_artifacts_rows sql_text f
                          (firstn (Z.to_nat max_rows) rows) (-1) t)).
Proof.
  intros Hm.
  assert (Hl : forall body v,
             let s := for_rows body max_rows rows 1 v in
             let s' := for_rows body (-1) (firstn (Z.to_nat max_rows) rows) 1 v in
             scan_vars s = scan_vars s' /\ scan_log s = scan_log s'
             /\ scan_end s = scan_end s').
  { intros body v. pose proof (for_rows_limit body max_rows rows 1 v) as H.
    replace (max_rows + 1 - 1) with max_rows in H by lia. apply H. lia. }
  split; [ | split].
  - destruct (Hl (lot_body sql_text) (mk_loop_vars t 0 [])) as (H1 & _ & H3).
    apply finish_same; assumption.
  - destruct (Hl (sample_body sql_text str_other) (mk_loop_vars t 0 []))
      as (H1 & _ & H3).
    apply finish_same; assumption.
  - destruct (Hl (artifact_body sql_text f) (mk_loop_vars t 0 [])) as (H1 & _ & H3).
    unfold import_artifacts_rows. cbn zeta in *. rewrite H1, H3.
    destruct (scan_end (for_rows (artifact_body sql_text f) (-1) _ _ _)); auto.
Qed.

Lemma max_rows_cuts_the_sheet_witness :
  pass_table (import_lot_rows no_text [example_lot_row; example_sample_row] 1 [])
  = [example_lot_record].
Proof.
  exact (proj1 (proj1 (max_rows_cuts_the_sheet no_text no_text first_number
                         [example_lot_row; example_sample_row] 1 []
                         (Z.le_0_1)))).
Defined.

(** ** Keys that collide, and rows that do not *)

Lemma sample_scan_stored (sql_text str_other : cell -> string) (max_rows : Z)
  (rows : list row) (row_nr : Z) (v : loop_vars) :
  scan_vars (for_rows (sample_body sql_text str_other) max_rows rows row_nr v)
  = fold_left (stored sample_id)
      (scanned_records (sample_row sql_text str_other) max_rows rows row_nr) v.
Proof.
  exact (for_rows_stored (sample_row sql_text str_other) sample_id
           max_rows rows row_nr v).
Qed.

(** An identifier on [to_delete] was there before, or is that of a record
    whose key was in the table when a record with it came, or came with
    two records. *)
Lemma to_delete_origin (id : staging_row -> cell) (k : cell)
  (recs : list staging_row) :
  forall v,
    In k (to_delete (fold_left (stored id) recs v)) ->
    In k (to_delete v)
    \/ exists rec,
         id rec = k
         /\ ((existsb (has_lot (lot rec)) (table v) = true
              /\ (1 <= occurrences (lot rec) recs)%nat)
             \/ (2 <= occurrences (lot rec) recs)%nat).
Proof.
  unfold occurrences.
  induction recs as [ | rec rest IH]; intros v H; simpl in *; auto.
  apply IH in H. unfold stored, insert_row in H.
  destruct (existsb (has_lot (lot rec)) (table v)) eqn:E; simpl in H.
  - destruct H as [H | (rec' & Hid & [[H1 H2] | H])].
    + apply in_app_or in H. destruct H as [H | [H | []]]; auto.
      right. exists rec. split; [exact H | ]. left. split; auto.
      rewrite has_lot_self. simpl. lia.
    + right. exists rec'. split; [exact Hid | ]. left. split; auto.
      destruct (has_lot (lot rec') rec); simpl; lia.
    + right. exists rec'. split; [exact Hid | ]. right.
      destruct (has_lot (lot rec') rec); simpl; lia.
  - destruct H as [H | (rec' & Hid & [[H1 H2] | H])]; auto.
    + right. exists rec'. split; [exact Hid | ].
      rewrite present_app in H1. apply orb_true_iff in H1. destruct H1 as [H1 | H1].
      * left. split; auto. destruct (has_lot (lot rec') rec); simpl; lia.
      * right. rewrite H1. simpl. lia.
    + right. exists rec'. split; [exact Hid | ]. right.
      destruct (has_lot (lot rec') rec); simpl; lia.
Qed.

Lemma purge_keeps (ks : list cell) :
  forall t n r, In r t -> ~ In (CStr (lot r)) ks -> In r (fst (fst (purge ks t n))).
Proof.
  induction ks as [ | k rest IH]; intros t n r Hr Hn; simpl; auto.
  destruct k; simpl; auto.
  - apply IH; [exact Hr | ]. intros H. apply Hn. right. exact H.
  - apply IH.
    + apply filter_In. split; auto. unfold has_lot.
      destruct (lot r =? s)%string eqn:E; auto.
      apply String.eqb_eq in E. exfalso. apply Hn. left. congruence.
    + intros H. apply Hn. right. exact H.
Qed.

Lemma stored_keeps_row (id : staging_row -> cell) (v : loop_vars)
  (rec r : staging_row) :
  In r (table v) -> In r (table (stored id v rec)).
Proof.
  intros H. unfold stored, insert_row.
  destruct (existsb (has_lot (lot rec)) (table v)); simpl; auto.
  apply in_or_app. auto.
Qed.

Lemma fold_keeps_row (id : staging_row -> cell) (recs : list staging_row) :
  forall v r, In r (table v) -> In r (table (fold_left (stored id) recs v)).
Proof.
  induction recs as [ | rec rest IH]; intros v r H; simpl; auto.
  apply IH, stored_keeps_row, H.
Qed.

Lemma stored_absent_other (id : staging_row -> cell) (key : string) (v : loop_vars)
  (rec : staging_row) :
  existsb (has_lot key) (table v) = false -> has_lot key rec = false ->
  existsb (has_lot key) (table (stored id v rec)) = false.
Proof.
  intros H1 H2. unfold stored, insert_row.
  destruct (existsb (has_lot (lot rec)) (table v)); simpl; auto.
  rewrite present_app, H1, H2. reflexivity.
Qed.

Lemma stored_absent_in (id : staging_row -> cell) (v : loop_vars)
  (rec : staging_row) :
  existsb (has_lot (lot rec)) (table v) = false -> In rec (table (stored id v rec)).
Proof.
  intros H. unfold stored, insert_row. rewrite H. simpl.
  apply in_or_app. right. left. reflexivity.
Qed.

Lemma occurrences_in (key : string) (recs : list staging_row) (rec : staging_row) :
  In rec recs -> has_lot key rec = true -> (1 <= occurrences key recs)%nat.
Proof.
  unfold occurrences. induction recs as [ | r rest IH]; simpl; [tauto | ].
  intros [-> | H] Hk.
  - rewrite Hk. simpl. lia.
  - specialize (IH H Hk). destruct (has_lot key r); simpl; lia.
Qed.

(** A record whose key comes once and was not in the table is in the
    table after the scan. *)
Lemma once_then_stored (id : staging_row -> cell) (rec : staging_row)
  (recs : list staging_row) :
  forall v,
    In rec recs -> occurrences (lot rec) recs = 1%nat ->
    existsb (has_lot (lot rec)) (table v) = false ->
    In rec (table (fold_left (stored id) recs v)).
Proof.
  induction recs as [ | r rest IH]; intros v Hin Hocc Ha; [destruct Hin | ].
  simpl. unfold occurrences in Hocc. simpl in Hocc.
  destruct Hin as [-> | Hin].
  - apply fold_keeps_row, stored_absent_in, Ha.
  - destruct (has_lot (lot rec) r) eqn:E.
    + pose proof (occurrences_in (lot rec) rest rec Hin (has_lot_self rec)) as H.
      unfold occurrences in H. simpl in Hocc. lia.
    + apply IH; auto. apply stored_absent_other; assumption.
Qed.

(** What the loop leaves in the table, before any purge. *)
Lemma fold_keeps (id : staging_row -> cell) (t : staging) (recs : list staging_row)
  (p : pass) :
  pass_table p = table (fold_left (stored id) recs (mk_loop_vars t 0 [])) ->
  pass_keeps p t recs.
Proof.
  intros H. unfold pass_keeps. rewrite H. split.
  - intros r0 Hin _. apply fold_keeps_row. exact Hin.
  - intros rec Hin Hocc Ha. apply once_then_stored; assumption.
Qed.

Lemma finish_keeps (sheet : string) (s : scan) (t : staging)
  (recs : list staging_row) :
  scan_vars s = fold_left (stored sample_id) recs (mk_loop_vars t 0 []) ->
  pass_keeps (finish sheet s) t recs.
Proof.
  intros Hs. unfold finish.
  destruct (scan_end s); try (apply (fold_keeps sample_id); rewrite Hs; reflexivity).
  rewrite Hs. set (v := fold_left (stored sample_id) recs (mk_loop_vars t 0 [])).
  assert (Ho : forall key, In (CStr key) (to_delete v) ->
                           (existsb (has_lot key) t = true
                            /\ (1 <= occurrences key recs)%nat)
                           \/ (2 <= occurrences key recs)%nat).
  { intros key H. apply to_delete_origin in H. simpl in H.
    destruct H as [[] | (rec & Hid & H)]. unfold sample_id in Hid.
    inversion Hid; subst key. exact H. }
  pose proof (purge_keeps (to_delete v) (table v) (successful_rows v)) as Hp.
  assert (Hk : forall r, In r (table v) -> ~ In (CStr (lot r)) (to_delete v) ->
                         In r (pass_table
                                 match purge (to_delete v) (table v) (successful_rows v)
                                 with
                                 | (t0, _, true) => mk_pass t0 (scan_log s) None
                                 | (t0, n, false) =>
                                     mk_pass t0
                                       (scan_log s
                                        ++ match to_delete v with
                                           | [] => []
                                           | _ :: _ =>
                                               [(INFO, DeletedLotNumbers
                                                         (List.length (to_delete v)))]
                                           end
                                        ++ [(INFO, SuccessfullyImported n
                                                     (scan_row_nr s) sheet)])
                                       (Some true)
                                 end)).
  { intros r Hr Hn. specialize (Hp r Hr Hn).
    destruct (purge (to_delete v) (table v) (successful_rows v)) as [[t' n] [ | ]];
      exact Hp. }
  split.
  - intros r0 Hin Hocc. apply Hk.
    + apply fold_keeps_row. exact Hin.
    + intros H. apply Ho in H. lia.
  - intros rec Hin Hocc Ha. apply Hk.
    + apply once_then_stored; assumption.
    + intros H. apply Ho in H. rewrite Ha in H. destruct H as [[H _] | H];
        [discriminate | lia].
Qed.

(** X3: a pass deletes nothing but what collides. Of the records the
    rows give that the loop of a pass reads before it ends, however it
    ends: the Lots and the Samples pass keep every row that was in the
    staging relation and whose key none of these records has, and they
    leave in the relation every one of these records whose key comes once
    among them and was not in the relation. The Lots pass keeps every row
    that was in the relation, whatever its key. *)
Theorem rows_without_collision_kept (sql_text str_other : cell -> string)
  (rows : list row) (max_rows : Z) (t : staging) :
  pass_keeps (import_lot_rows sql_text rows max_rows t) t
             (scanned_records (lot_row sql_text) max_rows rows 1)
  /\ pass_keeps (import_sample_rows sql_text str_other rows max_rows t) t
                (scanned_records (sample_row sql_text str_other) max_rows rows 1)
  /\ forall r0, In r0 t -> In r0 (pass_table (import_lot_rows sql_text rows max_rows t)).
Proof.
  split; [ | split].
  - apply (fold_keeps lot_id). rewrite lot_pass_table. unfold lot_scan.
    rewrite lot_scan_stored. reflexivity.
  - apply finish_keeps. apply sample_scan_stored.
  - intros r0 Hin. rewrite lot_pass_table. unfold lot_scan.
    rewrite lot_scan_stored. apply fold_keeps_row. exact Hin.
Qed.

Lemma rows_without_collision_kept_witness :
  In example_lot_record
     (pass_table (import_sample_rows no_text no_text
                    [example_sample_row; sample_8_row; example_sample_row] (-1)
                    [example_lot_record]))
  /\ In example_lot_record
        (pass_table (import_lot_rows no_text twice_lot_5 (-1) [example_lot_record])).
Proof.
  split.
  - refine (proj1 (proj1 (proj2 (rows_without_collision_kept no_text no_text
                                   [example_sample_row; sample_8_row;
                                    example_sample_row] (-1) [example_lot_record])))
              example_lot_record _ eq_refl).
    left. reflexivity.
  - refine (proj2 (proj2 (rows_without_collision_kept no_text no_text twice_lot_5
                            (-1) [example_lot_record]))
              example_lot_record _).
    left. reflexivity.
Defined.

(** A lot that is in the relation and a sample that is new, in a Samples
    sheet that also has the sample S7 twice: the lot and the new sample
    stay. *)
Example rows_kept_beside_a_collision :
  map lot (pass_table
             (import_sample_rows no_text no_text
                [example_sample_row; sample_8_row; example_sample_row] (-1)
                [example_lot_record]))
  = ["5"; "S8"].
Proof. reflexivity. Qed.

Lemma stored_sample_ids (v : loop_vars) (rec : staging_row) :
  (forall k, In k (to_delete v) -> exists s, k = CStr s) ->
  forall k, In k (to_delete (stored sample_id v rec)) -> exists s, k = CStr s.
Proof.
  intros H k. unfold stored. destruct (insert_row (table v) rec); simpl; auto.
  intros Hk. apply in_app_or in Hk. destruct Hk as [Hk | [<- | []]]; auto.
  unfold sample_id. eauto.
Qed.

Lemma fold_sample_ids (recs : list staging_row) :
  forall v,
    (forall k, In k (to_delete v) -> exists s, k = CStr s) ->
    forall k, In k (to_delete (fold_left (stored sample_id) recs v)) ->
              exists s, k = CStr s.
Proof.
  induction recs as [ | rec rest IH]; intros v H; simpl; auto.
  apply IH, stored_sample_ids, H.
Qed.

Lemma sample_scan_ids (sql_text str_other : cell -> string) (rows : list row)
  (max_rows : Z) (t : staging) :
  forall k, In k (to_delete (scan_vars (sample_scan sql_text str_other rows max_rows t)))
            -> exists s, k = CStr s.
Proof.
  unfold sample_scan. rewrite sample_scan_stored. apply fold_sample_ids.
  intros k [].
Qed.

(** X4: a sample number that collides leaves no row. When the loop of
    the Samples pass ends without [return False] and without an
    exception, and a sample number is the key of two of the records its
    rows gave, or of one of them and of a row that was in the staging
    relation before (a row of the Lots pass among them), the pass returns
    [True] and no row with that key is left. *)
Theorem colliding_key_leaves_no_row (sql_text str_other : cell -> string)
  (rows : list row) (max_rows : Z) (t : staging) (key : string) :
  scan_end (sample_scan sql_text str_other rows max_rows t) = Done ->
  (2 <= occurrences key
          (scanned_records (sample_row sql_text str_other) max_rows rows 1))%nat
  \/ (existsb (has_lot key) t = true
      /\ (1 <= occurrences key
                (scanned_records (sample_row sql_text str_other) max_rows rows 1))%nat) ->
  get_record_count
    (pass_table (import_sample_rows sql_text str_other rows max_rows t)) key
  = 0%nat
  /\ pass_return (import_sample_rows sql_text str_other rows max_rows t) = Some true.
Proof.
  intros Hr H. unfold import_sample_rows, finish.
  fold (sample_scan sql_text str_other rows max_rows t). rewrite Hr.
  set (v := scan_vars (sample_scan sql_text str_other rows max_rows t)).
  pose proof (sample_scan_ids sql_text str_other rows max_rows t) as Hids.
  fold v in Hids.
  assert (Hk : In (CStr key) (to_delete v)).
  { unfold v, sample_scan. rewrite sample_scan_stored.
    destruct H as [H | [H1 H2]].
    - destruct (twice_then_to_delete sample_id key _ (mk_loop_vars t 0 []) H)
        as (rec & <- & Hin). exact Hin.
    - destruct (present_then_to_delete sample_id key _ (mk_loop_vars t 0 []) H1 H2)
        as (rec & <- & Hin). exact Hin. }
  pose proof (purge_deletes key (to_delete v) Hids (table v) (successful_rows v) Hk)
    as Hd.
  pose proof (purge_texts (to_delete v) Hids (table v) (successful_rows v)) as Ht.
  destruct (purge (to_delete v) (table v) (successful_rows v)) as [[t' n] b].
  simpl in Ht. subst b. split; [exact Hd | reflexivity].
Qed.

Lemma colliding_key_leaves_no_row_witness :
  get_record_count
    (pass_table (import_sample_rows no_text no_text [example_sample_row] (-1)
                                    [example_sample_record])) "S7"
  = 0%nat
  /\ pass_return (import_sample_rows no_text no_text [example_sample_row] (-1)
                                     [example_sample_record]) = Some true.
Proof.
  exact (colliding_key_leaves_no_row no_text no_text [example_sample_row]
           (-1) [example_sample_record] "S7"
           eq_refl (or_intror (conj eq_refl (le_n 1)))).
Defined.

(** ** The Artifacts pass and the staging relation *)

Lemma same_lot_columns_refl (r : staging_row) : same_lot_columns r r.
Proof. unfold same_lot_columns. repeat split. Qed.

Lemma update_artifact_same (a : artifact) (t0 t : staging) :
  Forall2 same_lot_columns t0 t ->
  Forall2 same_lot_columns t0 (update_artifact t a).
Proof.
  unfold update_artifact. induction 1 as [ | r0 r t0 t Hr Ht IH]; simpl;
    constructor; [ | exact IH].
  destruct (has_lot (a_lot a) r); exact Hr.
Qed.

Lemma Forall2_same_refl (t : staging) : Forall2 same_lot_columns t t.
Proof. induction t; constructor; auto. apply same_lot_columns_refl. Qed.

Lemma artifact_body_Go (sql_text : cell -> string) (f : string -> Z)
  (v v' : loop_vars) (n : Z) (r : row) (l : list log_record) :
  artifact_body sql_text f v n r = (l, Go v') ->
  exists a, artifact_row sql_text f (table v) n r = (l, Go a)
            /\ v' = mk_loop_vars (update_artifact (table v) a)
                                 (successful_rows v + 1) (to_delete v).
Proof.
  unfold artifact_body. intros H. bind_step H Ha.
  apply ret_Go in H. destruct H as [-> <-]. exists a.
  rewrite app_nil_r in Hl. subst l. auto.
Qed.

(** X5: the Artifacts pass neither adds nor deletes a staging record, and
    it leaves in every record the columns the Lots and the Samples pass
    wrote (lot, locus, unit, arch_domain, arch_context, local_nr, type,
    the two dates, photographed, description, count, location), however
    the pass ends. *)
Theorem artifacts_pass_keeps_lot_columns (sql_text : cell -> string)
  (f : string -> Z) (rows : list row) (max_rows : Z) (t : staging) :
  Forall2 same_lot_columns t
          (pass_table (import_artifacts_rows sql_text f rows max_rows t)).
Proof.
  assert (H : Forall2 same_lot_columns t
                (table (scan_vars (for_rows (artifact_body sql_text f) max_rows rows
                                            1 (mk_loop_vars t 0 []))))).
  { apply (for_rows_invariant (fun v => Forall2 same_lot_columns t (table v))).
    - intros v n r l v' Hb Hv. apply artifact_body_Go in Hb.
      destruct Hb as (a & _ & ->). simpl. apply update_artifact_same, Hv.
    - simpl. apply Forall2_same_refl. }
  unfold import_artifacts_rows. destruct (scan_end _); exact H.
Qed.

Lemma lot_record_of_Go (row_nr lot_nr : Z) (context : string) (t : staging)
  (l : list log_record) (u : unit) :
  lot_record_of row_nr lot_nr context t = (l, Go u) ->
  get_record_count t (PyStr.of_Z lot_nr) = 1%nat
  /\ exists rec, get_first_record t (PyStr.of_Z lot_nr) = Some rec
                 /\ locus rec = context.
Proof.
  unfold lot_record_of.
  destruct (get_record_count t (PyStr.of_Z lot_nr) =? 0)%nat eqn:E0; simpl;
    try discriminate.
  destruct (1 <? get_record_count t (PyStr.of_Z lot_nr))%nat eqn:E1; simpl;
    try discriminate.
  destruct (get_first_record t (PyStr.of_Z lot_nr)) as [rec | ]; simpl;
    try discriminate.
  destruct (context =? locus rec)%string eqn:Ec; simpl; try discriminate.
  intros _. apply Nat.eqb_neq in E0. apply Nat.ltb_ge in E1.
  apply String.eqb_eq in Ec. split; [lia | ]. exists rec. auto.
Qed.

(** X6: an artifact is stored only for a lot that is there once and under
    the same context. When a row of the Artifacts sheet is accepted, its
    lot number is the key of exactly one staging record, the locus of
    that record is the stripped context of the row with a dash after its
    letter, and the record is turned into a small find. *)
Theorem artifact_needs_its_lot (sql_text : cell -> string) (f : string -> Z)
  (t : staging) (row_nr : Z) (r : row) (l : list log_record) (a : artifact) :
  artifact_row sql_text f t row_nr r = (l, Go a) ->
  get_record_count t (a_lot a) = 1%nat
  /\ a_cm_type a = "small_find"
  /\ exists rec c rest,
       get_first_record t (a_lot a) = Some rec
       /\ text_at r 1 = Some (String c rest)
       /\ locus rec = String c ("-" ++ rest).
Proof.
  intros H. unfold artifact_row in H.
  bind_step H Hfirst. bind_step H Hlot. bind_step H Hctx. bind_step H Htr.
  bind_step H Hty. bind_step H Hde. bind_step H Hdr. bind_step H Hm.
  bind_step H Hw. bind_step H Hdash. bind_step H Hrec.
  bind_step H Hq1. bind_step H Hq2.
  apply ret_Go in H. destruct H as [_ <-]. cbn [a_lot a_cm_type].
  apply lot_record_of_Go in Hrec. destruct Hrec as (Hc & rec & Hg & Hloc).
  apply context_of_Go in Hctx. destruct Hctx as (s & Hs & Hctx & _ & _).
  apply dashed_Go in Hdash. destruct Hdash as (c & rest & Hcr & Hd & _).
  split; [exact Hc | ]. split; [reflexivity | ].
  exists rec, c, rest. split; [exact Hg | ]. split.
  - unfold text_at. rewrite Hs. congruence.
  - congruence.
Qed.

Lemma artifact_needs_its_lot_witness :
  get_record_count [example_lot_record] "5" = 1%nat
  /\ "small_find" = "small_find"
  /\ exists rec c rest,
       get_first_record [example_lot_record] "5" = Some rec
       /\ text_at bead_row 1 = Some (String c rest)
       /\ locus rec = String c ("-" ++ rest).
Proof.
  exact (artifact_needs_its_lot no_text first_number [example_lot_record] 2
           bead_row []
           (mk_artifact "2" "small_find" (Some "bead") (Some "L:15mm;W:10mm")
              (mk_dimensions (Some "15mm") None (Some "10mm") None None None)
              (Some 2) (Some "blue") (Some 1000) None (Some true) "5")
           eq_refl).
Defined.

(** ** The keys of the staging relation *)

Lemma update_artifact_lots (t : staging) (a : artifact) :
  map lot (update_artifact t a) = map lot t.
Proof.
  unfold update_artifact. rewrite map_map. apply map_ext. intros r.
  destruct (has_lot (a_lot a) r); reflexivity.
Qed.

Lemma lot_pass_unique (sql_text : cell -> string) (rows : list row) (max_rows : Z)
  (t : staging) :
  NoDup (map lot t) ->
  NoDup (map lot (pass_table (import_lot_rows sql_text rows max_rows t))).
Proof.
  intros H. rewrite lot_pass_table. unfold lot_scan. rewrite lot_scan_stored.
  apply fold_unique. exact H.
Qed.

Lemma sample_pass_unique (sql_text str_other : cell -> string) (rows : list row)
  (max_rows : Z) (t : staging) :
  NoDup (map lot t) ->
  NoDup (map lot (pass_table (import_sample_rows sql_text str_other rows max_rows t))).
Proof.
  intros H. unfold import_sample_rows, finish.
  pose proof (sample_scan_stored sql_text str_other max_rows rows 1
                (mk_loop_vars t 0 [])) as Hs.
  set (s := for_rows (sample_body sql_text str_other) max_rows rows 1
                     (mk_loop_vars t 0 [])) in *.
  assert (Hu : NoDup (map lot (table (scan_vars s))))
    by (rewrite Hs; apply fold_unique; exact H).
  destruct (scan_end s); try exact Hu.
  pose proof (purge_unique (to_delete (scan_vars s)) (table (scan_vars s))
                (successful_rows (scan_vars s)) Hu) as Hp.
  destruct (purge _ _ _) as [[t' n] [ | ]]; exact Hp.
Qed.

Lemma artifact_pass_lots (sql_text : cell -> string) (f : string -> Z)
  (rows : list row) (max_rows : Z) (t : staging) :
  map lot (pass_table (import_artifacts_rows sql_text f rows max_rows t))
  = map lot t.
Proof.
  assert (H : map lot (table (scan_vars (for_rows (artifact_body sql_text f) max_rows
                                                  rows 1 (mk_loop_vars t 0 []))))
              = map lot t).
  { apply (for_rows_invariant (fun v => map lot (table v) = map lot t)); auto.
    intros v n r l v' Hb Hv. apply artifact_body_Go in Hb.
    destruct Hb as (a & _ & ->). simpl. rewrite update_artifact_lots. exact Hv. }
  unfold import_artifacts_rows. destruct (scan_end _); exact H.
Qed.

Lemma import_sheet_unique (wb : workbook) (sheet : string)
  (import_rows : list row -> Z -> staging -> pass) (r : run) :
  (forall rows m t, NoDup (map lot t) -> NoDup (map lot (pass_table (import_rows rows m t)))) ->
  NoDup (map lot (run_table r)) ->
  NoDup (map lot (run_table (import_sheet wb sheet import_rows r))).
Proof.
  intros Hi Hr. unfold import_sheet. destruct (run_raised r); auto.
  destruct (sheet_of wb sheet); simpl; auto.
Qed.

(** X7: the lot number stays a key. Whatever the workbook, and whether or
    not an exception ends the import, a staging relation with distinct lot
    keys has distinct lot keys after [import_workbook]; so has the one
    built from the empty relation [create_import_table] leaves. *)
Theorem import_workbook_keeps_keys_distinct (sql_text str_other : cell -> string)
  (f : string -> Z) (wb : workbook) (t : staging) :
  NoDup (map lot t) ->
  NoDup (map lot (run_table (import_workbook sql_text str_other f wb t))).
Proof.
  intros H. unfold import_workbook.
  destruct (check_sheets wb sheet_structures) as [l fine].
  destruct (negb fine); [exact H | ].
  apply import_sheet_unique.
  - intros rows m t' Ht. rewrite artifact_pass_lots. exact Ht.
  - apply import_sheet_unique; [apply sample_pass_unique | ].
    apply import_sheet_unique; [apply lot_pass_unique | exact H].
Qed.

(** The workbook [crowded_workbook] on a relation that holds lot 5: lot 6
    is inserted, the sample S7 is refused the second time and purged, the
    sample S8 stays, and the artifact is written into the record of lot
    5. *)
Example crowded_workbook_imported :
  map (fun rec => (lot rec, cm_type rec))
      (run_table (import_workbook no_text no_text first_number crowded_workbook
                                  [example_lot_record]))
  = [("5", "small_find"); ("6", "bulk"); ("S8", "sample")].
Proof. reflexivity. Qed.

Lemma import_workbook_keeps_keys_distinct_witness :
  NoDup (map lot [example_lot_record])
  /\ NoDup (map lot (run_table (import_workbook no_text no_text first_number
                                  crowded_workbook [example_lot_record]))).
Proof.
  assert (H : NoDup (map lot [example_lot_record]))
    by (repeat constructor; simpl; tauto).
  split; [exact H | ].
  exact (import_workbook_keeps_keys_distinct no_text no_text first_number
           crowded_workbook [example_lot_record] H).
Defined.

(** ** The tokens of the measures *)

(** What a token that is understood is: one colon, a key that is one of
    seven, the stripped lower-case text after the colon as its value, a
    number the library finds, and a unit of length, or for a weight the
    letter g. *)
Lemma interpret_measure_token_ok (f : string -> Z) (t key value : string) :
  interpret_measure_token f t = (key, value) -> key <> "error" ->
  In key ["w"; "l"; "h"; "perf"; "weight"; "dia"; "thickness"]
  /\ (exists p0 p1, PyStr.split ":" t = [p0; p1]
                    /\ value = PyStr.lower (PyStr.strip p1))
  /\ f t <> -1
  /\ (has_length_unit value = true
      \/ (key = "weight" /\ PyStr.contains "g" value = true)).
Proof.
  unfold interpret_measure_token.
  destruct (PyStr.split ":" t) as [ | p0 [ | p1 [ | p2 ps]]];
    try (intros H; inversion H; congruence).
  set (k := PyStr.lower (PyStr.strip p0)).
  set (v := PyStr.lower (PyStr.strip p1)).
  assert (Hc : forall c,
             (if PyStr.contains "mm" v || PyStr.contains "cm" v
                 || PyStr.contains " m" v
                 || ((c =? "weight")%string && PyStr.contains "g" v)
              then if f t =? -1 then ("error", "no number in " ++ t) else (c, v)
              else ("error", "no known measurement unit in " ++ c ++ "."))
             = (key, value) ->
             key <> "error" ->
             key = c /\ value = v /\ f t <> -1
             /\ (has_length_unit v = true
                 \/ (c = "weight" /\ PyStr.contains "g" v = true))).
  { intros c H Hk. unfold has_length_unit.
    destruct (PyStr.contains "mm" v || PyStr.contains "cm" v
              || PyStr.contains " m" v) eqn:Eu; simpl in H.
    - destruct (f t =? -1) eqn:Ef; inversion H; subst; [congruence | ].
      apply Z.eqb_neq in Ef. intuition.
    - destruct ((c =? "weight")%string && PyStr.contains "g" v) eqn:Ew;
        [ | inversion H; congruence].
      destruct (f t =? -1) eqn:Ef; inversion H; subst; [congruence | ].
      apply Z.eqb_neq in Ef. apply andb_true_iff in Ew. destruct Ew as [Ew Eg].
      apply String.eqb_eq in Ew. intuition. }
  assert (Hfin : forall c,
             In c ["w"; "l"; "h"; "perf"; "weight"; "dia"; "thickness"] ->
             (if PyStr.contains "mm" v || PyStr.contains "cm" v
                 || PyStr.contains " m" v
                 || ((c =? "weight")%string && PyStr.contains "g" v)
              then if f t =? -1 then ("error", "no number in " ++ t) else (c, v)
              else ("error", "no known measurement unit in " ++ c ++ "."))
             = (key, value) ->
             key <> "error" ->
             In key ["w"; "l"; "h"; "perf"; "weight"; "dia"; "thickness"]
             /\ (exists p0' p1', [p0; p1] = [p0'; p1']
                                 /\ value = PyStr.lower (PyStr.strip p1'))
             /\ f t <> -1
             /\ (has_length_unit value = true
                 \/ (key = "weight" /\ PyStr.contains "g" value = true))).
  { intros c Hin H Hk. destruct (Hc c H Hk) as (-> & -> & Hf & Hu).
    split; [exact Hin | ]. split; [exists p0, p1; auto | ]. auto. }
  destruct ((k =? "w")%string || (k =? "l")%string || (k =? "h")%string) eqn:E1.
  - apply Hfin. apply orb_true_iff in E1. destruct E1 as [E1 | E1];
      [apply orb_true_iff in E1; destruct E1 as [E1 | E1] | ];
      apply String.eqb_eq in E1; rewrite E1; simpl; auto.
  - destruct (PyStr.contains "perf" k); [apply Hfin; simpl; auto | ].
    destruct (PyStr.contains "weight" k); [apply Hfin; simpl; auto 10 | ].
    destruct (PyStr.contains "dia" k); [apply Hfin; simpl; auto 10 | ].
    destruct (PyStr.contains "len" k); [apply Hfin; simpl; auto | ].
    destruct (PyStr.contains "width" k); [apply Hfin; simpl; auto | ].
    destruct (PyStr.contains "height" k); [apply Hfin; simpl; auto | ].
    destruct (PyStr.contains "thick" k); [apply Hfin; simpl; auto 10 | ].
    intros H; inversion H; congruence.
Qed.

(** X8: [interpret_measure_token] gives a key of a closed list, and a
    token it understands has one colon, a number for the library
    function, and a unit. *)
Theorem measure_token_keys (f : string -> Z) (t : string) :
  In (fst (interpret_measure_token f t))
     ["w"; "l"; "h"; "perf"; "weight"; "dia"; "thickness"; "error"]
  /\ (fst (interpret_measure_token f t) <> "error" ->
      (exists p0 p1,
          PyStr.split ":" t = [p0; p1]
          /\ snd (interpret_measure_token f t) = PyStr.lower (PyStr.strip p1))
      /\ f t <> -1
      /\ (has_length_unit (snd (interpret_measure_token f t)) = true
          \/ (fst (interpret_measure_token f t) = "weight"
              /\ PyStr.contains "g" (snd (interpret_measure_token f t)) = true))).
Proof.
  destruct (interpret_measure_token f t) as [key value] eqn:E. cbn [fst snd].
  destruct (String.eqb_spec key "error") as [-> | Hk].
  - split; [simpl; auto 10 | congruence].
  - destruct (interpret_measure_token_ok f t key value E Hk) as (Hin & Hs & Hf & Hu).
    split; [ | auto].
    simpl in Hin. simpl. intuition.
Qed.

Ltac break_ifs :=
  repeat match goal with
         | |- context [if ?b then _ else _] => destruct b eqn:?
         end.

Lemma keeps_set_refl (d : dimensions) : keeps_set d d.
Proof. unfold keeps_set. repeat split; auto. Qed.

Lemma is_set_kept (a b : option string) :
  is_set a = true -> b = a -> is_set b = true.
Proof. intros H ->. exact H. Qed.

Lemma keeps_set_trans (d1 d2 d3 : dimensions) :
  keeps_set d1 d2 -> keeps_set d2 d3 -> keeps_set d1 d3.
Proof.
  unfold keeps_set. intros H1 H2.
  repeat match goal with H : _ /\ _ |- _ => destruct H end.
  repeat split; intros Hs;
    match goal with
    | H12 : is_set (?p d1) = true -> ?p d2 = ?p d1,
      H23 : is_set (?p d2) = true -> ?p d3 = ?p d2 |- ?p d3 = ?p d1 =>
        rewrite H23; [exact (H12 Hs) | exact (is_set_kept _ _ Hs (H12 Hs))]
    end.
Qed.

Lemma measure_token_keeps_set (f : string -> Z) (row_nr : Z) (id : cell)
  (d : dimensions) (t : string) :
  keeps_set d (snd (measure_token f row_nr id d t)).
Proof.
  unfold measure_token. destruct (interpret_measure_token f t) as [key value].
  break_ifs; cbn [snd]; try apply keeps_set_refl;
    unfold keeps_set; cbn [d_length d_height d_width d_thickness d_diameter
                           d_diameter_perf];
    repeat split; intros; congruence.
Qed.

(** X9: the first value of a dimension wins. Whatever tokens follow, a
    dimension that is set is left as it is by the loop over the tokens. *)
Theorem first_measure_wins (f : string -> Z) (row_nr : Z) (id : cell)
  (token : list string) (d : dimensions) :
  keeps_set d (snd (measure_tokens f row_nr id d token)).
Proof.
  revert d. induction token as [ | t rest IH]; intros d; simpl.
  - apply keeps_set_refl.
  - pose proof (measure_token_keeps_set f row_nr id d t) as H1.
    destruct (measure_token f row_nr id d t) as [l d1]. cbn [snd] in H1.
    specialize (IH d1). destruct (measure_tokens f row_nr id d1 rest) as [l' d2].
    cbn [snd] in *. exact (keeps_set_trans _ _ _ H1 IH).
Qed.

Lemma measure_token_units (f : string -> Z) (row_nr : Z) (id : cell)
  (d : dimensions) (t : string) :
  dimensions_have_units d ->
  dimensions_have_units (snd (measure_token f row_nr id d t)).
Proof.
  intros Hd. unfold measure_token.
  destruct (interpret_measure_token f t) as [key value] eqn:E.
  destruct (key =? "error")%string eqn:Ee; [exact Hd | ].
  apply String.eqb_neq in Ee.
  destruct (interpret_measure_token_ok f t key value E Ee) as (_ & _ & _ & Hu).
  assert (Hv : key <> "weight" -> has_length_unit value = true).
  { intros Hk. destruct Hu as [Hu | [Hu _]]; [exact Hu | contradiction]. }
  break_ifs; cbn [snd]; try exact Hd;
    match goal with
    | H : (key =? _)%string = true |- _ => apply String.eqb_eq in H; subst key
    end;
    assert (Hvalue : has_length_unit value = true) by (apply Hv; discriminate);
    intros v Hs;
    cbn [d_length d_height d_width d_thickness d_diameter d_diameter_perf] in Hs;
    repeat match goal with
           | H : _ \/ _ |- _ => destruct H
           end;
    solve [ congruence | apply Hd; auto 10 ].
Qed.

Lemma measure_token_unknown (f : string -> Z) (row_nr : Z) (id : cell)
  (d : dimensions) (t : string) (lvl : level) (k : string) :
  In (lvl, PartUnknown row_nr id k) (fst (measure_token f row_nr id d t)) ->
  k = "weight".
Proof.
  unfold measure_token.
  destruct (interpret_measure_token f t) as [key value] eqn:E.
  destruct (key =? "error")%string eqn:Ee.
  - intros [H | []]. inversion H.
  - apply String.eqb_neq in Ee.
    destruct (interpret_measure_token_ok f t key value E Ee) as (Hin & _).
    break_ifs; cbn [fst]; intros H; simpl in H; try contradiction;
      destruct H as [H | []]; inversion H; subst k.
    simpl in Hin.
    repeat match goal with
           | H : (_ =? _)%string = false |- _ => apply String.eqb_neq in H
           end.
    intuition congruence.
Qed.

(** X10: what the loop over the tokens stores and what it does not know.
    Every dimension it sets names a unit of length (mm, cm or a blank
    and m), and the key it logs as unknown is the weight, which is no
    dimension of the cell "other dimensions". *)
Theorem stored_measures_have_units (f : string -> Z) (row_nr : Z) (id : cell)
  (token : list string) (d : dimensions) :
  dimensions_have_units d ->
  dimensions_have_units (snd (measure_tokens f row_nr id d token))
  /\ forall lvl k, In (lvl, PartUnknown row_nr id k)
                      (fst (measure_tokens f row_nr id d token)) -> k = "weight".
Proof.
  revert d. induction token as [ | t rest IH]; intros d Hd; simpl.
  - split; [exact Hd | intros lvl k []].
  - pose proof (measure_token_units f row_nr id d t Hd) as H1.
    pose proof (measure_token_unknown f row_nr id d t) as H2.
    destruct (measure_token f row_nr id d t) as [l d1]. cbn [fst snd] in *.
    destruct (IH d1 H1) as [H3 H4].
    destruct (measure_tokens f row_nr id d1 rest) as [l' d2]. cbn [fst snd] in *.
    split; [exact H3 | ].
    intros lvl k H. apply in_app_or in H. destruct H; eauto.
Qed.

Lemma no_dimensions_have_units : dimensions_have_units no_dimensions.
Proof.
  intros v H. simpl in H.
  repeat match goal with H : _ \/ _ |- _ => destruct H end; discriminate.
Qed.

Lemma stored_measures_have_units_witness :
  dimensions_have_units
    (snd (measure_tokens first_number 2 (CInt 5) no_dimensions
                         ["L:15mm"; "weight:3g"; "W:1 m"]))
  /\ forall lvl k,
       In (lvl, PartUnknown 2 (CInt 5) k)
          (fst (measure_tokens first_number 2 (CInt 5) no_dimensions
                               ["L:15mm"; "weight:3g"; "W:1 m"])) ->
       k = "weight".
Proof.
  exact (stored_measures_have_units first_number 2 (CInt 5)
           ["L:15mm"; "weight:3g"; "W:1 m"] no_dimensions no_dimensions_have_units).
Defined.

Lemma replace_twice (a b : ascii) (s : string) :
  a <> b -> PyStr.replace a b (PyStr.replace a b s) = PyStr.replace a b s.
Proof.
  intros Hab. induction s as [ | c s IH]; simpl; auto. rewrite IH. f_equal.
  destruct (Ascii.eqb c a) eqn:E; auto.
  - destruct (Ascii.eqb b a) eqn:E'; auto.
  - rewrite E. reflexivity.
Qed.

Lemma replace_empty (a b : ascii) (s : string) :
  (PyStr.replace a b s =? "")%string = (s =? "")%string.
Proof. destruct s; reflexivity. Qed.

(** X11: a comma separates the measures as a semicolon does: the text with
    its commas written as semicolons gives the same dimensions, the same
    log and the same stored text. *)
Theorem comma_is_semicolon (f : string -> Z) (row_nr : Z) (id : cell) (s : string) :
  measures_of f row_nr id (CStr (PyStr.replace "," ";" s))
  = measures_of f row_nr id (CStr s).
Proof.
  destruct s as [ | c s]; [reflexivity | ].
  unfold measures_of. cbn [truthy]. rewrite replace_empty.
  rewrite replace_twice by discriminate. reflexivity.
Qed.

(** ** The keys of a sample *)

Lemma sample_number_Go (row_nr : Z) (c0 : cell) (l : list log_record)
  (nr : string * Z) :
  sample_number row_nr c0 = (l, Go nr) ->
  c0 = CStr (fst nr) /\ PyStr.to_int (PyStr.tail (fst nr)) = Some (snd nr)
  /\ 0 < snd nr.
Proof.
  unfold sample_number. destruct c0 as [ | s | | | | | ]; simpl; try discriminate.
  destruct (PyStr.to_int (PyStr.tail s)) as [n | ] eqn:Ei; simpl; try discriminate.
  destruct (n <=? 0) eqn:E; simpl; try discriminate.
  intros H. inversion H; subst. simpl. apply Z.leb_gt in E. repeat split; auto.
Qed.

(** X12: the keys of a sample. A record of the Samples pass has the text of
    the first cell, as it is, as its lot; the positive integer that
    follows the first character of that text as its local number; its
    stripped context with a dash after the letter as its locus; locus, a
    dash and the lot as its arch_context; the stripped trench as its unit;
    the domain S and the type of material "sample". *)
Theorem sample_keys (sql_text str_other : cell -> string) (row_nr : Z) (r : row)
  (rec : staging_row) (l : list log_record) :
  sample_row sql_text str_other row_nr r = (l, Go rec) ->
  cell_at r 0 = Some (CStr (lot rec))
  /\ PyStr.to_int (PyStr.tail (lot rec)) = Some (local_nr rec)
  /\ 0 < local_nr rec
  /\ (exists c rest, text_at r 1 = Some (String c rest)
                     /\ locus rec = String c ("-" ++ rest))
  /\ arch_context rec = locus rec ++ "-" ++ lot rec
  /\ text_at r 2 = Some (unit_ rec)
  /\ arch_domain rec = Some "S"
  /\ cm_type rec = "sample"
  /\ line_ref rec = PyStr.of_Z row_nr.
Proof.
  intros H. unfold sample_row in H.
  bind_step H Hfirst. bind_step H Hnr. bind_step H Hctx. bind_step H Htr.
  bind_step H Hty. bind_step H Hde. bind_step H Hnotes. bind_step H Hdash.
  bind_step H Hq1. bind_step H Hq2.
  apply ret_Go in H. destruct H as [_ <-].
  cbn [lot local_nr locus arch_context unit_ arch_domain cm_type line_ref].
  apply first_cell_Go in Hfirst. destruct Hfirst as (Hfirst & _ & _).
  apply sample_number_Go in Hnr. destruct Hnr as (-> & Hint & Hpos).
  apply context_of_Go in Hctx. destruct Hctx as (s & Hs & Hctx & _ & _).
  apply trench_of_Go in Htr. destruct Htr as (st & Hst & Htr & _ & _).
  apply dashed_Go in Hdash. destruct Hdash as (c & rest & Hcr & Hd & _).
  repeat split; auto.
  - exists c, rest. split; [ | exact Hd]. unfold text_at. rewrite Hs. congruence.
  - unfold text_at. rewrite Hst. congruence.
Qed.

Lemma sample_keys_witness :
  cell_at example_sample_row 0 = Some (CStr "S7")
  /\ PyStr.to_int (PyStr.tail "S7") = Some 7
  /\ 0 < 7
  /\ (exists c rest, text_at example_sample_row 1 = Some (String c rest)
                     /\ "B-045" = String c ("-" ++ rest))
  /\ "B-045-S7" = "B-045" ++ "-" ++ "S7"
  /\ text_at example_sample_row 2 = Some "B"
  /\ Some "S" = Some "S"
  /\ "sample" = "sample"
  /\ "2" = PyStr.of_Z 2.
Proof.
  exact (sample_keys no_text no_text 2 example_sample_row example_sample_record []
           example_sample_row_accepted).
Defined.

(** ** The header row *)

Lemma check_column_ok (ws : worksheet) (col_idx : nat) (col_name : string) :
  snd (check_column ws col_idx col_name) = false
  <-> exists s, cell_at (header ws) col_idx = Some (CStr s)
                /\ PyStr.lower s = PyStr.lower col_name.
Proof.
  unfold check_column.
  destruct (cell_at (header ws) col_idx) as [[ | s | | | | | ] | ]; simpl;
    try (split; [discriminate | intros (s' & H & _); discriminate]).
  destruct (PyStr.lower s =? PyStr.lower col_name)%string eqn:E; simpl.
  - apply String.eqb_eq in E. split; auto. intros _. exists s. auto.
  - apply String.eqb_neq in E. split; [discriminate | ].
    intros (s' & H & H'). inversion H; subst. contradiction.
Qed.

Lemma check_column_log (ws : worksheet) (col_idx : nat) (col_name : string) :
  snd (check_column ws col_idx col_name) = false
  <-> fst (check_column ws col_idx col_name) = [].
Proof.
  unfold check_column.
  destruct (cell_at (header ws) col_idx) as [[ | s | | | | | ] | ]; simpl;
    try (split; discriminate).
  destruct (PyStr.lower s =? PyStr.lower col_name)%string; simpl;
    split; auto; discriminate.
Qed.

Lemma check_columns_ok (ws : worksheet) (cols : list string) :
  forall col_idx err,
    snd (check_columns ws col_idx cols err) = false
    <-> err = false
        /\ forall i name, nth_error cols i = Some name ->
                          exists s, cell_at (header ws) (col_idx + i) = Some (CStr s)
                                    /\ PyStr.lower s = PyStr.lower name.
Proof.
  induction cols as [ | c rest IH]; intros col_idx err; simpl.
  - split; [intros H; split; auto; intros [ | i] name H'; discriminate | tauto].
  - pose proof (check_column_ok ws col_idx c) as Hc.
    destruct (check_column ws col_idx c) as [l e]. cbn [snd] in Hc.
    specialize (IH (S col_idx) (err || e)).
    destruct (check_columns ws (S col_idx) rest (err || e)) as [l' err'].
    cbn [snd] in *. rewrite IH. split.
    + intros [He H]. apply orb_false_iff in He. destruct He as [He1 He2].
      split; auto. intros [ | i] name Hn; simpl in Hn.
      * inversion Hn as [Hname]. rewrite <- Hname, Nat.add_0_r. apply Hc, He2.
      * rewrite <- Nat.add_succ_comm. apply H, Hn.
    + intros [He H]. split; [apply orb_false_iff; split; auto | ].
      * apply Hc. specialize (H 0%nat c eq_refl). rewrite Nat.add_0_r in H. exact H.
      * intros i name Hn. specialize (H (S i) name Hn).
        rewrite <- Nat.add_succ_comm in H. exact H.
Qed.

Lemma check_columns_log (ws : worksheet) (cols : list string) :
  forall col_idx err,
    err = false ->
    (snd (check_columns ws col_idx cols err) = false
     <-> fst (check_columns ws col_idx cols err) = []).
Proof.
  induction cols as [ | c rest IH]; intros col_idx err He; simpl.
  - tauto.
  - pose proof (check_column_log ws col_idx c) as Hc.
    pose proof (check_columns_ok ws rest (S col_idx)) as Hok.
    destruct (check_column ws col_idx c) as [l e]. cbn [fst snd] in Hc.
    specialize (IH (S col_idx) (err || e)). specialize (Hok (err || e)).
    destruct (check_columns ws (S col_idx) rest (err || e)) as [l' err'].
    cbn [fst snd] in *. subst err. simpl in *. split.
    + intros H. pose proof (proj1 (proj1 Hok H)) as He. subst e.
      rewrite (proj1 Hc eq_refl). simpl. apply IH; auto.
    + intros H. apply app_eq_nil in H. destruct H as [H1 H2].
      apply Hc in H1. subst e. apply IH; auto.
Qed.

(** X13: [check_structure] holds a sheet to be right exactly when, for
    every expected column, the header cell at its place is text that is
    the expected name but for the case of its letters; it logs nothing
    exactly then. Cells beyond the expected columns are not looked at. *)
Theorem check_structure_exactly (ws : worksheet) (expected_cols : list string) :
  (snd (check_structure ws expected_cols) = true
   <-> forall i name,
         nth_error expected_cols i = Some name ->
         exists s, cell_at (header ws) i = Some (CStr s)
                   /\ PyStr.lower s = PyStr.lower name)
  /\ (snd (check_structure ws expected_cols) = true
      <-> fst (check_structure ws expected_cols) = []).
Proof.
  unfold check_structure.
  pose proof (check_columns_ok ws expected_cols 0 false) as Hok.
  pose proof (check_columns_log ws expected_cols 0 false eq_refl) as Hlog.
  destruct (check_columns ws 0 expected_cols false) as [l err].
  cbn [fst snd] in *. rewrite negb_true_iff. split.
  - rewrite Hok. simpl. tauto.
  - exact Hlog.
Qed.

(** ** What the merge adds *)

Section Added.

Variables now now_eastern : Z.
Variable new_uid : list string -> string.

Lemma insert_cm_app (rows : list CM.columns) :
  forall t, exists added,
    insert_cm new_uid rows t = (t ++ added)%list /\ map CM.cols added = rows.
Proof.
  induction rows as [ | c rest IH]; intros t; simpl.
  - exists []. rewrite app_nil_r. auto.
  - destruct (IH (t ++ [CM.mk (new_uid (map CM.uid t)) c])%list) as (added & H1 & H2).
    exists (CM.mk (new_uid (map CM.uid t)) c :: added). split.
    + rewrite H1, <- app_assoc. reflexivity.
    + simpl. rewrite H2. reflexivity.
Qed.

Lemma insert_sf_app (rows : list SF.columns) :
  forall t, exists added,
    insert_sf new_uid rows t = (t ++ added)%list /\ map SF.cols added = rows.
Proof.
  induction rows as [ | c rest IH]; intros t; simpl.
  - exists []. rewrite app_nil_r. auto.
  - destruct (IH (t ++ [SF.mk (new_uid (map SF.uid t)) c])%list) as (added & H1 & H2).
    exists (SF.mk (new_uid (map SF.uid t)) c :: added). split.
    + rewrite H1, <- app_assoc. reflexivity.
    + simpl. rewrite H2. reflexivity.
Qed.

(** X14: the merge only appends. The rows of [collected_material] and of
    [small_find] stay as they are and where they are, the new rows come
    after them, as many as the two counts say, and the staging relation,
    the loci and the photos are not written. *)
Theorem merge_only_appends (db : database) :
  exists added_cm added_sf,
    collected_material
      (merged_db (import_rliim_cm_for_new_loci now now_eastern new_uid db))
    = (collected_material db ++ added_cm)%list
    /\ small_find
         (merged_db (import_rliim_cm_for_new_loci now now_eastern new_uid db))
       = (small_find db ++ added_sf)%list
    /\ List.length added_cm
       = cm_row_count (import_rliim_cm_for_new_loci now now_eastern new_uid db)
    /\ List.length added_sf
       = sf_row_count (import_rliim_cm_for_new_loci now now_eastern new_uid db)
    /\ rliim_cm_import
         (merged_db (import_rliim_cm_for_new_loci now now_eastern new_uid db))
       = rliim_cm_import db
    /\ locus_table
         (merged_db (import_rliim_cm_for_new_loci now now_eastern new_uid db))
       = locus_table db
    /\ collected_material_photo
         (merged_db (import_rliim_cm_for_new_loci now now_eastern new_uid db))
       = collected_material_photo db.
Proof.
  unfold import_rliim_cm_for_new_loci.
  cbn [merged_db cm_row_count sf_row_count rliim_cm_import locus_table
       collected_material small_find collected_material_photo].
  destruct (insert_cm_app (sql_insert now now_eastern db) (collected_material db))
    as (added_cm & H1 & H2).
  match goal with
  | |- context [insert_sf new_uid ?rows (small_find db)] =>
      destruct (insert_sf_app rows (small_find db)) as (added_sf & H3 & H4)
  end.
  exists added_cm, added_sf.
  apply (f_equal (@List.length CM.columns)) in H2.
  apply (f_equal (@List.length SF.columns)) in H4.
  rewrite length_map in H2, H4. auto 10.
Qed.

Lemma in_cm_from (db : database) (rliim : staging_row) (l : Locus.t)
  (o : option CM.t) :
  In ((rliim, l), o) (cm_from db) ->
  In rliim (rliim_cm_import db) /\ In l (locus_table db)
  /\ Locus.arch_context l = Some (locus rliim)
  /\ forall cm0, In cm0 (collected_material db) ->
                 CM.arch_context (CM.cols cm0) <> Some (arch_context rliim).
Proof.
  unfold cm_from. intros H. apply filter_In in H. destruct H as [H Hw].
  apply in_left_outer_join in H. destruct H as [Hp Ho].
  apply in_inner_join in Hp. destruct Hp as (Hr & Hl & Hon).
  split; auto. split; auto. split.
  - unfold Sql.eq_null in Hon. destruct (Locus.arch_context l) as [a | ];
      [ | discriminate].
    apply String.eqb_eq in Hon. congruence.
  - destruct o as [cm | ].
    + destruct Ho as [_ Ho]. cbn [fst snd] in *.
      rewrite (eq_null_not_null _ _ Ho) in Hw. discriminate.
    + cbn [fst] in Ho. intros cm0 Hin Heq.
      assert (Hf : In cm0 (filter
                             (fun cm => Sql.eq_null (arch_context rliim)
                                                    (CM.arch_context (CM.cols cm)))
                             (collected_material db))).
      { apply filter_In. split; auto. rewrite Heq. unfold Sql.eq_null.
        apply String.eqb_refl. }
      rewrite Ho in Hf. destruct Hf.
Qed.

(** X15: where a new collected material comes from. Every row the merge
    adds is made, as the select list says, from a staging row and a locus
    of production whose arch_context is the locus of the staging row, and
    no collected material had the arch_context of that staging row
    before. *)
Theorem new_collected_material_origin (db : database) (cm : CM.t) :
  In cm (collected_material
           (merged_db (import_rliim_cm_for_new_loci now now_eastern new_uid db))) ->
  In cm (collected_material db)
  \/ exists rliim l,
       In rliim (rliim_cm_import db) /\ In l (locus_table db)
       /\ Locus.arch_context l = Some (locus rliim)
       /\ (forall cm0, In cm0 (collected_material db) ->
                       CM.arch_context (CM.cols cm0) <> Some (arch_context rliim))
       /\ CM.cols cm = cm_select now now_eastern l rliim.
Proof.
  unfold import_rliim_cm_for_new_loci. cbn [merged_db collected_material].
  destruct (insert_cm_app (sql_insert now now_eastern db) (collected_material db))
    as (added & H1 & H2).
  rewrite H1. intros H. apply in_app_or in H. destruct H as [H | H]; auto.
  right. assert (Hc : In (CM.cols cm) (sql_insert now now_eastern db)).
  { rewrite <- H2. apply in_map. exact H. }
  unfold sql_insert in Hc. apply in_map_iff in Hc.
  destruct Hc as ([[rliim l] o] & Hc & Hj). cbn [fst snd] in Hc.
  exists rliim, l. destruct (in_cm_from db rliim l o Hj) as (Hr & Hl & Ha & Hn).
  auto 10.
Qed.

(** X16: every staging row whose locus is in production has its collected
    material after the merge. *)
Theorem merge_covers_every_known_locus (db : database) (rliim : staging_row)
  (l : Locus.t) :
  In rliim (rliim_cm_import db) -> In l (locus_table db) ->
  Locus.arch_context l = Some (locus rliim) ->
  exists cm,
    In cm (collected_material
             (merged_db (import_rliim_cm_for_new_loci now now_eastern new_uid db)))
    /\ CM.arch_context (CM.cols cm) = Some (arch_context rliim).
Proof.
  intros Hr Hl Ha.
  destruct (cm_done_after_insert now now_eastern new_uid db (small_find db)
              (collected_material_photo db) rliim l) as (cm & Hin & Hc); auto.
  - cbn [locus_table]. rewrite Ha. unfold Sql.eq_null. apply String.eqb_refl.
  - exists cm. split; [exact Hin | ].
    unfold Sql.eq_null in Hc. destruct (CM.arch_context (CM.cols cm)) as [a | ];
      [ | discriminate].
    apply String.eqb_eq in Hc. congruence.
Qed.

Lemma added_are_tagged (db : database) (c : CM.columns) :
  In c (sql_insert now now_eastern db) -> CM.dearregistrar c = Some import_marker.
Proof.
  unfold sql_insert. intros H. apply in_map_iff in H.
  destruct H as (j & <- & _). reflexivity.
Qed.

(** X17: erasing after a merge takes away every collected material the
    merge has added: of [collected_material] it leaves what erasing
    without the merge leaves. *)
Theorem erase_undoes_merge (db : database) :
  collected_material
    (erase_former_import
       (merged_db (import_rliim_cm_for_new_loci now now_eastern new_uid db)))
  = collected_material (erase_former_import db).
Proof.
  unfold erase_former_import, import_rliim_cm_for_new_loci.
  cbn [merged_db collected_material].
  destruct (insert_cm_app (sql_insert now now_eastern db) (collected_material db))
    as (added & H1 & H2).
  rewrite H1, filter_app.
  replace (filter (fun cm => negb (tagged cm)) added) with (@nil CM.t).
  - apply app_nil_r.
  - symmetry. apply filter_nil. intros cm Hin.
    assert (Hc : In (CM.cols cm) (sql_insert now now_eastern db))
      by (rewrite <- H2; apply in_map; exact Hin).
    apply added_are_tagged in Hc. unfold tagged. rewrite Hc. reflexivity.
Qed.

(** X18: a null in [small_find.uid_cm] stops every insert of a small find:
    [not in] is then never true. *)
Theorem null_uid_cm_blocks_small_finds (db : database) :
  existsb Sql.is_null (map (fun f => SF.uid_cm (SF.cols f)) (small_find db)) = true ->
  sf_row_count (import_rliim_cm_for_new_loci now now_eastern new_uid db) = 0%nat
  /\ small_find (merged_db (import_rliim_cm_for_new_loci now now_eastern new_uid db))
     = small_find db.
Proof.
  intros H. unfold import_rliim_cm_for_new_loci.
  cbn [merged_db sf_row_count small_find collected_material rliim_cm_import].
  assert (Hn : forall db', small_find db' = small_find db -> sf_from db' = []).
  { intros db' Hs. unfold sf_from. apply filter_nil. intros j _.
    rewrite Hs. unfold Sql.not_in. rewrite H. simpl.
    rewrite andb_false_r. apply andb_false_r. }
  unfold sql_add_small_finds. rewrite Hn by reflexivity. auto.
Qed.

(** X19: erasing and then merging, as the main program does when both
    options are given: every collected material that bears the marker
    afterwards was made by this merge, from a staging row and the locus
    of production the row names. No marked row of a former import is
    left. *)
Theorem marked_rows_after_erase_and_merge (db : database) (cm : CM.t) :
  In cm (collected_material
           (merged_db (import_rliim_cm_for_new_loci now now_eastern new_uid
                         (erase_former_import db)))) ->
  tagged cm = true ->
  exists rliim l,
    In rliim (rliim_cm_import db) /\ In l (locus_table db)
    /\ Locus.arch_context l = Some (locus rliim)
    /\ CM.cols cm = cm_select now now_eastern l rliim.
Proof.
  unfold import_rliim_cm_for_new_loci. cbn [merged_db collected_material].
  destruct (insert_cm_app (sql_insert now now_eastern (erase_former_import db))
              (collected_material (erase_former_import db)))
    as (added & H1 & H2).
  rewrite H1. intros H Ht. apply in_app_or in H. destruct H as [H | H].
  - unfold erase_former_import in H. cbn [collected_material] in H.
    apply filter_In in H. destruct H as [_ Hn]. rewrite Ht in Hn. discriminate.
  - assert (Hc : In (CM.cols cm) (sql_insert now now_eastern (erase_former_import db))).
    { rewrite <- H2. apply in_map. exact H. }
    unfold sql_insert in Hc. apply in_map_iff in Hc.
    destruct Hc as ([[rliim l] o] & Hc & Hj). cbn [fst snd] in Hc.
    exists rliim, l.
    destruct (in_cm_from (erase_former_import db) rliim l o Hj) as (Hr & Hl & Ha & _).
    auto.
Qed.

End Added.

Lemma new_collected_material_origin_witness :
  In (CM.mk "uid-0" (cm_select 7000 6000 locus_1 example_lot_record))
     (collected_material lot_5_database)
  \/ exists rliim l,
       In rliim (rliim_cm_import lot_5_database) /\ In l (locus_table lot_5_database)
       /\ Locus.arch_context l = Some (locus rliim)
       /\ (forall cm0, In cm0 (collected_material lot_5_database) ->
                       CM.arch_context (CM.cols cm0) <> Some (arch_context rliim))
       /\ CM.cols (CM.mk "uid-0" (cm_select 7000 6000 locus_1 example_lot_record))
          = cm_select 7000 6000 l rliim.
Proof.
  apply (new_collected_material_origin 7000 6000 (counter_uid "uid-") lot_5_database).
  left. reflexivity.
Defined.

Lemma merge_covers_every_known_locus_witness :
  exists cm,
    In cm (collected_material
             (merged_db (import_rliim_cm_for_new_loci 7000 6000 (counter_uid "uid-")
                                                      lot_5_database)))
    /\ CM.arch_context (CM.cols cm) = Some "A-123-5".
Proof.
  apply (merge_covers_every_known_locus 7000 6000 (counter_uid "uid-") lot_5_database
           example_lot_record locus_1).
  - left. reflexivity.
  - left. reflexivity.
  - reflexivity.
Defined.

Lemma null_uid_cm_blocks_small_finds_witness :
  sf_row_count (import_rliim_cm_for_new_loci 7000 6000 (counter_uid "uid-")
                                             stray_database) = 0%nat
  /\ small_find (merged_db (import_rliim_cm_for_new_loci 7000 6000
                              (counter_uid "uid-") stray_database))
     = [stray_small_find].
Proof.
  apply (null_uid_cm_blocks_small_finds 7000 6000 (counter_uid "uid-") stray_database).
  reflexivity.
Defined.

(** The same staging relation without the stray row gets its small
    find. *)
Example small_find_added_without_null :
  sf_row_count (import_rliim_cm_for_new_loci 7000 6000 (counter_uid "uid-")
                                             bead_database) = 1%nat.
Proof. reflexivity. Qed.

Lemma marked_rows_after_erase_and_merge_witness :
  exists rliim l,
    In rliim (rliim_cm_import stale_database) /\ In l (locus_table stale_database)
    /\ Locus.arch_context l = Some (locus rliim)
    /\ CM.cols (CM.mk "uid-0" (cm_select 7000 6000 locus_1 example_lot_record))
       = cm_select 7000 6000 l rliim.
Proof.
  apply (marked_rows_after_erase_and_merge 7000 6000 (counter_uid "uid-")
           stale_database).
  - left. reflexivity.
  - reflexivity.
Defined.

(** ** Erasing *)

Lemma filter_all {A : Type} (p : A -> bool) (l : list A) :
  (forall a, In a l -> p a = true) -> filter p l = l.
Proof.
  induction l as [ | a l IH]; simpl; intros H; auto.
  rewrite (H a) by auto. f_equal. apply IH. intros b Hb. apply H. auto.
Qed.

Lemma no_tagged_left (db : database) :
  tagged_uids (erase_former_import db) = [].
Proof.
  unfold tagged_uids, erase_former_import. cbn [collected_material].
  rewrite (filter_nil tagged); [reflexivity | ].
  intros cm H. apply filter_In in H. destruct H as [_ H].
  apply negb_true_iff in H. exact H.
Qed.

Lemma refers_to_none (db : database) (u : option string) :
  tagged_uids db = [] -> refers_to_tagged db u = false.
Proof.
  intros H. unfold refers_to_tagged. rewrite H. destruct u; reflexivity.
Qed.

(** X20: erasing twice is erasing once, and after it no collected material
    carries the import marker. *)
Theorem erase_former_import_idempotent (db : database) :
  erase_former_import (erase_former_import db) = erase_former_import db
  /\ forall cm, In cm (collected_material (erase_former_import db)) ->
                CM.dearregistrar (CM.cols cm) <> Some import_marker.
Proof.
  split.
  - pose proof (no_tagged_left db) as Hn.
    set (db' := erase_former_import db) in *.
    unfold erase_former_import at 1.
    cbn [rliim_cm_import locus_table collected_material small_find
         collected_material_photo].
    rewrite (filter_all _ (small_find db'))
      by (intros f _; rewrite (refers_to_none db' _ Hn); reflexivity).
    rewrite (filter_all _ (collected_material_photo db')).
    + rewrite (filter_all _ (collected_material db')).
      * destruct db'. reflexivity.
      * intros cm H. unfold db', erase_former_import in H.
        cbn [collected_material] in H. apply filter_In in H. tauto.
    + intros p _. unfold refers_to_tagged, tagged_uids.
      cbn [collected_material]. fold (tagged_uids db'). rewrite Hn.
      destruct (Photo.uid_cm p); reflexivity.
  - intros cm H Hd. unfold erase_former_import in H. cbn [collected_material] in H.
    apply filter_In in H. destruct H as [_ H]. unfold tagged in H. rewrite Hd in H.
    unfold Sql.eq_null in H. rewrite String.eqb_refl in H. discriminate.
Qed.

Lemma untagged_or_referred (db : database) (cm : CM.t) :
  In cm (collected_material db) ->
  refers_to_tagged db (Some (CM.uid cm)) = false -> tagged cm = false.
Proof.
  intros Hin Hr. destruct (tagged cm) eqn:E; auto.
  unfold refers_to_tagged, Sql.is_in, tagged_uids in Hr.
  assert (Hx : existsb (Sql.eq_null (CM.uid cm))
                 (map (fun cm => Some (CM.uid cm))
                      (filter tagged (collected_material db))) = true).
  { apply existsb_exists. exists (Some (CM.uid cm)). split.
    - apply in_map_iff. exists cm. split; auto. apply filter_In. auto.
    - unfold Sql.eq_null. apply String.eqb_refl. }
  congruence.
Qed.

(** X21: erasing leaves no reference without its row. A small find or a
    photo that is left and whose [uid_cm] was the key of a collected
    material finds that collected material left as well. *)
Theorem erase_keeps_references (db : database) (cm : CM.t) :
  In cm (collected_material db) ->
  (forall f, In f (small_find (erase_former_import db)) ->
             SF.uid_cm (SF.cols f) = Some (CM.uid cm) ->
             In cm (collected_material (erase_former_import db)))
  /\ (forall p, In p (collected_material_photo (erase_former_import db)) ->
                Photo.uid_cm p = Some (CM.uid cm) ->
                In cm (collected_material (erase_former_import db))).
Proof.
  intros Hin. unfold erase_former_import.
  cbn [collected_material small_find collected_material_photo]. split.
  - intros f Hf Hu. apply filter_In in Hf. destruct Hf as [_ Hf].
    apply negb_true_iff in Hf. rewrite Hu in Hf.
    apply filter_In. split; auto.
    rewrite (untagged_or_referred db cm Hin Hf). reflexivity.
  - intros p Hp Hu. apply filter_In in Hp. destruct Hp as [_ Hp].
    apply negb_true_iff in Hp. rewrite Hu in Hp.
    apply filter_In. split; auto.
    rewrite (untagged_or_referred db cm Hin Hp). reflexivity.
Qed.

Lemma erase_keeps_references_witness :
  (forall f, In f (small_find (erase_former_import mixed_database)) ->
             SF.uid_cm (SF.cols f) = Some "cm-2" ->
             In (nth 1 (collected_material mixed_database) (CM.mk "" tagged_columns))
                (collected_material (erase_former_import mixed_database)))
  /\ (forall p, In p (collected_material_photo (erase_former_import mixed_database)) ->
                Photo.uid_cm p = Some "cm-2" ->
                In (nth 1 (collected_material mixed_database) (CM.mk "" tagged_columns))
                   (collected_material (erase_former_import mixed_database))).
Proof.
  apply (erase_keeps_references mixed_database
           (nth 1 (collected_material mixed_database) (CM.mk "" tagged_columns))).
  right. left. reflexivity.
Defined.

(** ** One collected material for an arch_context *)

Lemma NoDup_flat_map_key {A B K : Type} (f : A -> K) (g : A -> list B) (k : B -> K)
  (xs : list A) :
  NoDup (map f xs) ->
  (forall x y, In y (g x) -> k y = f x) ->
  (forall x, (List.length (g x) <= 1)%nat) ->
  NoDup (map k (flat_map g xs)).
Proof.
  intros Hn Hk Hl. induction xs as [ | x rest IH]; simpl; [constructor | ].
  inversion Hn as [ | a l Hnot Hrest]; subst.
  rewrite map_app. apply NoDup_app.
  - specialize (Hl x). destruct (g x) as [ | y [ | y' ys]]; simpl in *;
      [constructor | repeat constructor; auto | lia].
  - apply IH, Hrest.
  - intros a Ha Hb. apply in_map_iff in Ha. destruct Ha as (y & <- & Hy).
    apply in_map_iff in Hb. destruct Hb as (y' & Hy' & Hin).
    apply in_flat_map in Hin. destruct Hin as (x' & Hx' & Hg).
    apply Hnot. rewrite (Hk x y Hy) in Hy'. rewrite (Hk x' y' Hg) in Hy'.
    rewrite <- Hy'. apply in_map. exact Hx'.
Qed.

Lemma filter_flat_map {A B : Type} (p : B -> bool) (g : A -> list B) (xs : list A) :
  filter p (flat_map g xs) = flat_map (fun x => filter p (g x)) xs.
Proof.
  induction xs as [ | x rest IH]; simpl; auto. rewrite filter_app, IH. reflexivity.
Qed.

Lemma one_locus_for_a_key (a : string) (loci : list Locus.t) :
  NoDup (locus_keys loci) ->
  (List.length (filter (fun l => Sql.eq_null a (Locus.arch_context l)) loci) <= 1)%nat.
Proof.
  induction loci as [ | l rest IH]; simpl; auto.
  unfold locus_keys in *. simpl.
  destruct (Locus.arch_context l) as [b | ] eqn:E; simpl; auto.
  intros H. inversion H as [ | x xs Hnot Hrest]; subst.
  destruct (a =? b)%string eqn:Eab; [ | auto].
  apply String.eqb_eq in Eab. subst b. simpl.
  rewrite (filter_nil _ rest); auto.
  intros l' Hl'. destruct (Sql.eq_null a (Locus.arch_context l')) eqn:E'; auto.
  exfalso. apply Hnot. apply in_flat_map. exists l'. split; auto.
  unfold Sql.eq_null in E'. destruct (Locus.arch_context l') as [c | ];
    [ | discriminate].
  apply String.eqb_eq in E'. subst c. left. reflexivity.
Qed.

Lemma in_cm_keys (a : string) (cms : list CM.t) :
  In a (cm_keys cms)
  <-> exists cm, In cm cms /\ CM.arch_context (CM.cols cm) = Some a.
Proof.
  unfold cm_keys. rewrite in_flat_map. split.
  - intros (cm & Hin & H). exists cm. split; auto.
    destruct (CM.arch_context (CM.cols cm)) as [b | ]; [ | destruct H].
    destruct H as [-> | []]. reflexivity.
  - intros (cm & Hin & H). exists cm. split; auto. rewrite H. left. reflexivity.
Qed.

Section Unique.

Variables now now_eastern : Z.
Variable new_uid : list string -> string.

Lemma new_keys (db : database) (added : list CM.t) :
  map CM.cols added = sql_insert now now_eastern db ->
  cm_keys added = map (fun j => arch_context (fst (fst j))) (cm_from db).
Proof.
  unfold sql_insert. revert added.
  induction (cm_from db) as [ | j js IH]; intros [ | cm added] H; simpl in *;
    try discriminate; auto.
  inversion H as [[Hc Hrest]]. unfold cm_keys in *. simpl. rewrite Hc. simpl.
  f_equal. apply IH, Hrest.
Qed.

Lemma new_keys_distinct (db : database) :
  NoDup (map arch_context (rliim_cm_import db)) ->
  NoDup (locus_keys (locus_table db)) ->
  NoDup (map (fun j => arch_context (fst (fst j))) (cm_from db)).
Proof.
  intros Hs Hl. unfold cm_from, Sql.left_outer_join. rewrite filter_flat_map.
  apply (NoDup_flat_map_key (fun p : staging_row * Locus.t => arch_context (fst p))).
  - unfold Sql.inner_join.
    apply (NoDup_flat_map_key arch_context); auto.
    + intros x y H. apply in_map_iff in H. destruct H as (l & <- & _). reflexivity.
    + intros x. rewrite length_map. apply one_locus_for_a_key, Hl.
  - intros p j H. apply filter_In in H. destruct H as [H _].
    destruct (filter _ (collected_material db)) as [ | m ms].
    + destruct H as [<- | []]. reflexivity.
    + apply in_map_iff in H. destruct H as (y & <- & _). reflexivity.
  - intros p.
    destruct (filter (fun cm => Sql.eq_null (arch_context (fst p))
                                            (CM.arch_context (CM.cols cm)))
                     (collected_material db)) as [ | m ms] eqn:E.
    + simpl. auto.
    + rewrite filter_nil; [simpl; lia | ].
      intros j H. apply in_map_iff in H. destruct H as (y & <- & Hy).
      rewrite <- E in Hy. apply filter_In in Hy. destruct Hy as [_ Hy].
      cbn [snd]. apply (eq_null_not_null _ _ Hy).
Qed.

(** X22: one collected material for an arch_context. When the
    arch_contexts of production are distinct, those of the staging rows
    are, and those of the loci are, they are distinct in
    [collected_material] after the merge. *)
Theorem merge_keeps_arch_context_unique (db : database) :
  NoDup (cm_keys (collected_material db)) ->
  NoDup (map arch_context (rliim_cm_import db)) ->
  NoDup (locus_keys (locus_table db)) ->
  NoDup (cm_keys (collected_material
                    (merged_db (import_rliim_cm_for_new_loci now now_eastern
                                                             new_uid db)))).
Proof.
  intros Hc Hs Hl. unfold import_rliim_cm_for_new_loci.
  cbn [merged_db collected_material].
  destruct (insert_cm_app new_uid (sql_insert now now_eastern db)
              (collected_material db)) as (added & H1 & H2).
  rewrite H1. unfold cm_keys at 1. rewrite flat_map_app.
  fold (cm_keys (collected_material db)). fold (cm_keys added).
  pose proof (new_keys db added H2) as Hk.
  apply NoDup_app; auto.
  - rewrite Hk. apply new_keys_distinct; assumption.
  - intros a Ha Hb. apply in_cm_keys in Ha. destruct Ha as (cm0 & Hin0 & Ha).
    rewrite Hk in Hb. apply in_map_iff in Hb.
    destruct Hb as ([[rliim l] o] & <- & Hj). cbn [fst] in *.
    destruct (in_cm_from db rliim l o Hj) as (_ & _ & _ & Hn).
    exact (Hn cm0 Hin0 Ha).
Qed.

Lemma in_sf_from (db : database) (rliim : staging_row) (cm : CM.t) :
  In (rliim, cm) (sf_from db) ->
  In rliim (rliim_cm_import db) /\ In cm (collected_material db)
  /\ CM.arch_context (CM.cols cm) = Some (arch_context rliim)
  /\ CM.cm_type (CM.cols cm) = Some "small_find"
  /\ forall f0, In f0 (small_find db) -> SF.uid_cm (SF.cols f0) <> Some (CM.uid cm).
Proof.
  unfold sf_from. intros H. apply filter_In in H. destruct H as [H Hw].
  apply in_inner_join in H. destruct H as (Hr & Hc & Hon). cbn [snd] in Hw.
  apply andb_true_iff in Hw. destruct Hw as [Ht Hn].
  split; auto. split; auto. split; [ | split].
  - unfold Sql.eq_null in Hon. destruct (CM.arch_context (CM.cols cm)) as [a | ];
      [ | discriminate].
    apply String.eqb_eq in Hon. congruence.
  - unfold is_small_find, Sql.eq_null in Ht.
    destruct (CM.cm_type (CM.cols cm)) as [a | ]; [ | discriminate].
    apply String.eqb_eq in Ht. congruence.
  - intros f0 Hin Hu. unfold Sql.not_in, Sql.is_in in Hn.
    apply andb_true_iff in Hn. destruct Hn as [Hn _].
    apply negb_true_iff in Hn.
    assert (Hx : existsb (Sql.eq_null (CM.uid cm))
                   (map (fun f => SF.uid_cm (SF.cols f)) (small_find db)) = true).
    { apply existsb_exists. exists (Some (CM.uid cm)). split.
      - rewrite <- Hu. apply in_map_iff. exists f0. auto.
      - unfold Sql.eq_null. apply String.eqb_refl. }
    congruence.
Qed.

(** X23: where a new small find comes from. Every row the merge adds to
    [small_find] refers to a collected material of the type small_find,
    one that is there after the first statement and has the arch_context
    of a staging row, and to which no row of [small_find] referred
    before; its measures are those of that staging row. *)
Theorem new_small_find_origin (db : database) (sf : SF.t) :
  In sf (small_find
           (merged_db (import_rliim_cm_for_new_loci now now_eastern new_uid db))) ->
  In sf (small_find db)
  \/ exists rliim cm,
       In rliim (rliim_cm_import db)
       /\ In cm (collected_material
                   (merged_db (import_rliim_cm_for_new_loci now now_eastern
                                                            new_uid db)))
       /\ CM.arch_context (CM.cols cm) = Some (arch_context rliim)
       /\ CM.cm_type (CM.cols cm) = Some "small_find"
       /\ (forall f0, In f0 (small_find db) ->
                      SF.uid_cm (SF.cols f0) <> Some (CM.uid cm))
       /\ SF.cols sf = sf_select now now_eastern cm rliim.
Proof.
  unfold import_rliim_cm_for_new_loci.
  cbn [merged_db collected_material small_find rliim_cm_import locus_table].
  set (db1 := mk_database (rliim_cm_import db) (locus_table db)
                (insert_cm new_uid (sql_insert now now_eastern db)
                           (collected_material db))
                (small_find db) (collected_material_photo db)).
  match goal with
  | |- In sf (insert_sf new_uid ?rows ?t) -> _ =>
      destruct (insert_sf_app new_uid rows t) as (added & H1 & H2); rewrite H1
  end.
  intros H. apply in_app_or in H. destruct H as [H | H]; auto.
  right. assert (Hc : In (SF.cols sf) (sql_add_small_finds now now_eastern db1)).
  { apply (in_map SF.cols) in H. rewrite H2 in H. exact H. }
  unfold sql_add_small_finds in Hc. apply in_map_iff in Hc.
  destruct Hc as ([rliim cm] & Hc & Hj). cbn [fst snd] in Hc.
  destruct (in_sf_from db1 rliim cm Hj) as (Hr & Hcm & Ha & Ht & Hn).
  exists rliim, cm. auto 10.
Qed.

End Unique.

(** The merge on [two_row_database]: lot 5 has its collected material,
    the sample S7 gets one. *)
Example two_row_database_merged :
  cm_keys (collected_material
             (merged_db (import_rliim_cm_for_new_loci 7000 6000 (counter_uid "uid-")
                                                      two_row_database)))
  = ["A-123-5"; "B-045-S7"].
Proof. reflexivity. Qed.

Lemma merge_keeps_arch_context_unique_witness :
  (NoDup (cm_keys (collected_material two_row_database))
   /\ NoDup (map arch_context (rliim_cm_import two_row_database))
   /\ NoDup (locus_keys (locus_table two_row_database)))
  /\ NoDup (cm_keys (collected_material
                       (merged_db (import_rliim_cm_for_new_loci 7000 6000
                                     (counter_uid "uid-") two_row_database)))).
Proof.
  assert (H1 : NoDup (cm_keys (collected_material two_row_database)))
    by (repeat constructor; simpl; tauto).
  assert (H2 : NoDup (map arch_context (rliim_cm_import two_row_database)))
    by (repeat constructor; simpl; intuition discriminate).
  assert (H3 : NoDup (locus_keys (locus_table two_row_database)))
    by (repeat constructor; simpl; intuition discriminate).
  split; [auto | ].
  exact (merge_keeps_arch_context_unique 7000 6000 (counter_uid "uid-")
           two_row_database H1 H2 H3).
Defined.

Lemma new_small_find_origin_witness :
  In (SF.mk "uid-0"
        (sf_select 7000 6000 (CM.mk "uid-0" (cm_select 7000 6000 locus_1 bead_record))
                   bead_record))
     (small_find bead_database)
  \/ exists rliim cm,
       In rliim (rliim_cm_import bead_database)
       /\ In cm (collected_material
                   (merged_db (import_rliim_cm_for_new_loci 7000 6000
                                 (counter_uid "uid-") bead_database)))
       /\ CM.arch_context (CM.cols cm) = Some (arch_context rliim)
       /\ CM.cm_type (CM.cols cm) = Some "small_find"
       /\ (forall f0, In f0 (small_find bead_database) ->
                      SF.uid_cm (SF.cols f0) <> Some (CM.uid cm))
       /\ SF.cols (SF.mk "uid-0"
                     (sf_select 7000 6000
                        (CM.mk "uid-0" (cm_select 7000 6000 locus_1 bead_record))
                        bead_record))
          = sf_select 7000 6000 cm rliim.
Proof.
  apply (new_small_find_origin 7000 6000 (counter_uid "uid-") bead_database).
  left. reflexivity.
Defined.

(** ** The parameters of the command line *)

Lemma split_nonempty (sep : ascii) (s : string) :
  exists p ps, PyStr.split sep s = p :: ps.
Proof.
  destruct s as [ | c s]; simpl; [eauto | ].
  destruct (Ascii.eqb c sep); [eauto | ].
  destruct (PyStr.split sep s); eauto.
Qed.

Lemma split_after_key (key v : string) :
  PyStr.split "=" key = [key] ->
  exists rest, PyStr.split "=" (key ++ "=" ++ v)
               = key :: hd "" (PyStr.split "=" v) :: rest.
Proof.
  induction key as [ | c key IH]; intros H.
  - destruct (split_nonempty "=" v) as (p & ps & E).
    exists ps. cbn. rewrite E. reflexivity.
  - cbn [PyStr.split] in H. cbn [append PyStr.split].
    destruct (Ascii.eqb c "="); [discriminate | ].
    destruct (split_nonempty "=" key) as (p & ps & Ek). rewrite Ek in H.
    inversion H; subst.
    destruct (IH Ek) as (rest & E). change ("=" ++ v) with (String "=" v) in E.
    rewrite E. exists rest. reflexivity.
Qed.

(** X24: the value of a parameter is the text between its first and its
    second equals sign. For whatever text [v], the five spellings that
    take a value give the option its name stands for with the start of
    [v] up to an equals sign as its value, in the case it was typed. *)
Theorem parameter_value (v : string) :
  startup_param ("--user=" ++ v) = Option_ "user" (Some (hd "" (PyStr.split "=" v)))
  /\ startup_param ("--db=" ++ v) = Option_ "db" (Some (hd "" (PyStr.split "=" v)))
  /\ startup_param ("-db=" ++ v) = Option_ "db" (Some (hd "" (PyStr.split "=" v)))
  /\ startup_param ("--log_file=" ++ v)
     = Option_ "logfile" (Some (hd "" (PyStr.split "=" v)))
  /\ startup_param ("-lf=" ++ v)
     = Option_ "logfile" (Some (hd "" (PyStr.split "=" v))).
Proof.
  repeat split.
  - destruct (split_after_key "--user" v eq_refl) as (rest & H).
    cbn [append] in H. unfold startup_param. cbn -[PyStr.split].
    unfold interpret_param. cbn -[PyStr.split]. rewrite H. reflexivity.
  - destruct (split_after_key "--db" v eq_refl) as (rest & H).
    cbn [append] in H. unfold startup_param. cbn -[PyStr.split].
    unfold interpret_param. cbn -[PyStr.split]. rewrite H. reflexivity.
  - destruct (split_after_key "-db" v eq_refl) as (rest & H).
    cbn [append] in H. unfold startup_param. cbn -[PyStr.split].
    unfold interpret_param. cbn -[PyStr.split]. rewrite H. reflexivity.
  - destruct (split_after_key "--log_file" v eq_refl) as (rest & H).
    cbn [append] in H. unfold startup_param. cbn -[PyStr.split].
    unfold interpret_param. cbn -[PyStr.split]. rewrite H. reflexivity.
  - destruct (split_after_key "-lf" v eq_refl) as (rest & H).
    cbn [append] in H. unfold startup_param. cbn -[PyStr.split].
    unfold interpret_param. cbn -[PyStr.split]. rewrite H. reflexivity.
Qed.

(** X25: the short spellings. What starts with [-nc] is the switch of the
    context check, not the one of the commit: only the long spelling
    [--no_commit] gives the option [nc]. What starts with [-c] is no
    parameter at all: [startup] prints the usage and exits. *)
Theorem short_nc_is_no_context_check (s : string) :
  startup_param ("-nc" ++ s) = Option_ "no_context_check" None
  /\ startup_param ("--no_commit" ++ s) = Option_ "nc" None
  /\ startup_param ("-c" ++ s) = Usage.
Proof.
  repeat split; unfold startup_param; cbn; destruct (PyStr.lower s); reflexivity.
Qed.

(** X26: a parameter that takes a value raises [IndexError] when it has no
    equals sign: for a text [s] without one, [--user] followed by [s] is
    found as the user parameter and [param.split("=")[1]] fails. *)
Theorem value_needs_equals_sign (s : string) :
  PyStr.split "=" s = [s] -> startup_param ("--user" ++ s) = IndexError.
Proof.
  intros H. unfold startup_param. cbn -[PyStr.split].
  unfold interpret_param. cbn -[PyStr.split].
  destruct (prefix "" (PyStr.lower s)) eqn:Ep;
    [ | destruct (PyStr.lower s); discriminate].
  cbn. rewrite H. reflexivity.
Qed.

Lemma value_needs_equals_sign_witness :
  PyStr.split "=" "" = [""] /\ startup_param "--user" = IndexError.
Proof.
  split; [reflexivity | exact (value_needs_equals_sign "" eq_refl)].
Defined.
(** ** The materials *)

Lemma rstrip_cons (c : ascii) (s : string) :
  PyStr.rstrip (String c s)
  = match PyStr.rstrip s with
    | EmptyString => if PyStr.is_space c then EmptyString else String c EmptyString
    | r => String c r
    end.
Proof. reflexivity. Qed.

Lemma rstrip_idem (s : string) : PyStr.rstrip (PyStr.rstrip s) = PyStr.rstrip s.
Proof.
  induction s as [ | c s IH]; [reflexivity | ].
  rewrite rstrip_cons. destruct (PyStr.rstrip s) as [ | d r] eqn:E.
  - destruct (PyStr.is_space c) eqn:Ec; [reflexivity | ].
    rewrite rstrip_cons. cbn. rewrite Ec. reflexivity.
  - rewrite rstrip_cons, IH. reflexivity.
Qed.

Lemma lstrip_head (s : string) :
  PyStr.lstrip s = "" \/
  exists c r, PyStr.lstrip s = String c r /\ PyStr.is_space c = false.
Proof.
  induction s as [ | c s IH]; [left; reflexivity | ].
  cbn. destruct (PyStr.is_space c) eqn:Ec; [exact IH | ].
  right. exists c, s. split; [reflexivity | exact Ec].
Qed.

Lemma rstrip_head (c : ascii) (r : string) :
  PyStr.is_space c = false -> exists r', PyStr.rstrip (String c r) = String c r'.
Proof.
  intros Hc. rewrite rstrip_cons, Hc. destruct (PyStr.rstrip r); eauto.
Qed.

Lemma strip_idem (s : string) : PyStr.strip (PyStr.strip s) = PyStr.strip s.
Proof.
  unfold PyStr.strip. destruct (lstrip_head s) as [E | (c & r & E & Hc)]; rewrite E.
  - reflexivity.
  - destruct (rstrip_head c r Hc) as (r' & E'). rewrite E'.
    cbn [PyStr.lstrip]. rewrite Hc, <- E'. apply rstrip_idem.
Qed.

(** X27: [map_material] is idempotent: a material that went through it
    comes back unchanged from a second pass, whether it was one of the
    four mapped names, [None], empty or any other text. *)
Theorem map_material_idempotent (material : option string) :
  map_material (map_material material) = map_material material.
Proof.
  destruct material as [m | ]; [ | reflexivity].
  unfold map_material at 2 3.
  destruct (m =? "")%string eqn:Em; [cbn; rewrite Em; reflexivity | ].
  destruct (lookup (PyStr.lower (PyStr.strip m)) mapping) as [v | ] eqn:El.
  - unfold mapping in El. cbn [lookup] in El.
    repeat match type of El with
           | (if ?b then _ else _) = _ =>
               destruct b; [inversion El; subst; reflexivity | ]
           end.
    discriminate.
  - unfold map_material.
    destruct (PyStr.strip m =? "")%string; [reflexivity | ].
    rewrite strip_idem, El. reflexivity.
Qed.

(** ** The weight in grams *)

Lemma span_outside (p : ascii -> bool) (s : string) :
  starts_outside p s -> span p s = (EmptyString, s).
Proof. destruct s as [ | c s]; cbn; [reflexivity | intros ->; reflexivity]. Qed.

Lemma span_all_app (p : ascii -> bool) (x y : string) :
  all_chars p x = true -> starts_outside p y -> span p (x ++ y) = (x, y).
Proof.
  induction x as [ | c x IH]; cbn [all_chars append]; intros Hx Hy.
  - apply span_outside, Hy.
  - apply andb_prop in Hx as [Hc Hx]. cbn [span]. rewrite Hc, (IH Hx Hy).
    reflexivity.
Qed.

Lemma span_all (p : ascii -> bool) (x : string) :
  all_chars p x = true -> span p x = (x, EmptyString).
Proof.
  induction x as [ | c x IH]; cbn [all_chars]; intros Hx; [reflexivity | ].
  apply andb_prop in Hx as [Hc Hx]. cbn [span]. rewrite Hc, (IH Hx). reflexivity.
Qed.

Lemma starts_outside_app (p q : ascii -> bool) (x y : string) :
  (forall c, q c = true -> p c = false) ->
  all_chars q x = true -> starts_outside p y -> starts_outside p (x ++ y).
Proof.
  intros Hpq Hx Hy. destruct x as [ | c x]; [exact Hy | ].
  cbn in *. apply andb_prop in Hx as [Hc _]. apply Hpq, Hc.
Qed.

Lemma starts_outside_all (p q : ascii -> bool) (x : string) :
  (forall c, q c = true -> p c = false) ->
  all_chars q x = true -> starts_outside p x.
Proof.
  intros Hpq Hx. destruct x as [ | c x]; [exact I | ].
  cbn in *. apply andb_prop in Hx as [Hc _]. apply Hpq, Hc.
Qed.

Lemma space_not_num (c : ascii) : PyStr.is_space c = true -> is_num_char c = false.
Proof. destruct c as [[] [] [] [] [] [] [] []]; intros H; try reflexivity; discriminate H. Qed.

Lemma space_not_unit (c : ascii) : PyStr.is_space c = true -> is_unit_char c = false.
Proof. destruct c as [[] [] [] [] [] [] [] []]; intros H; try reflexivity; discriminate H. Qed.

Lemma unit_not_num (c : ascii) : is_unit_char c = true -> is_num_char c = false.
Proof. destruct c as [[] [] [] [] [] [] [] []]; intros H; try reflexivity; discriminate H. Qed.

Lemma unit_not_space (c : ascii) : is_unit_char c = true -> PyStr.is_space c = false.
Proof. destruct c as [[] [] [] [] [] [] [] []]; intros H; try reflexivity; discriminate H. Qed.

Lemma num_not_space (c : ascii) : is_num_char c = true -> PyStr.is_space c = false.
Proof. destruct c as [[] [] [] [] [] [] [] []]; intros H; try reflexivity; discriminate H. Qed.

Lemma lstrip_spaces (a s : string) :
  all_chars PyStr.is_space a = true -> PyStr.lstrip (a ++ s) = PyStr.lstrip s.
Proof.
  induction a as [ | c a IH]; cbn [all_chars append]; intros Ha; [reflexivity | ].
  apply andb_prop in Ha as [Hc Ha]. cbn [PyStr.lstrip]. rewrite Hc. exact (IH Ha).
Qed.

Lemma append_empty (s : string) : s ++ "" = s.
Proof. induction s as [ | c s IH]; cbn; [ | rewrite IH]; reflexivity. Qed.

(** The parse of a text made of the five parts of the pattern. *)
Lemma get_grams_parts (a n b u c : string) :
  all_chars PyStr.is_space a = true ->
  all_chars is_num_char n = true -> n <> "" ->
  all_chars PyStr.is_space b = true ->
  all_chars is_unit_char u = true ->
  all_chars PyStr.is_space c = true ->
  get_grams (a ++ n ++ b ++ u ++ c)
  = match decimal n 0 None false with
    | None => None
    | Some num =>
        let unit := if (u =? "")%string then "g" else PyStr.lower u in
        if (unit =? "g")%string || (unit =? "grams")%string || (unit =? "gr")%string
        then Some num
        else if (unit =? "kg")%string || (unit =? "k")%string
             then Some (float_mul num (float_of_int 1000))
             else None
    end.
Proof.
  intros Ha Hn Hne Hb Hu Hc.
  destruct n as [ | d n]; [congruence | ]. clear Hne.
  assert (Hd : PyStr.is_space d = false).
  { cbn in Hn. apply andb_prop in Hn as [Hd _]. apply num_not_space, Hd. }
  unfold get_grams.
  assert (E0 : ((a ++ String d n ++ b ++ u ++ c =? "")%string
                || (PyStr.strip (a ++ String d n ++ b ++ u ++ c) =? "")%string)
               = false).
  { apply orb_false_iff. split.
    - destruct a; reflexivity.
    - unfold PyStr.strip. rewrite (lstrip_spaces _ _ Ha).
      cbn [append PyStr.lstrip]. rewrite Hd.
      destruct (rstrip_head d (n ++ b ++ u ++ c) Hd) as (r & ->). reflexivity. }
  rewrite E0.
  rewrite (span_all_app PyStr.is_space a _ Ha); [ | exact Hd].
  rewrite (span_all_app is_num_char (String d n) _ Hn).
  2:{ apply (starts_outside_app _ _ _ _ space_not_num Hb).
      apply (starts_outside_app _ _ _ _ unit_not_num Hu).
      apply (starts_outside_all _ _ _ space_not_num Hc). }
  destruct u as [ | e u].
  - cbn [append]. rewrite <- (append_empty (b ++ c)).
    assert (Hbc : all_chars PyStr.is_space (b ++ c) = true).
    { clear - Hb Hc. induction b as [ | x b IH]; [exact Hc | ].
      cbn in *. apply andb_prop in Hb as [Hx Hb]. rewrite Hx. exact (IH Hb). }
    rewrite (span_all_app PyStr.is_space _ "" Hbc I). reflexivity.
  - rewrite (span_all_app PyStr.is_space b _ Hb).
    2:{ cbn in Hu |- *. apply andb_prop in Hu as [He _].
        apply unit_not_space, He. }
    rewrite (span_all_app is_unit_char _ _ Hu).
    2:{ apply (starts_outside_all _ _ _ space_not_unit Hc). }
    rewrite (span_all _ _ Hc). reflexivity.
Qed.

(** X28: a weight without a unit is in grams, and kilograms are
    multiplied by a thousand as floats are. For a number text [n] with
    whatever white space [a], [b] and [c] around it, [get_grams] returns
    for the unit [g] what it returns with no unit, for [kg] in either
    case the float product of that and 1000, and raises for the unit
    [mg]. *)
Theorem kilograms_are_thousand_grams (a n b c : string) :
  all_chars PyStr.is_space a = true ->
  all_chars is_num_char n = true -> n <> "" ->
  all_chars PyStr.is_space b = true ->
  all_chars PyStr.is_space c = true ->
  get_grams (a ++ n ++ b ++ "g" ++ c) = get_grams (a ++ n ++ b ++ c)
  /\ get_grams (a ++ n ++ b ++ "kg" ++ c)
     = option_map (fun num => float_mul num (float_of_int 1000))
                  (get_grams (a ++ n ++ b ++ c))
  /\ get_grams (a ++ n ++ b ++ "KG" ++ c)
     = option_map (fun num => float_mul num (float_of_int 1000))
                  (get_grams (a ++ n ++ b ++ c))
  /\ get_grams (a ++ n ++ b ++ "mg" ++ c) = None.
Proof.
  intros Ha Hn Hne Hb Hc.
  pose proof (get_grams_parts a n b "" c Ha Hn Hne Hb eq_refl Hc) as E.
  cbn [append] in E. rewrite E.
  rewrite (get_grams_parts a n b "g" c Ha Hn Hne Hb eq_refl Hc).
  rewrite (get_grams_parts a n b "kg" c Ha Hn Hne Hb eq_refl Hc).
  rewrite (get_grams_parts a n b "KG" c Ha Hn Hne Hb eq_refl Hc).
  rewrite (get_grams_parts a n b "mg" c Ha Hn Hne Hb eq_refl Hc).
  destruct (decimal n 0 None false); repeat split; reflexivity.
Qed.

(** The text 1.001 with the unit kg: the float nearest to 1.001, and its
    product with 1000, which is the float below 1001. *)
Lemma kilograms_are_thousand_grams_witness :
  get_grams " 1.001 " = Some (S754_finite false 4508103226997866 (-52))
  /\ get_grams " 1.001 kg"
     = option_map (fun num => float_mul num (float_of_int 1000)) (get_grams " 1.001 ")
  /\ get_grams " 1.001 kg" = Some (S754_finite false 8804889115230207 (-43)).
Proof.
  split; [reflexivity | ]. split; [ | reflexivity].
  exact (proj1 (proj2 (kilograms_are_thousand_grams " " "1.001" " " ""
                         eq_refl eq_refl ltac:(discriminate) eq_refl eq_refl))).
Defined.

Lemma span_spec (p : ascii -> bool) (s x y : string) :
  span p s = (x, y) -> s = x ++ y /\ all_chars p x = true.
Proof.
  revert x y. induction s as [ | c s IH]; cbn [span]; intros x y E.
  - inversion E. split; reflexivity.
  - destruct (p c) eqn:Ec.
    + destruct (span p s) as [x' y']. inversion E; subst.
      destruct (IH x' y eq_refl) as [-> Hx]. cbn. rewrite Ec. split; [reflexivity | exact Hx].
    + inversion E. split; reflexivity.
Qed.

Lemma has_char_app (c : ascii) (x y : string) :
  has_char c (x ++ y) = has_char c x || has_char c y.
Proof.
  induction x as [ | d x IH]; cbn; [reflexivity | ].
  rewrite IH, orb_assoc. reflexivity.
Qed.

Lemma all_chars_has_char (p : ascii -> bool) (c : ascii) (s : string) :
  p c = false -> all_chars p s = true -> has_char c s = false.
Proof.
  intros Hc. induction s as [ | d s IH]; cbn; intros Hs; [reflexivity | ].
  apply andb_prop in Hs as [Hd Hs]. rewrite (IH Hs), orb_false_r.
  destruct (Ascii.eqb d c) eqn:E; [ | reflexivity].
  apply Ascii.eqb_eq in E. congruence.
Qed.

Lemma decimal_has_char (c : ascii) (s : string) :
  PyStr.is_digit c = false -> Ascii.eqb c "." = false ->
  forall acc scale digit num,
    decimal s acc scale digit = Some num -> has_char c s = false.
Proof.
  intros Hd Hp. induction s as [ | e s IH]; intros acc scale digit num E;
    [reflexivity | ].
  cbn [decimal] in E. cbn [has_char].
  assert (Hs : has_char c s = false).
  { destruct (PyStr.is_digit e); [exact (IH _ _ _ _ E) | ].
    destruct (Ascii.eqb e "."); [ | discriminate].
    destruct scale; [discriminate | exact (IH _ _ _ _ E)]. }
  rewrite Hs, orb_false_r.
  destruct (Ascii.eqb e c) eqn:Eec; [ | reflexivity].
  apply Ascii.eqb_eq in Eec. subst e. rewrite Hd, Hp in E. discriminate.
Qed.

(** X29: a weight spelt with a comma or with a bar is never read, although
    the pattern of [get_grams] lets both through in the number: whatever
    else the text holds, [get_grams] raises. *)
Theorem comma_weight_rejected (gram_expr : string) :
  has_char "," gram_expr = true \/ has_char "|" gram_expr = true ->
  get_grams gram_expr = None.
Proof.
  intros H. destruct (get_grams gram_expr) as [q | ] eqn:E; [exfalso | reflexivity].
  unfold get_grams in E.
  destruct ((gram_expr =? "")%string || (PyStr.strip gram_expr =? "")%string);
    [discriminate | ].
  destruct (span PyStr.is_space gram_expr) as [a s1] eqn:E1.
  destruct (span is_num_char s1) as [n s2] eqn:E2.
  destruct (span PyStr.is_space s2) as [b s3] eqn:E3.
  destruct (span is_unit_char s3) as [u s4] eqn:E4.
  destruct (span PyStr.is_space s4) as [c s5] eqn:E5.
  destruct (s5 =? "")%string eqn:Es5; [ | discriminate]. cbn [negb] in E.
  apply String.eqb_eq in Es5. subst s5.
  destruct (n =? "")%string; [discriminate | ].
  destruct (decimal n 0 None false) as [num | ] eqn:En; [ | discriminate].
  apply span_spec in E1 as [-> Ha], E2 as [-> _], E3 as [-> Hb],
        E4 as [-> Hu], E5 as [-> Hc].
  assert (Hno : forall x, PyStr.is_space x = false -> is_unit_char x = false ->
                          PyStr.is_digit x = false -> Ascii.eqb x "." = false ->
                          has_char x (a ++ n ++ b ++ u ++ c ++ "") = false).
  { intros x Hx1 Hx2 Hx3 Hx4. rewrite !has_char_app.
    rewrite (all_chars_has_char _ _ _ Hx1 Ha), (all_chars_has_char _ _ _ Hx1 Hb),
      (all_chars_has_char _ _ _ Hx1 Hc), (all_chars_has_char _ _ _ Hx2 Hu),
      (decimal_has_char _ _ Hx3 Hx4 _ _ _ _ En).
    reflexivity. }
  destruct H as [H | H]; rewrite Hno in H; try reflexivity; discriminate H.
Qed.

Lemma comma_weight_rejected_witness :
  (has_char "," "1,5 kg" = true \/ has_char "|" "1,5 kg" = true)
  /\ get_grams "1,5 kg" = None.
Proof.
  split; [left; reflexivity | ].
  exact (comma_weight_rejected "1,5 kg" (or_introl eq_refl)).
Defined.
